(** * Just Chiropractor: the validated, audit-logged mutation pipeline

    A shallow embedding of the Express backend: the slug helper of the blog
    routes, the validation middleware, the authentication middleware, and the
    route handlers of [routes/chiropractors.js], [routes/admin.js],
    [routes/settings.js], [routes/auth.js] and the blog routes, running
    against a model of the PostgreSQL schema created by [scripts/init-db.js].

    Conventions.
    - A JavaScript string is a Rocq [string]; a character is read as the code
      point U+0000..U+00FF it encodes.
    - Every [await db.query(...)] is a step of a state-and-exception monad
      over the database; a thrown error reaches the handler's [catch].
    - Third-party packages ([xss], [jsonwebtoken], [bcrypt], the [validator]
      predicates) and the collation of the database are section variables. *)

From Stdlib Require Import String Ascii List ZArith Lia Bool DecimalString.
Import ListNotations.

Local Open Scope string_scope.
Local Open Scope list_scope.
Local Open Scope Z_scope.

Set Implicit Arguments.
Set Warnings "-register-all".

(* ================================================================== *)
(** ** Characters and strings, as the JavaScript built-ins treat them *)
(* ================================================================== *)

Module Js.

Definition code (c : ascii) : nat := nat_of_ascii c.

Definition between (lo hi : nat) (c : ascii) : bool :=
  (Nat.leb lo (code c) && Nat.leb (code c) hi)%bool.

(** [\d] *)
Definition is_digit (c : ascii) : bool := between 48 57 c.
(** [[a-z]] *)
Definition is_lower (c : ascii) : bool := between 97 122 c.
(** [[A-Z]] *)
Definition is_upper (c : ascii) : bool := between 65 90 c.

(** White space of [String.prototype.trim] and of the regular expression
    class [\s], below U+0100: TAB, LF, VT, FF, CR, SPACE and NBSP. *)
Definition is_space (c : ascii) : bool :=
  (between 9 13 c || Nat.eqb (code c) 32 || Nat.eqb (code c) 160)%bool.

(** [String.prototype.toLowerCase], one character: the letters A-Z, and the
    Latin-1 capitals U+00C0..U+00DE except the multiplication sign U+00D7. *)
Definition lower_char (c : ascii) : ascii :=
  if (is_upper c || (between 192 222 c && negb (Nat.eqb (code c) 215)))%bool
  then ascii_of_nat (code c + 32)
  else c.

Fixpoint toLowerCase (s : string) : string :=
  match s with
  | EmptyString => EmptyString
  | String c r => String (lower_char c) (toLowerCase r)
  end.

Fixpoint trimStart (s : string) : string :=
  match s with
  | String c r => if is_space c then trimStart r else s
  | EmptyString => EmptyString
  end.

Fixpoint trimEnd (s : string) : string :=
  match s with
  | EmptyString => EmptyString
  | String c r =>
      match trimEnd r with
      | EmptyString => if is_space c then EmptyString else String c EmptyString
      | r' => String c r'
      end
  end.

(** [String.prototype.trim] *)
Definition trim (s : string) : string := trimEnd (trimStart s).

(** [s] does not start with white space. *)
Definition tight_start (s : string) : bool :=
  match s with
  | EmptyString => true
  | String c _ => negb (is_space c)
  end.

Definition is_empty (s : string) : bool :=
  match s with EmptyString => true | _ => false end.

Fixpoint all_chars (p : ascii -> bool) (s : string) : bool :=
  match s with
  | EmptyString => true
  | String c r => (p c && all_chars p r)%bool
  end.

Fixpoint some_char (p : ascii -> bool) (s : string) : bool :=
  match s with
  | EmptyString => false
  | String c r => (p c || some_char p r)%bool
  end.

(** [s.startsWith(p)] *)
Definition startsWith (p s : string) : bool := String.prefix p s.

(** [s.slice(n)] for [0 <= n] *)
Fixpoint slice (n : nat) (s : string) : string :=
  match n, s with
  | O, _ => s
  | S k, String _ r => slice k r
  | S _, EmptyString => EmptyString
  end.

(** [s.substring(0, n)] *)
Definition substring0 (n : nat) (s : string) : string := String.substring 0 n s.

(** A digit of [Number.prototype.toString(36)] *)
Definition digit36 (d : Z) : ascii :=
  if d <? 10 then ascii_of_nat (48 + Z.to_nat d)
  else ascii_of_nat (87 + Z.to_nat d).

Fixpoint digits36 (fuel : nat) (n : Z) (acc : string) : string :=
  match fuel with
  | O => String (digit36 (n mod 36)) acc
  | S f =>
      if n <? 36 then String (digit36 n) acc
      else digits36 f (n / 36) (String (digit36 (n mod 36)) acc)
  end.

(** [n.toString(36)] for an integer [n] *)
Definition toString36 (n : Z) : string :=
  if n <? 0 then String "-" (digits36 (Z.to_nat (Z.log2 (- n))) (- n) EmptyString)
  else digits36 (Z.to_nat (Z.log2 n)) n EmptyString.

(** [String(n)] for a natural number *)
Definition decimal (n : nat) : string := NilEmpty.string_of_uint (Nat.to_uint n).

(** JSON values, as far as request bodies and audit snapshots need them. *)
Inductive Value : Type :=
| Undefined
| Null
| Bool (b : bool)
| Number (n : Z)
| Str (s : string)
| Arr (l : list Value)
| Obj (fields : list (string * Value)).

End Js.

(* ================================================================== *)
(** ** The slug helper of the blog routes *)
(* ================================================================== *)

Module Slug.
Import Js.

(** The class [[a-z0-9]] *)
Definition slug_char (c : ascii) : bool := (is_lower c || is_digit c)%bool.

Definition hyphen : ascii := "-"%char.

Definition is_hyphen (c : ascii) : bool := Ascii.eqb c hyphen.

(** [.replace(/[^a-z0-9]+/g, '-')]: every maximal run of characters outside
    [[a-z0-9]] becomes one hyphen.  [in_run] tells that the run the scan is
    in has already been replaced. *)
Fixpoint replace_runs (in_run : bool) (s : string) : string :=
  match s with
  | EmptyString => EmptyString
  | String c r =>
      if slug_char c then String c (replace_runs false r)
      else if in_run then replace_runs true r
      else String hyphen (replace_runs true r)
  end.

(** The alternative [^-+] of [.replace(/^-+|-+$/g, '')] *)
Fixpoint strip_leading (s : string) : string :=
  match s with
  | String c r => if is_hyphen c then strip_leading r else s
  | EmptyString => EmptyString
  end.

(** The alternative [-+$] of [.replace(/^-+|-+$/g, '')] *)
Fixpoint strip_trailing (s : string) : string :=
  match s with
  | EmptyString => EmptyString
  | String c r =>
      let r' := strip_trailing r in
      if (is_hyphen c && is_empty r')%bool then EmptyString else String c r'
  end.

(** [createSlug(title, id = '')] *)
Definition createSlug (title id : string) : string :=
  let baseSlug :=
    strip_trailing (strip_leading (replace_runs false (toLowerCase title))) in
  if is_empty id then baseSlug else (baseSlug ++ "-" ++ id)%string.

(** The regular expression [^[a-z0-9]+(-[a-z0-9]+)*$] as its two-state
    automaton: [in_word] holds after a character of [[a-z0-9]]. *)
Fixpoint slug_dfa (in_word : bool) (s : string) : bool :=
  match s with
  | EmptyString => in_word
  | String c r =>
      if slug_char c then slug_dfa true r
      else if (is_hyphen c && in_word)%bool then slug_dfa false r
      else false
  end.

Definition matches_slug_re (s : string) : bool := slug_dfa false s.

(** Strings over [[a-z0-9-]] without two hyphens in a row;
    [after_hyphen] forbids a hyphen at the very start. *)
Fixpoint loose (after_hyphen : bool) (s : string) : bool :=
  match s with
  | EmptyString => true
  | String c r =>
      if slug_char c then loose false r
      else (is_hyphen c && negb after_hyphen && loose true r)%bool
  end.

(** An alphanumeric character of the input: [[A-Za-z0-9]], the characters
    whose lower-case form is in [[a-z0-9]] *)
Definition alnum (c : ascii) : bool := (is_lower c || is_upper c || is_digit c)%bool.

Definition has_alnum (s : string) : bool := some_char alnum s.

End Slug.

(* ================================================================== *)
(** ** The sanitizer of the validation middleware *)
(* ================================================================== *)

Section Sanitizer.
Import Js.

(** The filter exported by the [xss] package *)
Variable xss : string -> string.

(** [sanitizeInput] *)
Definition sanitizeInput (value : Value) : Value :=
  match value with
  | Str s => Str (xss (trim s))
  | _ => value
  end.

End Sanitizer.

(* ================================================================== *)
(** ** The database created by [scripts/init-db.js] *)
(* ================================================================== *)

Module Db.

(** A row of [users] *)
Record User := mkUser {
  u_id : Z;
  u_email : string;
  u_password : string;
  u_name : string;
  u_role : string;
  u_is_active : bool;
  u_created_at : Z;
  u_updated_at : Z
}.

(** A row of [chiropractors] *)
Record Chiro := mkChiro {
  c_id : Z;
  c_name : string;
  c_state : string;
  c_address : string;
  c_phone : string;
  c_email : string;
  c_website : option string;
  c_specialty : option string;
  c_description : option string;
  c_is_featured : bool;
  c_is_active : bool;
  c_created_at : Z;
  c_updated_at : Z
}.

(** A row of [blog_posts] *)
Record Post := mkPost {
  p_id : Z;
  p_title : string;
  p_slug : string;
  p_content : string;
  p_excerpt : option string;
  p_author : string;
  p_featured_image : option string;
  p_tags : list string;
  p_meta_title : option string;
  p_meta_description : option string;
  p_is_published : bool;
  p_views : Z;
  p_created_at : Z;
  p_updated_at : Z;
  p_published_at : option Z
}.

(** A row of [site_settings] *)
Record Setting := mkSetting {
  s_id : Z;
  s_key : string;
  s_value : option string;
  s_type : option string;
  s_description : option string;
  s_created_at : Z;
  s_updated_at : Z
}.

(** A row of [audit_log] *)
Record AuditEntry := mkAudit {
  a_id : Z;
  a_user_id : option Z;
  a_action : string;
  a_entity_type : option string;
  a_entity_id : option Z;
  a_old_values : option Js.Value;
  a_new_values : option Js.Value;
  a_ip_address : option string;
  a_user_agent : option string;
  a_created_at : Z
}.

(** The tables, each in storage order, and the last value handed out by the
    sequence behind each [SERIAL] column. *)
Record Database := mkDb {
  users : list User;
  chiropractors : list Chiro;
  blog_posts : list Post;
  site_settings : list Setting;
  audit_log : list AuditEntry;
  users_seq : Z;
  chiropractors_seq : Z;
  blog_posts_seq : Z;
  site_settings_seq : Z;
  audit_log_seq : Z
}.

Definition set_users (f : list User -> list User) (d : Database) : Database :=
  mkDb (f (users d)) (chiropractors d) (blog_posts d) (site_settings d)
       (audit_log d) (users_seq d) (chiropractors_seq d) (blog_posts_seq d)
       (site_settings_seq d) (audit_log_seq d).

Definition set_chiropractors (f : list Chiro -> list Chiro) (d : Database) : Database :=
  mkDb (users d) (f (chiropractors d)) (blog_posts d) (site_settings d)
       (audit_log d) (users_seq d) (chiropractors_seq d) (blog_posts_seq d)
       (site_settings_seq d) (audit_log_seq d).

Definition set_blog_posts (f : list Post -> list Post) (d : Database) : Database :=
  mkDb (users d) (chiropractors d) (f (blog_posts d)) (site_settings d)
       (audit_log d) (users_seq d) (chiropractors_seq d) (blog_posts_seq d)
       (site_settings_seq d) (audit_log_seq d).

Definition set_site_settings (f : list Setting -> list Setting) (d : Database) : Database :=
  mkDb (users d) (chiropractors d) (blog_posts d) (f (site_settings d))
       (audit_log d) (users_seq d) (chiropractors_seq d) (blog_posts_seq d)
       (site_settings_seq d) (audit_log_seq d).

Definition set_audit_log (f : list AuditEntry -> list AuditEntry) (d : Database) : Database :=
  mkDb (users d) (chiropractors d) (blog_posts d) (site_settings d)
       (f (audit_log d)) (users_seq d) (chiropractors_seq d) (blog_posts_seq d)
       (site_settings_seq d) (audit_log_seq d).

(** [nextval] of each sequence *)
Definition bump_users_seq (d : Database) : Database :=
  mkDb (users d) (chiropractors d) (blog_posts d) (site_settings d)
       (audit_log d) (users_seq d + 1) (chiropractors_seq d) (blog_posts_seq d)
       (site_settings_seq d) (audit_log_seq d).

Definition bump_chiropractors_seq (d : Database) : Database :=
  mkDb (users d) (chiropractors d) (blog_posts d) (site_settings d)
       (audit_log d) (users_seq d) (chiropractors_seq d + 1) (blog_posts_seq d)
       (site_settings_seq d) (audit_log_seq d).

Definition bump_blog_posts_seq (d : Database) : Database :=
  mkDb (users d) (chiropractors d) (blog_posts d) (site_settings d)
       (audit_log d) (users_seq d) (chiropractors_seq d) (blog_posts_seq d + 1)
       (site_settings_seq d) (audit_log_seq d).

Definition bump_site_settings_seq (d : Database) : Database :=
  mkDb (users d) (chiropractors d) (blog_posts d) (site_settings d)
       (audit_log d) (users_seq d) (chiropractors_seq d) (blog_posts_seq d)
       (site_settings_seq d + 1) (audit_log_seq d).

Definition bump_audit_log_seq (d : Database) : Database :=
  mkDb (users d) (chiropractors d) (blog_posts d) (site_settings d)
       (audit_log d) (users_seq d) (chiropractors_seq d) (blog_posts_seq d)
       (site_settings_seq d) (audit_log_seq d + 1).

Inductive Table := TUsers | TChiropractors | TBlogPosts | TSiteSettings | TAuditLog.

(** What a statement of a handler can throw: the errors of the database,
    the three errors of [jwt.verify], told apart by their [name], and the
    error of the language itself. *)
Inductive Thrown :=
| StorageFailure      (* the server or the connection failed *)
| UniqueViolation     (* a UNIQUE column would hold a value twice *)
| NotNullViolation    (* NULL for a NOT NULL column *)
| ValueTooLong        (* a string longer than its VARCHAR(n) *)
| InvalidRowCount     (* a negative LIMIT or OFFSET *)
| JsonWebTokenError
| TokenExpiredError
| NotBeforeError
| TypeError.          (* a property of [undefined] was read *)

(** What a request sees of the world around it: the clock, and whether the
    storage behind a table fails during this request. *)
Record Env := mkEnv {
  now : Z;                  (* Date.now(), CURRENT_TIMESTAMP *)
  fault : Table -> bool;    (* the statements on this table throw *)
  random : Z -> Z           (* RANDOM() for the row with this id *)
}.

(** A computation of a handler: it reads and writes the database and either
    returns or throws.  What earlier statements wrote stays written when a
    later one throws: no statement of the routes opens a transaction. *)
Definition M (A : Type) : Type := Database -> Database * (Thrown + A).

Definition ret {A} (a : A) : M A := fun d => (d, inr a).

Definition throw {A} (e : Thrown) : M A := fun d => (d, inl e).

Definition bind {A B} (m : M A) (k : A -> M B) : M B :=
  fun d =>
    match m d with
    | (d', inr a) => k a d'
    | (d', inl e) => (d', inl e)
    end.

(** One [await db.query(...)] on table [t] *)
Definition query {A} (env : Env) (t : Table) (stmt : M A) : M A :=
  fun d => if fault env t then (d, inl StorageFailure) else stmt d.

(** [try { ... } catch (error) { res.status(500).json(...) }] *)
Definition try_catch {A} (m : M A) (handler : Thrown -> A) : Database -> Database * A :=
  fun d =>
    match m d with
    | (d', inr a) => (d', a)
    | (d', inl e) => (d', handler e)
    end.

(** Column constraints *)
Definition varchar (n : nat) (v : option string) : bool :=
  match v with
  | Some s => Nat.leb (String.length s) n
  | None => true
  end.

(** *** Rows as the JSON objects the driver hands to the routes *)

Import Js.

Definition opt_str (v : option string) : Value :=
  match v with Some s => Str s | None => Null end.

Definition opt_num (v : option Z) : Value :=
  match v with Some n => Number n | None => Null end.

Definition user_json (u : User) : Value :=
  Obj [("id", Number (u_id u)); ("email", Str (u_email u));
       ("password", Str (u_password u)); ("name", Str (u_name u));
       ("role", Str (u_role u)); ("is_active", Bool (u_is_active u));
       ("created_at", Number (u_created_at u));
       ("updated_at", Number (u_updated_at u))].

Definition chiro_json (c : Chiro) : Value :=
  Obj [("id", Number (c_id c)); ("name", Str (c_name c));
       ("state", Str (c_state c)); ("address", Str (c_address c));
       ("phone", Str (c_phone c)); ("email", Str (c_email c));
       ("website", opt_str (c_website c));
       ("specialty", opt_str (c_specialty c));
       ("description", opt_str (c_description c));
       ("is_featured", Bool (c_is_featured c));
       ("is_active", Bool (c_is_active c));
       ("created_at", Number (c_created_at c));
       ("updated_at", Number (c_updated_at c))].

Definition post_json (p : Post) : Value :=
  Obj [("id", Number (p_id p)); ("title", Str (p_title p));
       ("slug", Str (p_slug p)); ("content", Str (p_content p));
       ("excerpt", opt_str (p_excerpt p)); ("author", Str (p_author p));
       ("featured_image", opt_str (p_featured_image p));
       ("tags", Arr (map Str (p_tags p)));
       ("meta_title", opt_str (p_meta_title p));
       ("meta_description", opt_str (p_meta_description p));
       ("is_published", Bool (p_is_published p));
       ("views", Number (p_views p));
       ("created_at", Number (p_created_at p));
       ("updated_at", Number (p_updated_at p));
       ("published_at", opt_num (p_published_at p))].

Definition setting_json (s : Setting) : Value :=
  Obj [("id", Number (s_id s)); ("setting_key", Str (s_key s));
       ("setting_value", opt_str (s_value s));
       ("setting_type", opt_str (s_type s));
       ("description", opt_str (s_description s));
       ("created_at", Number (s_created_at s));
       ("updated_at", Number (s_updated_at s))].

Fixpoint assoc (k : string) (fields : list (string * Value)) : option Value :=
  match fields with
  | [] => None
  | (k', v) :: rest => if String.eqb k k' then Some v else assoc k rest
  end.

(** The columns named by a [SELECT] or [RETURNING] list *)
Definition project (cols : list string) (row : Value) : Value :=
  match row with
  | Obj fields =>
      Obj (flat_map (fun c => match assoc c fields with
                              | Some v => [(c, v)]
                              | None => []
                              end) cols)
  | _ => row
  end.

(** *** Statements shared by the routes *)

Definition update_where {R} (p : R -> bool) (f : R -> R) (rows : list R) : list R :=
  map (fun r => if p r then f r else r) rows.

Definition delete_where {R} (p : R -> bool) (rows : list R) : list R :=
  filter (fun r => negb (p r)) rows.

(** [SELECT ... FROM t WHERE p] *)
Definition select {R} (env : Env) (t : Table) (table : Database -> list R)
    (p : R -> bool) : M (list R) :=
  query env t (fun d => (d, inr (filter p (table d)))).

(** [INSERT INTO audit_log (...) VALUES (...)]; the columns not named are
    NULL, [id] and [created_at] take their defaults.  The strings the routes
    store in its VARCHAR columns are the constants below and the address of
    the peer. *)
Definition insert_audit (env : Env) (user_id : option Z) (action : string)
    (entity_type : option string) (entity_id : option Z)
    (old_values new_values : option Value)
    (ip_address user_agent : option string) : M unit :=
  query env TAuditLog (fun d =>
    let d1 := bump_audit_log_seq d in
    let e := mkAudit (audit_log_seq d1) user_id action entity_type entity_id
                     old_values new_values ip_address user_agent (now env) in
    (set_audit_log (fun l => l ++ [e]) d1, inr tt)).

End Db.

Declare Scope db_scope.
Delimit Scope db_scope with db.
Notation "x <- m ;; k" := (Db.bind m (fun x => k))
  (at level 61, m at next level, right associativity) : db_scope.
Notation "' pat <- m ;; k" := (Db.bind m (fun x => match x with pat => k end))
  (at level 61, pat pattern, m at next level, right associativity) : db_scope.

Local Open Scope db_scope.

(* ================================================================== *)
(** ** Requests, responses and the authentication middleware *)
(* ================================================================== *)

Module Http.
Import Js Db.

(** [req.user]: the columns [verifyToken] selects *)
Record Identity := mkIdentity {
  i_id : Z;
  i_email : string;
  i_name : string;
  i_role : string;
  i_is_active : bool
}.

(** What the handlers read of a request besides its parameters and body *)
Record Request := mkRequest {
  authorization : option string;   (* req.headers.authorization *)
  cookie_token : option string;    (* req.cookies?.token *)
  ip : string;                     (* req.ip *)
  user_agent : option string;      (* req.headers['user-agent'] *)
  user : option Identity           (* req.user *)
}.

Definition set_user (i : Identity) (r : Request) : Request :=
  mkRequest (authorization r) (cookie_token r) (ip r) (user_agent r) (Some i).

(** [res.status(status).json(body)], and the cookie [res.cookie('token', _)] sets *)
Record Response := mkResponse {
  status : Z;
  body : Value;
  token_cookie : option string
}.

Definition json (st : Z) (b : Value) : Response := mkResponse st b None.

(** [res.status(st).json({ error: msg })] *)
Definition error (st : Z) (msg : string) : Response :=
  json st (Obj [("error", Str msg)]).

(** A middleware leaves the request as [mw_req]; it either answers
    ([mw_res = Some _], the chain stops) or calls [next()]. *)
Record Mw := mkMw {
  mw_req : Request;
  mw_res : option Response
}.

Definition reject (req : Request) (r : Response) : Mw := mkMw req (Some r).
Definition next (req : Request) : Mw := mkMw req None.

(** The kinds of failure of the authenticator, as the middleware words them *)
Definition MissingCredential : Response := error 401 "Access denied. No token provided.".
Definition InvalidCredential : Response := error 401 "Invalid token.".
Definition ExpiredCredential : Response := error 401 "Token expired.".
Definition UnknownSubject : Response := error 401 "User not found.".
Definition DeactivatedAccount : Response := error 401 "Account is deactivated.".
Definition AuthenticationError : Response := error 500 "Authentication error.".
Definition InsufficientPrivilege : Response :=
  error 403 "Access denied. Admin privileges required.".

Definition identity_of (u : User) : Identity :=
  mkIdentity (u_id u) (u_email u) (u_name u) (u_role u) (u_is_active u).

(** [authHeader && authHeader.startsWith('Bearer ') ? authHeader.slice(7)
     : req.cookies?.token] *)
Definition token_of (req : Request) : option string :=
  match authorization req with
  | Some authHeader =>
      if startsWith "Bearer " authHeader then Some (slice 7 authHeader)
      else cookie_token req
  | None => cookie_token req
  end.

(** [!token] *)
Definition no_token (t : option string) : bool :=
  match t with
  | None => true
  | Some s => is_empty s
  end.

Section Auth.

(** [jwt.verify(token, process.env.JWT_SECRET)] at a given time: the
    [userId] of the payload (absent when the payload has none), or one of
    the errors of the package. *)
Variable jwt_verify : string -> Z -> Thrown + option Z.

Definition jwt_verify_m (env : Env) (token : string) : M (option Z) :=
  fun d => (d, jwt_verify token (now env)).

(** [WHERE id = $1]: no row when the parameter is NULL *)
Definition id_is (x : option Z) (id : Z) : bool :=
  match x with Some v => id =? v | None => false end.

(** [verifyToken] *)
Definition verifyToken (env : Env) (req : Request) : Database -> Database * Mw :=
  match token_of req with
  | None => fun d => (d, reject req MissingCredential)
  | Some token =>
      if is_empty token then fun d => (d, reject req MissingCredential)
      else
        try_catch
          (decoded <- jwt_verify_m env token ;;
           rows <- select env TUsers users (fun u => id_is decoded (u_id u)) ;;
           match rows with
           | [] => ret (reject req UnknownSubject)
           | u :: _ =>
               if negb (u_is_active u) then ret (reject req DeactivatedAccount)
               else ret (next (set_user (identity_of u) req))
           end)
          (fun e =>
             match e with
             | JsonWebTokenError => reject req InvalidCredential
             | TokenExpiredError => reject req ExpiredCredential
             | _ => reject req AuthenticationError
             end)
  end.

(** [isAdmin] *)
Definition isAdmin (req : Request) : Mw :=
  match user req with
  | Some i => if String.eqb (i_role i) "admin" then next req
              else reject req InsufficientPrivilege
  | None => reject req InsufficientPrivilege
  end.

(** [optionalAuth] *)
Definition optionalAuth (env : Env) (req : Request) : Database -> Database * Mw :=
  match token_of req with
  | None => fun d => (d, next req)
  | Some token =>
      if is_empty token then fun d => (d, next req)
      else
        try_catch
          (decoded <- jwt_verify_m env token ;;
           rows <- select env TUsers users
                     (fun u => id_is decoded (u_id u) && u_is_active u)%bool ;;
           match rows with
           | [] => ret (next req)
           | u :: _ => ret (next (set_user (identity_of u) req))
           end)
          (fun _ => next req)
  end.

(** The chain [verifyToken, isAdmin] in front of every admin route: the
    handler runs on the request the chain leaves. *)
Definition admin_only (env : Env) (req : Request)
    (handler : Request -> Database -> Database * Response)
    : Database -> Database * Response :=
  fun d =>
    match verifyToken env req d with
    | (d1, mkMw _ (Some r)) => (d1, r)
    | (d1, mkMw req1 None) =>
        match isAdmin req1 with
        | mkMw _ (Some r) => (d1, r)
        | mkMw req2 None => handler req2 d1
        end
    end.

End Auth.

End Http.

(* ================================================================== *)
(** ** The validation middleware *)
(* ================================================================== *)

Module Validate.
Import Js Db Http.

(** A field of a JSON body that carries text: absent, or a string. *)
Definition Field := option string.

(** One violation: [{ field: err.path, message: err.msg }] *)
Definition Violation := (string * string)%type.

(** The links of a validation chain: a standard sanitizer, a custom
    sanitizer, and a standard validator with its [withMessage]. *)
Inductive Step :=
| Sanitize (f : string -> string)
| Custom (f : Value -> Value)
| Verify (ok : string -> bool) (message : string).

(** [.optional()] and [.optional({ checkFalsy: true })] *)
Inductive Presence := Required | Optional | OptionalFalsy.

(** The string a standard validator or sanitizer sees *)
Definition toString (v : Field) : string :=
  match v with Some s => s | None => EmptyString end.

Definition to_value (v : Field) : Value :=
  match v with Some s => Str s | None => Undefined end.

Definition of_value (v : Value) : Field :=
  match v with Str s => Some s | _ => None end.

(** A chain runs all its links in order: a failing validator records its
    message and the chain goes on (no link is [.bail()]). *)
Fixpoint run_steps (steps : list Step) (v : Field) : list string * Field :=
  match steps with
  | [] => ([], v)
  | Sanitize f :: rest => run_steps rest (Some (f (toString v)))
  | Custom f :: rest => run_steps rest (of_value (f (to_value v)))
  | Verify ok message :: rest =>
      let (errs, v') := run_steps rest v in
      ((if ok (toString v) then [] else [message]) ++ errs, v')
  end.

Definition skipped (p : Presence) (v : Field) : bool :=
  match p, v with
  | Required, _ => false
  | Optional, None => true
  | Optional, Some _ => false
  | OptionalFalsy, None => true
  | OptionalFalsy, Some s => is_empty s
  end.

(** [body(path)...]: the violations of the field, and the field as the
    sanitizers of the chain leave it in [req.body]. *)
Definition run_chain (path : string) (p : Presence) (steps : list Step)
    (v : Field) : list Violation * Field :=
  if skipped p v then ([], v)
  else let (errs, v') := run_steps steps v in
       (map (fun m => (path, m)) errs, v').

(** [.notEmpty()] *)
Definition notEmpty (s : string) : bool := negb (is_empty s).

(** [.isLength({ min, max })] *)
Definition isLength (min : nat) (max : option nat) (s : string) : bool :=
  (Nat.leb min (String.length s) &&
   match max with Some m => Nat.leb (String.length s) m | None => true end)%bool.

(** [/^[\d\s\-\(\)\+\.]+$/] *)
Definition phone_char (c : ascii) : bool :=
  (is_digit c || is_space c || Ascii.eqb c "-" || Ascii.eqb c "(" ||
   Ascii.eqb c ")" || Ascii.eqb c "+" || Ascii.eqb c ".")%bool.

Definition phone_re (s : string) : bool :=
  (negb (is_empty s) && all_chars phone_char s)%bool.

(** [/^[a-z_]+$/] *)
Definition key_re (s : string) : bool :=
  (negb (is_empty s) && all_chars (fun c => is_lower c || Ascii.eqb c "_") s)%bool.

(** [param('id').isInt({ min: 1 })], the parameter read as the integer it
    denotes *)
Definition idValidation (id : Z) : list Violation :=
  if 1 <=? id then [] else [("id", "Invalid ID")].

(** [handleValidationErrors] *)
Definition handleValidationErrors (errors : list Violation) : option Response :=
  match errors with
  | [] => None
  | _ =>
      Some (json 400
        (Obj [("error", Str "Validation failed");
              ("details",
               Arr (map (fun err => Obj [("field", Str (fst err));
                                         ("message", Str (snd err))])
                        errors))]))
  end.

(** The body of a chiropractor write *)
Record ChiroBody := mkChiroBody {
  cb_name : Field;
  cb_state : Field;
  cb_address : Field;
  cb_phone : Field;
  cb_email : Field;
  cb_website : Field;
  cb_specialty : Field;
  cb_description : Field;
  cb_is_featured : option bool
}.

(** The body of a blog post write *)
Record PostBody := mkPostBody {
  pb_title : Field;
  pb_content : Field;
  pb_author : Field;
  pb_excerpt : Field;
  pb_featured_image : Field;
  pb_tags : option (list string);
  pb_meta_title : Field;
  pb_meta_description : Field;
  pb_is_published : option bool
}.

(** The body of [POST /api/settings] *)
Record SettingBody := mkSettingBody {
  sb_setting_key : Field;
  sb_setting_value : Field;
  sb_setting_type : Field;
  sb_description : Field
}.

(** The body of [POST /api/admin/users] *)
Record UserBody := mkUserBody {
  ub_email : Field;
  ub_password : Field;
  ub_name : Field
}.

(** The body of [POST /api/auth/login] *)
Record LoginBody := mkLoginBody {
  lb_email : Field;
  lb_password : Field
}.

Section Rules.

(** The filter of the [xss] package, and [isEmail], [isURL] (for the
    protocols http and https) and [normalizeEmail] of the [validator]
    package. *)
Variable xss : string -> string.
Variable isEmail : string -> bool.
Variable isURL : string -> bool.
Variable normalizeEmail : string -> string.

(** [.customSanitizer(sanitizeInput)] *)
Definition clean : Step := Custom (sanitizeInput xss).

Definition chiropractorValidation (b : ChiroBody) : list Violation * ChiroBody :=
  let (e1, name) := run_chain "name" Required
    [Sanitize trim; Verify notEmpty "Name is required";
     Verify (isLength 2 (Some 255%nat)) "Name must be between 2 and 255 characters";
     clean] (cb_name b) in
  let (e2, state) := run_chain "state" Required
    [Sanitize trim; Verify notEmpty "State is required";
     Verify (isLength 0 (Some 100%nat)) "State must be less than 100 characters";
     clean] (cb_state b) in
  let (e3, address) := run_chain "address" Required
    [Sanitize trim; Verify notEmpty "Address is required";
     Verify (isLength 0 (Some 500%nat)) "Address must be less than 500 characters";
     clean] (cb_address b) in
  let (e4, phone) := run_chain "phone" Required
    [Sanitize trim; Verify notEmpty "Phone is required";
     Verify phone_re "Invalid phone number format";
     Verify (isLength 0 (Some 50%nat)) "Phone must be less than 50 characters"]
    (cb_phone b) in
  let (e5, email) := run_chain "email" Required
    [Sanitize trim; Verify notEmpty "Email is required";
     Verify isEmail "Invalid email address"; Sanitize normalizeEmail;
     Verify (isLength 0 (Some 255%nat)) "Email must be less than 255 characters"]
    (cb_email b) in
  let (e6, website) := run_chain "website" OptionalFalsy
    [Sanitize trim; Verify isURL "Invalid website URL";
     Verify (isLength 0 (Some 500%nat)) "Website URL must be less than 500 characters"]
    (cb_website b) in
  let (e7, specialty) := run_chain "specialty" OptionalFalsy
    [Sanitize trim;
     Verify (isLength 0 (Some 255%nat)) "Specialty must be less than 255 characters";
     clean] (cb_specialty b) in
  let (e8, description) := run_chain "description" OptionalFalsy
    [Sanitize trim; clean] (cb_description b) in
  (e1 ++ e2 ++ e3 ++ e4 ++ e5 ++ e6 ++ e7 ++ e8,
   mkChiroBody name state address phone email website specialty description
               (cb_is_featured b)).

(** [body('tags.*')]: one run of the chain per element, at path [tags[i]] *)
Fixpoint tagsValidation (i : nat) (tags : list string) : list Violation * list string :=
  match tags with
  | [] => ([], [])
  | t :: rest =>
      let (e, v) := run_chain ("tags[" ++ decimal i ++ "]") Optional
        [Sanitize trim;
         Verify (isLength 0 (Some 50%nat)) "Each tag must be less than 50 characters";
         clean] (Some t) in
      let (es, vs) := tagsValidation (S i) rest in
      (e ++ es, toString v :: vs)
  end.

(** [tags] is an array of strings when present, so [.isArray()] holds. *)
Definition blogPostValidation (b : PostBody) : list Violation * PostBody :=
  let (e1, title) := run_chain "title" Required
    [Sanitize trim; Verify notEmpty "Title is required";
     Verify (isLength 5 (Some 500%nat)) "Title must be between 5 and 500 characters";
     clean] (pb_title b) in
  let (e2, content) := run_chain "content" Required
    [Sanitize trim; Verify notEmpty "Content is required";
     Verify (isLength 50 None) "Content must be at least 50 characters";
     clean] (pb_content b) in
  let (e3, author) := run_chain "author" Required
    [Sanitize trim; Verify notEmpty "Author is required";
     Verify (isLength 0 (Some 255%nat)) "Author must be less than 255 characters";
     clean] (pb_author b) in
  let (e4, excerpt) := run_chain "excerpt" OptionalFalsy
    [Sanitize trim;
     Verify (isLength 0 (Some 500%nat)) "Excerpt must be less than 500 characters";
     clean] (pb_excerpt b) in
  let (e5, featured_image) := run_chain "featured_image" OptionalFalsy
    [Sanitize trim; Verify isURL "Invalid image URL"] (pb_featured_image b) in
  let (e6, tags) :=
    match pb_tags b with
    | Some l => let (e, l') := tagsValidation 0 l in (e, Some l')
    | None => ([], None)
    end in
  let (e7, meta_title) := run_chain "meta_title" OptionalFalsy
    [Sanitize trim;
     Verify (isLength 0 (Some 255%nat)) "Meta title must be less than 255 characters";
     clean] (pb_meta_title b) in
  let (e8, meta_description) := run_chain "meta_description" OptionalFalsy
    [Sanitize trim;
     Verify (isLength 0 (Some 500%nat)) "Meta description must be less than 500 characters";
     clean] (pb_meta_description b) in
  (e1 ++ e2 ++ e3 ++ e4 ++ e5 ++ e6 ++ e7 ++ e8,
   mkPostBody title content author excerpt featured_image tags meta_title
              meta_description (pb_is_published b)).

Definition loginValidation (b : LoginBody) : list Violation * LoginBody :=
  let (e1, email) := run_chain "email" Required
    [Sanitize trim; Verify notEmpty "Email is required";
     Verify isEmail "Invalid email address"; Sanitize normalizeEmail]
    (lb_email b) in
  let (e2, password) := run_chain "password" Required
    [Verify notEmpty "Password is required"] (lb_password b) in
  (e1 ++ e2, mkLoginBody email password).

Definition settingsValidation (b : SettingBody) : list Violation * SettingBody :=
  let (e1, setting_key) := run_chain "setting_key" Required
    [Sanitize trim; Verify notEmpty "Setting key is required";
     Verify (isLength 0 (Some 255%nat)) "Setting key must be less than 255 characters";
     Verify key_re "Setting key must be lowercase letters and underscores only"]
    (sb_setting_key b) in
  let (e2, setting_value) := run_chain "setting_value" Optional [clean]
    (sb_setting_value b) in
  (e1 ++ e2,
   mkSettingBody setting_key setting_value (sb_setting_type b) (sb_description b)).

(** The inline rules of [POST /api/admin/users]; a validator without
    [withMessage] reports [Invalid value]. *)
Definition userValidation (b : UserBody) : list Violation * UserBody :=
  let (e1, email) := run_chain "email" Required
    [Verify isEmail "Invalid value"; Sanitize normalizeEmail] (ub_email b) in
  let (e2, password) := run_chain "password" Required
    [Verify (isLength 8 None) "Invalid value"] (ub_password b) in
  let (e3, name) := run_chain "name" Required
    [Sanitize trim; Verify notEmpty "Invalid value"] (ub_name b) in
  (e1 ++ e2 ++ e3, mkUserBody email password name).

End Rules.

End Validate.

(* ================================================================== *)
(** ** The statements on [chiropractors] *)
(* ================================================================== *)

Module ChiroSql.
Import Js Db.

(** [x || null] on a text field *)
Definition or_null (v : option string) : option string :=
  match v with
  | Some s => if is_empty s then None else Some s
  | None => None
  end.

(** [x || false] on a flag *)
Definition or_false (v : option bool) : bool :=
  match v with Some b => b | None => false end.

Definition has_id (id : Z) (c : Chiro) : bool := c_id c =? id.

(** The VARCHAR bounds of the table *)
Definition fits (name state phone email website specialty : option string) : bool :=
  (varchar 255 name && varchar 100 state && varchar 50 phone &&
   varchar 255 email && varchar 500 website && varchar 255 specialty)%bool.

(** [INSERT INTO chiropractors (name, state, address, phone, email, website,
     specialty, description, is_featured) VALUES (...) RETURNING *] *)
Definition insert_chiropractor (env : Env)
    (name state address phone email website specialty description : option string)
    (is_featured : bool) : M (list Chiro) :=
  query env TChiropractors (fun d =>
    let d1 := bump_chiropractors_seq d in
    match name, state, address, phone, email with
    | Some n, Some s, Some a, Some p, Some e =>
        if fits name state phone email website specialty then
          let row := mkChiro (chiropractors_seq d1) n s a p e website specialty
                             description is_featured true (now env) (now env) in
          (set_chiropractors (fun l => l ++ [row]) d1, inr [row])
        else (d1, inl ValueTooLong)
    | _, _, _, _, _ => (d1, inl NotNullViolation)
    end).

(** [UPDATE chiropractors SET name = $1, ..., is_featured = $9 WHERE id = $10
     RETURNING *]; the trigger of the table sets [updated_at]. *)
Definition update_chiropractor (env : Env) (id : Z)
    (name state address phone email website specialty description : option string)
    (is_featured : bool) : M (list Chiro) :=
  query env TChiropractors (fun d =>
    if existsb (has_id id) (chiropractors d) then
      match name, state, address, phone, email with
      | Some n, Some s, Some a, Some p, Some e =>
          if fits name state phone email website specialty then
            let f r := mkChiro (c_id r) n s a p e website specialty description
                               is_featured (c_is_active r) (c_created_at r)
                               (now env) in
            (set_chiropractors (update_where (has_id id) f) d,
             inr (map f (filter (has_id id) (chiropractors d))))
          else (d, inl ValueTooLong)
      | _, _, _, _, _ => (d, inl NotNullViolation)
      end
    else (d, inr [])).

(** [UPDATE chiropractors SET is_active = $b WHERE id = $1 RETURNING ...];
    the trigger of the table sets [updated_at]. *)
Definition set_active (env : Env) (b : bool) (r : Chiro) : Chiro :=
  mkChiro (c_id r) (c_name r) (c_state r) (c_address r) (c_phone r)
          (c_email r) (c_website r) (c_specialty r) (c_description r)
          (c_is_featured r) b (c_created_at r) (now env).

Definition update_active (env : Env) (id : Z) (b : bool) : M (list Chiro) :=
  query env TChiropractors (fun d =>
    (set_chiropractors (update_where (has_id id) (set_active env b)) d,
     inr (map (set_active env b) (filter (has_id id) (chiropractors d))))).

(** [DELETE FROM chiropractors WHERE id = $1] *)
Definition delete_chiropractor (env : Env) (id : Z) : M unit :=
  query env TChiropractors (fun d =>
    (set_chiropractors (delete_where (has_id id)) d, inr tt)).

(** [SELECT * FROM chiropractors WHERE id = $1] *)
Definition select_by_id (env : Env) (id : Z) : M (list Chiro) :=
  select env TChiropractors chiropractors (has_id id).

End ChiroSql.

(* ================================================================== *)
(** ** What the public routes read of [chiropractors] *)
(* ================================================================== *)

Module PublicReads.
Import Js Db ChiroSql.

Section Queries.

(** [a <= b] in the collation of the database, and [text ILIKE pattern] *)
Variable collate_le : string -> string -> bool.
Variable ilike : string -> string -> bool.

Fixpoint insert_sorted {R} (le : R -> R -> bool) (x : R) (l : list R) : list R :=
  match l with
  | [] => [x]
  | y :: rest => if le x y then x :: l else y :: insert_sorted le x rest
  end.

(** [ORDER BY] *)
Definition order_by {R} (le : R -> R -> bool) (rows : list R) : list R :=
  fold_right (insert_sorted le) [] rows.

(** [LIMIT limit OFFSET offset] *)
Definition limit_offset {R} (limit offset : Z) (rows : list R) : M (list R) :=
  if ((limit <? 0) || (offset <? 0))%bool then throw InvalidRowCount
  else ret (firstn (Z.to_nat limit) (skipn (Z.to_nat offset) rows)).

(** [ORDER BY is_featured DESC, name ASC] *)
Definition featured_then_name (a b : Chiro) : bool :=
  if Bool.eqb (c_is_featured a) (c_is_featured b)
  then collate_le (c_name a) (c_name b)
  else c_is_featured a.

(** [ORDER BY is_featured DESC, RANDOM()] *)
Definition featured_then_random (env : Env) (a b : Chiro) : bool :=
  if Bool.eqb (c_is_featured a) (c_is_featured b)
  then random env (c_id a) <=? random env (c_id b)
  else c_is_featured a.

Definition by_name (a b : Chiro) : bool := collate_le (c_name a) (c_name b).

(** [NULL ILIKE pattern] is not true *)
Definition opt_ilike (text : option string) (pattern : string) : bool :=
  match text with Some t => ilike t pattern | None => false end.

(** The [WHERE] clause [GET /api/chiropractors] builds: [is_active = true],
    [AND state = $n] if [state] is truthy, and the three [ILIKE]s on
    [%search%] if [search] is truthy. *)
Definition list_where (state search : option string) (c : Chiro) : bool :=
  (c_is_active c &&
   match or_null state with
   | Some s => String.eqb (c_state c) s
   | None => true
   end &&
   match or_null search with
   | Some q =>
       let pattern := ("%" ++ q ++ "%")%string in
       ilike (c_name c) pattern || opt_ilike (c_specialty c) pattern ||
       ilike (c_address c) pattern
   | None => true
   end)%bool.

(** [SELECT DISTINCT state ... ORDER BY state] *)
Definition distinct_states (rows : list Chiro) : list string :=
  order_by collate_le (nodup string_dec (map c_state rows)).

(** [SELECT state, COUNT( * ) as count ... GROUP BY state ORDER BY state ASC];
    the driver hands a [COUNT] over as a string. *)
Definition state_counts (rows : list Chiro) : list Value :=
  map (fun s => Obj [("state", Str s);
                     ("count", Str (decimal (count_occ string_dec (map c_state rows) s)))])
      (distinct_states rows).

Definition rows_json (cols : list string) (rows : list Chiro) : list Value :=
  map (fun c => project cols (chiro_json c)) rows.

(** The statements on [chiropractors] that the routes without authentication
    issue: [routes/chiropractors.js], [routes/seo.js] and [utils/seo.js]. *)
Inductive PublicQuery :=
| QList (state search : option string) (limit offset : Z)
| QListCount (state search : option string)
| QByState (state : string)
| QStates
| QById (id : Z)
| QRelatedState (id : Z)
| QRelated (state : string) (id : Z) (limit : Z)
| QSeo (id : Z)
| QSitemapStates
| QSitemapChiropractors.

(** The rows a public statement returns from the table [rows] *)
Definition answer (env : Env) (q : PublicQuery) (rows : list Chiro) : M (list Value) :=
  match q with
  | QList state search limit offset =>
      page <- limit_offset limit offset
                (order_by featured_then_name (filter (list_where state search) rows)) ;;
      ret (rows_json ["id"; "name"; "state"; "address"; "phone"; "email";
                      "website"; "specialty"; "is_featured"; "created_at"] page)
  | QListCount state search =>
      ret [Obj [("count",
                 Str (decimal (List.length (filter (list_where state search) rows))))]]
  | QByState state =>
      ret (rows_json ["id"; "name"; "state"; "address"; "phone"; "email";
                      "website"; "specialty"; "is_featured"]
             (order_by featured_then_name
                (filter (fun c => String.eqb (c_state c) state && c_is_active c)%bool rows)))
  | QStates => ret (state_counts (filter c_is_active rows))
  | QById id =>
      ret (rows_json ["id"; "name"; "state"; "address"; "phone"; "email";
                      "website"; "specialty"; "description"; "is_featured";
                      "created_at"]
             (filter (fun c => has_id id c && c_is_active c)%bool rows))
  | QRelatedState id =>
      ret (rows_json ["state"] (filter (fun c => has_id id c && c_is_active c)%bool rows))
  | QRelated state id limit =>
      page <- limit_offset limit 0
                (order_by (featured_then_random env)
                   (filter (fun c => String.eqb (c_state c) state &&
                                     negb (has_id id c) && c_is_active c)%bool rows)) ;;
      ret (rows_json ["id"; "name"; "state"; "address"; "phone"; "specialty"] page)
  | QSeo id =>
      ret (rows_json ["name"; "state"; "specialty"; "address"; "phone"; "email"]
             (filter (fun c => has_id id c && c_is_active c)%bool rows))
  | QSitemapStates =>
      ret (map (fun s => Obj [("state", Str s)]) (distinct_states (filter c_is_active rows)))
  | QSitemapChiropractors =>
      ret (rows_json ["id"; "name"; "updated_at"]
             (order_by by_name (filter c_is_active rows)))
  end.

(** One public [await db.query(...)] *)
Definition public_query (env : Env) (q : PublicQuery) : M (list Value) :=
  query env TChiropractors (fun d => answer env q (chiropractors d) d).

End Queries.

End PublicReads.

(* ================================================================== *)
(** ** [routes/chiropractors.js] and the chiropractor routes of
       [routes/admin.js] *)
(* ================================================================== *)

Module Listings.
Import Js Db Http Validate ChiroSql PublicReads.

(** [req.user.id] *)
Definition actor (req : Request) : M Z :=
  match user req with
  | Some i => ret (i_id i)
  | None => throw TypeError
  end.

(** [rows[0]], read for one of its properties *)
Definition first_row {R} (rows : list R) : M R :=
  match rows with
  | r :: _ => ret r
  | [] => throw TypeError
  end.

(** The middleware [..., rules, handleValidationErrors] in front of a
    handler: the handler runs if no rule reported a violation. *)
Definition validated (errors : list Violation)
    (handler : Database -> Database * Response) : Database -> Database * Response :=
  match handleValidationErrors errors with
  | Some r => fun d => (d, r)
  | None => handler
  end.

Section Routes.

Variable xss : string -> string.
Variable isEmail : string -> bool.
Variable isURL : string -> bool.
Variable normalizeEmail : string -> string.
Variable jwt_verify : string -> Z -> Thrown + option Z.
Variable collate_le : string -> string -> bool.
Variable ilike : string -> string -> bool.

(** The handler of [POST /api/chiropractors] *)
Definition create_chiropractor (env : Env) (req : Request) (b : ChiroBody)
    : Database -> Database * Response :=
  try_catch
    (result <- insert_chiropractor env (cb_name b) (cb_state b) (cb_address b)
                 (cb_phone b) (cb_email b) (or_null (cb_website b))
                 (or_null (cb_specialty b)) (or_null (cb_description b))
                 (or_false (cb_is_featured b)) ;;
     uid <- actor req ;;
     row <- first_row result ;;
     _ <- insert_audit env (Some uid) "create" (Some "chiropractor")
            (Some (c_id row)) None (Some (chiro_json row)) (Some (ip req)) None ;;
     ret (json 201 (Obj [("message", Str "Chiropractor created successfully");
                         ("chiropractor", chiro_json row)])))
    (fun _ => error 500 "Failed to create chiropractor").

(** [POST /api/chiropractors] *)
Definition post_chiropractors (env : Env) (req : Request) (b : ChiroBody)
    : Database -> Database * Response :=
  admin_only jwt_verify env req (fun req1 =>
    let (errors, b1) := chiropractorValidation xss isEmail isURL normalizeEmail b in
    validated errors (create_chiropractor env req1 b1)).

(** The handler of [PUT /api/chiropractors/:id] *)
Definition update_chiropractor_handler (env : Env) (req : Request) (id : Z)
    (b : ChiroBody) : Database -> Database * Response :=
  try_catch
    (current <- select_by_id env id ;;
     match current with
     | [] => ret (error 404 "Chiropractor not found")
     | cur :: _ =>
         result <- update_chiropractor env id (cb_name b) (cb_state b)
                     (cb_address b) (cb_phone b) (cb_email b)
                     (or_null (cb_website b)) (or_null (cb_specialty b))
                     (or_null (cb_description b)) (or_false (cb_is_featured b)) ;;
         match result with
         | [] => ret (error 404 "Chiropractor not found")
         | row :: _ =>
             uid <- actor req ;;
             _ <- insert_audit env (Some uid) "update" (Some "chiropractor")
                    (Some id) (Some (chiro_json cur)) (Some (chiro_json row))
                    (Some (ip req)) None ;;
             ret (json 200 (Obj [("message", Str "Chiropractor updated successfully");
                                 ("chiropractor", chiro_json row)]))
         end
     end)
    (fun _ => error 500 "Failed to update chiropractor").

(** [PUT /api/chiropractors/:id] *)
Definition put_chiropractor (env : Env) (req : Request) (id : Z) (b : ChiroBody)
    : Database -> Database * Response :=
  admin_only jwt_verify env req (fun req1 =>
    let (errors, b1) := chiropractorValidation xss isEmail isURL normalizeEmail b in
    validated (idValidation id ++ errors)
              (update_chiropractor_handler env req1 id b1)).

(** The handler of [DELETE /api/chiropractors/:id]: the soft delete *)
Definition soft_delete_chiropractor (env : Env) (req : Request) (id : Z)
    : Database -> Database * Response :=
  try_catch
    (current <- select_by_id env id ;;
     match current with
     | [] => ret (error 404 "Chiropractor not found")
     | cur :: _ =>
         _ <- update_active env id false ;;
         uid <- actor req ;;
         _ <- insert_audit env (Some uid) "delete" (Some "chiropractor")
                (Some id) (Some (chiro_json cur)) None (Some (ip req)) None ;;
         ret (json 200 (Obj [("message", Str "Chiropractor deleted successfully")]))
     end)
    (fun _ => error 500 "Failed to delete chiropractor").

(** [DELETE /api/chiropractors/:id] *)
Definition delete_chiropractor_route (env : Env) (req : Request) (id : Z)
    : Database -> Database * Response :=
  admin_only jwt_verify env req (fun req1 =>
    validated (idValidation id) (soft_delete_chiropractor env req1 id)).

(** The handler of [POST /api/admin/chiropractors/:id/restore] *)
Definition restore_chiropractor (env : Env) (req : Request) (id : Z)
    : Database -> Database * Response :=
  try_catch
    (result <- update_active env id true ;;
     match result with
     | [] => ret (error 404 "Chiropractor not found")
     | row :: _ =>
         uid <- actor req ;;
         _ <- insert_audit env (Some uid) "restore" (Some "chiropractor")
                (Some id) None None (Some (ip req)) None ;;
         ret (json 200 (Obj [("message", Str "Chiropractor restored successfully");
                             ("chiropractor", chiro_json row)]))
     end)
    (fun _ => error 500 "Failed to restore chiropractor").

(** [POST /api/admin/chiropractors/:id/restore] *)
Definition post_restore (env : Env) (req : Request) (id : Z)
    : Database -> Database * Response :=
  admin_only jwt_verify env req (fun req1 => restore_chiropractor env req1 id).

(** The handler of [DELETE /api/admin/chiropractors/:id/permanent] *)
Definition permanent_delete_chiropractor (env : Env) (req : Request) (id : Z)
    : Database -> Database * Response :=
  try_catch
    (current <- select_by_id env id ;;
     match current with
     | [] => ret (error 404 "Chiropractor not found")
     | cur :: _ =>
         _ <- delete_chiropractor env id ;;
         uid <- actor req ;;
         _ <- insert_audit env (Some uid) "permanent_delete" (Some "chiropractor")
                (Some id) (Some (chiro_json cur)) None (Some (ip req)) None ;;
         ret (json 200 (Obj [("message", Str "Chiropractor permanently deleted")]))
     end)
    (fun _ => error 500 "Failed to delete chiropractor").

(** [DELETE /api/admin/chiropractors/:id/permanent] *)
Definition delete_permanent (env : Env) (req : Request) (id : Z)
    : Database -> Database * Response :=
  admin_only jwt_verify env req (fun req1 => permanent_delete_chiropractor env req1 id).

(** [GET /api/chiropractors/:id], public *)
Definition get_chiropractor (env : Env) (id : Z) : Database -> Database * Response :=
  validated (idValidation id)
    (try_catch
       (result <- public_query collate_le ilike env (QById id) ;;
        match result with
        | [] => ret (error 404 "Chiropractor not found")
        | row :: _ => ret (json 200 (Obj [("chiropractor", row)]))
        end)
       (fun _ => error 500 "Failed to fetch chiropractor")).

End Routes.

End Listings.

(* ================================================================== *)
(** ** The blog routes *)
(* ================================================================== *)

Module Blog.
Import Js Db Http Validate Slug Listings.

(** [a || b] on text: [a] if it is a non-empty string *)
Definition or_else (a : option string) (b : string) : string :=
  match a with
  | Some s => if is_empty s then b else s
  | None => b
  end.

(** [is_published !== false] *)
Definition not_false (v : option bool) : bool :=
  match v with Some false => false | _ => true end.

(** [tags || []] *)
Definition or_nil (v : option (list string)) : list string :=
  match v with Some l => l | None => [] end.

Definition has_id (id : Z) (p : Post) : bool := p_id p =? id.
Definition has_slug (slug : string) (p : Post) : bool := String.eqb (p_slug p) slug.

(** The VARCHAR bounds of the table *)
Definition fits (title slug author featured_image meta_title : option string) : bool :=
  (varchar 500 title && varchar 500 slug && varchar 255 author &&
   varchar 500 featured_image && varchar 255 meta_title)%bool.

(** [INSERT INTO blog_posts (title, slug, content, excerpt, author,
     featured_image, tags, meta_title, meta_description, is_published,
     published_at) VALUES (...) RETURNING *] *)
Definition insert_post (env : Env) (title : option string) (slug : string)
    (content : option string) (excerpt : string) (author featured_image : option string)
    (tags : list string) (meta_title : option string) (meta_description : string)
    (is_published : bool) (published_at : option Z) : M (list Post) :=
  query env TBlogPosts (fun d =>
    let d1 := bump_blog_posts_seq d in
    match title, content, author with
    | Some t, Some c, Some a =>
        if negb (fits title (Some slug) author featured_image meta_title)
        then (d1, inl ValueTooLong)
        else if existsb (has_slug slug) (blog_posts d) then (d1, inl UniqueViolation)
        else
          let row := mkPost (blog_posts_seq d1) t slug c (Some excerpt) a
                            featured_image tags meta_title
                            (Some meta_description) is_published 0
                            (now env) (now env) published_at in
          (set_blog_posts (fun l => l ++ [row]) d1, inr [row])
    | _, _, _ => (d1, inl NotNullViolation)
    end).

(** [UPDATE blog_posts SET title = $1, ..., published_at = $11 WHERE id = $12
     RETURNING *]; the trigger of the table sets [updated_at]. *)
Definition update_post (env : Env) (id : Z) (title : option string) (slug : string)
    (content : option string) (excerpt : string) (author featured_image : option string)
    (tags : list string) (meta_title : option string) (meta_description : string)
    (is_published : bool) (published_at : option Z) : M (list Post) :=
  query env TBlogPosts (fun d =>
    if existsb (has_id id) (blog_posts d) then
      match title, content, author with
      | Some t, Some c, Some a =>
          if negb (fits title (Some slug) author featured_image meta_title)
          then (d, inl ValueTooLong)
          else if existsb (fun p => has_slug slug p && negb (has_id id p))%bool
                          (blog_posts d)
          then (d, inl UniqueViolation)
          else
            let f r := mkPost (p_id r) t slug c (Some excerpt) a featured_image
                              tags meta_title (Some meta_description)
                              is_published (p_views r) (p_created_at r)
                              (now env) published_at in
            (set_blog_posts (update_where (has_id id) f) d,
             inr (map f (filter (has_id id) (blog_posts d))))
      | _, _, _ => (d, inl NotNullViolation)
      end
    else (d, inr [])).

(** [UPDATE blog_posts SET views = views + 1 WHERE id = $1]; the trigger of
    the table sets [updated_at]. *)
Definition add_view (env : Env) (r : Post) : Post :=
  mkPost (p_id r) (p_title r) (p_slug r) (p_content r) (p_excerpt r)
         (p_author r) (p_featured_image r) (p_tags r) (p_meta_title r)
         (p_meta_description r) (p_is_published r) (p_views r + 1)
         (p_created_at r) (now env) (p_published_at r).

Definition increment_views (env : Env) (id : Z) : M unit :=
  query env TBlogPosts (fun d =>
    (set_blog_posts (update_where (has_id id) (add_view env)) d, inr tt)).

(** [UPDATE blog_posts SET is_published = $1, published_at = $2 WHERE id = $3
     RETURNING *]; the trigger of the table sets [updated_at]. *)
Definition set_published (env : Env) (b : bool) (at_ : option Z) (r : Post) : Post :=
  mkPost (p_id r) (p_title r) (p_slug r) (p_content r) (p_excerpt r)
         (p_author r) (p_featured_image r) (p_tags r) (p_meta_title r)
         (p_meta_description r) b (p_views r) (p_created_at r) (now env) at_.

Definition update_published (env : Env) (id : Z) (b : bool) (at_ : option Z)
    : M (list Post) :=
  query env TBlogPosts (fun d =>
    (set_blog_posts (update_where (has_id id) (set_published env b at_)) d,
     inr (map (set_published env b at_) (filter (has_id id) (blog_posts d))))).

(** [DELETE FROM blog_posts WHERE id = $1] *)
Definition delete_post (env : Env) (id : Z) : M unit :=
  query env TBlogPosts (fun d =>
    (set_blog_posts (delete_where (has_id id)) d, inr tt)).

(** [SELECT * FROM blog_posts WHERE id = $1] *)
Definition select_by_id (env : Env) (id : Z) : M (list Post) :=
  select env TBlogPosts blog_posts (has_id id).

(** The columns of the two public single-post routes *)
Definition public_columns : list string :=
  ["id"; "title"; "slug"; "content"; "excerpt"; "author"; "featured_image";
   "tags"; "meta_title"; "meta_description"; "views"; "created_at";
   "published_at"].

(** [a || content.substring(0, n)] *)
Definition or_substring (a content : option string) (n : nat) : M string :=
  match ChiroSql.or_null a with
  | Some s => ret s
  | None =>
      match content with
      | Some c => ret (substring0 n c)
      | None => throw TypeError
      end
  end.

(** [createSlug(title)] and [createSlug(title, id)] on [req.body.title] *)
Definition slug_of (title : option string) (id : string) : M string :=
  match title with
  | Some t => ret (createSlug t id)
  | None => throw TypeError
  end.

Section Routes.

Variable xss : string -> string.
Variable isURL : string -> bool.
Variable jwt_verify : string -> Z -> Thrown + option Z.

(** The slug a write stores: [createSlug(title)], or on a collision with a
    row selected by [taken] the same with [Date.now().toString(36)]. *)
Definition unique_slug (env : Env) (title : option string) (taken : Post -> bool)
    : M string :=
  slug <- slug_of title EmptyString ;;
  existingSlug <- select env TBlogPosts blog_posts
                    (fun p => has_slug slug p && taken p)%bool ;;
  match existingSlug with
  | [] => ret slug
  | _ :: _ => slug_of title (toString36 (now env))
  end.

(** The handler of [POST /api/blog] *)
Definition create_post (env : Env) (req : Request) (b : PostBody)
    : Database -> Database * Response :=
  try_catch
    (slug <- unique_slug env (pb_title b) (fun _ => true) ;;
     excerpt <- or_substring (pb_excerpt b) (pb_content b) 200 ;;
     meta_description <-
       or_substring (match ChiroSql.or_null (pb_meta_description b) with
                     | Some m => Some m
                     | None => pb_excerpt b
                     end) (pb_content b) 160 ;;
     result <- insert_post env (pb_title b) slug (pb_content b) excerpt
                 (pb_author b) (ChiroSql.or_null (pb_featured_image b))
                 (or_nil (pb_tags b))
                 (match ChiroSql.or_null (pb_meta_title b) with
                  | Some m => Some m
                  | None => pb_title b
                  end)
                 meta_description (not_false (pb_is_published b))
                 (if not_false (pb_is_published b) then Some (now env) else None) ;;
     uid <- actor req ;;
     row <- first_row result ;;
     _ <- insert_audit env (Some uid) "create" (Some "blog_post")
            (Some (p_id row)) None (Some (post_json row)) (Some (ip req)) None ;;
     ret (json 201 (Obj [("message", Str "Blog post created successfully");
                         ("post", post_json row)])))
    (fun _ => error 500 "Failed to create blog post").

(** [POST /api/blog] *)
Definition post_blog (env : Env) (req : Request) (b : PostBody)
    : Database -> Database * Response :=
  admin_only jwt_verify env req (fun req1 =>
    let (errors, b1) := blogPostValidation xss isURL b in
    validated errors (create_post env req1 b1)).

(** [is_published], as a condition *)
Definition truthy (v : option bool) : bool :=
  match v with Some true => true | _ => false end.

(** [title !== current.rows[0].title] *)
Definition differs (title : option string) (current : string) : bool :=
  match title with
  | Some t => negb (String.eqb t current)
  | None => true
  end.

(** The handler of [PUT /api/blog/:id] *)
Definition update_post_handler (env : Env) (req : Request) (id : Z) (b : PostBody)
    : Database -> Database * Response :=
  try_catch
    (current <- select_by_id env id ;;
     match current with
     | [] => ret (error 404 "Blog post not found")
     | cur :: _ =>
         slug <- (if differs (pb_title b) (p_title cur)
                  then unique_slug env (pb_title b) (fun p => negb (has_id id p))
                  else ret (p_slug cur)) ;;
         let publishedAt :=
           if (truthy (pb_is_published b) && negb (p_is_published cur))%bool
           then Some (now env)
           else if negb (truthy (pb_is_published b)) then None
           else p_published_at cur in
         excerpt <- or_substring (pb_excerpt b) (pb_content b) 200 ;;
         meta_description <-
           or_substring (match ChiroSql.or_null (pb_meta_description b) with
                         | Some m => Some m
                         | None => pb_excerpt b
                         end) (pb_content b) 160 ;;
         result <- update_post env id (pb_title b) slug (pb_content b) excerpt
                     (pb_author b) (ChiroSql.or_null (pb_featured_image b))
                     (or_nil (pb_tags b))
                     (match ChiroSql.or_null (pb_meta_title b) with
                      | Some m => Some m
                      | None => pb_title b
                      end)
                     meta_description (not_false (pb_is_published b)) publishedAt ;;
         uid <- actor req ;;
         _ <- insert_audit env (Some uid) "update" (Some "blog_post") (Some id)
                (Some (post_json cur))
                (match result with
                 | row :: _ => Some (post_json row)
                 | [] => None
                 end) (Some (ip req)) None ;;
         ret (json 200 (Obj [("message", Str "Blog post updated successfully");
                             ("post", match result with
                                      | row :: _ => post_json row
                                      | [] => Undefined
                                      end)]))
     end)
    (fun _ => error 500 "Failed to update blog post").

(** [PUT /api/blog/:id] *)
Definition put_blog (env : Env) (req : Request) (id : Z) (b : PostBody)
    : Database -> Database * Response :=
  admin_only jwt_verify env req (fun req1 =>
    let (errors, b1) := blogPostValidation xss isURL b in
    validated (idValidation id ++ errors) (update_post_handler env req1 id b1)).

(** The handler of [DELETE /api/blog/:id]: a hard delete *)
Definition delete_post_handler (env : Env) (req : Request) (id : Z)
    : Database -> Database * Response :=
  try_catch
    (current <- select_by_id env id ;;
     match current with
     | [] => ret (error 404 "Blog post not found")
     | cur :: _ =>
         _ <- delete_post env id ;;
         uid <- actor req ;;
         _ <- insert_audit env (Some uid) "delete" (Some "blog_post") (Some id)
                (Some (post_json cur)) None (Some (ip req)) None ;;
         ret (json 200 (Obj [("message", Str "Blog post deleted successfully")]))
     end)
    (fun _ => error 500 "Failed to delete blog post").

(** [DELETE /api/blog/:id] *)
Definition delete_blog (env : Env) (req : Request) (id : Z)
    : Database -> Database * Response :=
  admin_only jwt_verify env req (fun req1 =>
    validated (idValidation id) (delete_post_handler env req1 id)).

(** The handler of [POST /api/admin/blog-posts/:id/toggle-publish] *)
Definition toggle_publish (env : Env) (req : Request) (id : Z)
    : Database -> Database * Response :=
  try_catch
    (current <- select_by_id env id ;;
     match current with
     | [] => ret (error 404 "Blog post not found")
     | cur :: _ =>
         let newStatus := negb (p_is_published cur) in
         let publishedAt :=
           if newStatus
           then match p_published_at cur with
                | Some t => Some t
                | None => Some (now env)
                end
           else None in
         result <- update_published env id newStatus publishedAt ;;
         uid <- actor req ;;
         _ <- insert_audit env (Some uid)
                (if newStatus then "publish" else "unpublish")
                (Some "blog_post") (Some id)
                (Some (Obj [("is_published", Bool (p_is_published cur))]))
                (Some (Obj [("is_published", Bool newStatus)]))
                (Some (ip req)) None ;;
         ret (json 200
                (Obj [("message",
                       Str (if newStatus then "Blog post published successfully"
                            else "Blog post unpublished successfully"));
                      ("post", match result with
                               | row :: _ => post_json row
                               | [] => Undefined
                               end)]))
     end)
    (fun _ => error 500 "Failed to toggle publish status").

(** [POST /api/admin/blog-posts/:id/toggle-publish] *)
Definition post_toggle_publish (env : Env) (req : Request) (id : Z)
    : Database -> Database * Response :=
  admin_only jwt_verify env req (fun req1 => toggle_publish env req1 id).

(** The two public single-post routes: the post selected by [hit] among the
    published ones is answered as it was read, and its views are counted. *)
Definition read_post (env : Env) (hit : Post -> bool) : Database -> Database * Response :=
  try_catch
    (result <- select env TBlogPosts blog_posts
                 (fun p => hit p && p_is_published p)%bool ;;
     match result with
     | [] => ret (error 404 "Blog post not found")
     | row :: _ =>
         _ <- increment_views env (p_id row) ;;
         ret (json 200 (Obj [("post", project public_columns (post_json row))]))
     end)
    (fun _ => error 500 "Failed to fetch blog post").

(** [GET /api/blog/slug/:slug] *)
Definition get_blog_by_slug (env : Env) (slug : string) : Database -> Database * Response :=
  read_post env (has_slug slug).

(** [GET /api/blog/:id] *)
Definition get_blog_by_id (env : Env) (id : Z) : Database -> Database * Response :=
  validated (idValidation id) (read_post env (has_id id)).

End Routes.

End Blog.

(* ================================================================== *)
(** ** [routes/settings.js] *)
(* ================================================================== *)

Module Settings.
Import Js Db Http Validate Listings.

Definition has_key (key : string) (s : Setting) : bool := String.eqb (s_key s) key.

(** [SELECT * FROM site_settings WHERE setting_key = $1] *)
Definition select_by_key (env : Env) (key : string) : M (list Setting) :=
  select env TSiteSettings site_settings (has_key key).

(** [UPDATE site_settings SET setting_value = $1 WHERE setting_key = $2
     RETURNING ...]; the trigger of the table sets [updated_at]. *)
Definition set_value (env : Env) (value : option string) (s : Setting) : Setting :=
  mkSetting (s_id s) (s_key s) value (s_type s) (s_description s)
            (s_created_at s) (now env).

Definition update_value (env : Env) (key : string) (value : option string)
    : M (list Setting) :=
  query env TSiteSettings (fun d =>
    (set_site_settings (update_where (has_key key) (set_value env value)) d,
     inr (map (set_value env value) (filter (has_key key) (site_settings d))))).

(** [INSERT INTO site_settings (setting_key, setting_value, setting_type,
     description) VALUES (...) RETURNING *] *)
Definition insert_setting (env : Env) (key : option string)
    (value type description : string) : M (list Setting) :=
  query env TSiteSettings (fun d =>
    let d1 := bump_site_settings_seq d in
    match key with
    | Some k =>
        if negb (varchar 255 key && varchar 50 (Some type))%bool
        then (d1, inl ValueTooLong)
        else if existsb (has_key k) (site_settings d) then (d1, inl UniqueViolation)
        else
          let row := mkSetting (site_settings_seq d1) k (Some value) (Some type)
                               (Some description) (now env) (now env) in
          (set_site_settings (fun l => l ++ [row]) d1, inr [row])
    | None => (d1, inl NotNullViolation)
    end).

(** [DELETE FROM site_settings WHERE setting_key = $1] *)
Definition delete_setting (env : Env) (key : string) : M unit :=
  query env TSiteSettings (fun d =>
    (set_site_settings (delete_where (has_key key)) d, inr tt)).

(** [JSON.stringify({ setting_value: value })]: an absent value leaves the
    object empty. *)
Definition value_json (value : option string) : Value :=
  match value with
  | Some v => Obj [("setting_value", Str v)]
  | None => Obj []
  end.

Section Routes.

Variable xss : string -> string.
Variable jwt_verify : string -> Z -> Thrown + option Z.

(** The handler of [PUT /api/settings/:key] *)
Definition update_setting (env : Env) (req : Request) (key : string)
    (value : option string) : Database -> Database * Response :=
  try_catch
    (current <- select_by_key env key ;;
     match current with
     | [] => ret (error 404 "Setting not found")
     | cur :: _ =>
         result <- update_value env key value ;;
         uid <- actor req ;;
         _ <- insert_audit env (Some uid) "update" (Some "setting")
                (Some (s_id cur))
                (Some (Obj [("setting_value", opt_str (s_value cur))]))
                (Some (value_json value)) (Some (ip req)) None ;;
         row <- first_row result ;;
         ret (json 200 (Obj [("message", Str "Setting updated successfully");
                             ("setting", Obj [("key", Str (s_key row));
                                              ("value", opt_str (s_value row))])]))
     end)
    (fun _ => error 500 "Failed to update setting").

(** [PUT /api/settings/:key] *)
Definition put_setting (env : Env) (req : Request) (key : string)
    (value : option string) : Database -> Database * Response :=
  admin_only jwt_verify env req (fun req1 => update_setting env req1 key value).

(** The loop of the bulk update: one [UPDATE] per entry, the first row each
    returns is collected. *)
Fixpoint bulk_loop (env : Env) (entries : list (string * option string))
    (updated : list Value) : M (list Value) :=
  match entries with
  | [] => ret updated
  | (key, value) :: rest =>
      result <- update_value env key value ;;
      bulk_loop env rest
        (match result with
         | row :: _ =>
             updated ++ [project ["setting_key"; "setting_value"] (setting_json row)]
         | [] => updated
         end)
  end.

(** The handler of [POST /api/settings/bulk]; [settings] is [None] when the
    body has no object under that name. *)
Definition bulk_update (env : Env) (req : Request)
    (settings : option (list (string * option string)))
    : Database -> Database * Response :=
  try_catch
    (match settings with
     | None => ret (error 400 "Invalid settings data")
     | Some entries =>
         updated <- bulk_loop env entries [] ;;
         uid <- actor req ;;
         _ <- insert_audit env (Some uid) "bulk_update" (Some "settings") None
                None (Some (Obj (map (fun e => (fst e, opt_str (snd e))) entries)))
                (Some (ip req)) None ;;
         ret (json 200
                (Obj [("message",
                       Str ("Updated " ++ decimal (List.length updated) ++
                            " settings successfully"));
                      ("updated", Arr updated)]))
     end)
    (fun _ => error 500 "Failed to update settings").

(** [POST /api/settings/bulk] *)
Definition post_bulk (env : Env) (req : Request)
    (settings : option (list (string * option string)))
    : Database -> Database * Response :=
  admin_only jwt_verify env req (fun req1 => bulk_update env req1 settings).

(** The handler of [POST /api/settings] *)
Definition create_setting (env : Env) (req : Request) (b : SettingBody)
    : Database -> Database * Response :=
  try_catch
    (existing <- select env TSiteSettings site_settings
                   (fun s => match sb_setting_key b with
                             | Some k => has_key k s
                             | None => false
                             end) ;;
     match existing with
     | _ :: _ => ret (error 400 "Setting already exists")
     | [] =>
         result <- insert_setting env (sb_setting_key b)
                     (Blog.or_else (sb_setting_value b) "")
                     (Blog.or_else (sb_setting_type b) "text")
                     (Blog.or_else (sb_description b) "") ;;
         uid <- actor req ;;
         row <- first_row result ;;
         _ <- insert_audit env (Some uid) "create" (Some "setting")
                (Some (s_id row)) None (Some (setting_json row)) (Some (ip req)) None ;;
         ret (json 201 (Obj [("message", Str "Setting created successfully");
                             ("setting", setting_json row)]))
     end)
    (fun _ => error 500 "Failed to create setting").

(** [POST /api/settings] *)
Definition post_setting (env : Env) (req : Request) (b : SettingBody)
    : Database -> Database * Response :=
  admin_only jwt_verify env req (fun req1 =>
    let (errors, b1) := settingsValidation xss b in
    validated errors (create_setting env req1 b1)).

Definition coreSettings : list string := ["site_name"; "site_description"; "contact_email"].

(** The handler of [DELETE /api/settings/:key] *)
Definition delete_setting_handler (env : Env) (req : Request) (key : string)
    : Database -> Database * Response :=
  try_catch
    (if existsb (String.eqb key) coreSettings
     then ret (error 400 "Cannot delete core settings")
     else
       current <- select_by_key env key ;;
       match current with
       | [] => ret (error 404 "Setting not found")
       | cur :: _ =>
           _ <- delete_setting env key ;;
           uid <- actor req ;;
           _ <- insert_audit env (Some uid) "delete" (Some "setting") None
                  (Some (setting_json cur)) None (Some (ip req)) None ;;
           ret (json 200 (Obj [("message", Str "Setting deleted successfully")]))
       end)
    (fun _ => error 500 "Failed to delete setting").

(** [DELETE /api/settings/:key] *)
Definition delete_setting_route (env : Env) (req : Request) (key : string)
    : Database -> Database * Response :=
  admin_only jwt_verify env req (fun req1 => delete_setting_handler env req1 key).

End Routes.

End Settings.

(* ================================================================== *)
(** ** The account routes of [routes/admin.js], and [routes/auth.js] *)
(* ================================================================== *)

Module Accounts.
Import Js Db Http Validate Listings.

Definition has_id (id : Z) (u : User) : bool := u_id u =? id.

(** [WHERE email = $1]: no row when the parameter is NULL *)
Definition has_email (email : option string) (u : User) : bool :=
  match email with
  | Some e => String.eqb (u_email u) e
  | None => false
  end.

(** [INSERT INTO users (email, password, name, role) VALUES ($1, $2, $3,
     'admin') RETURNING id, email, name, role, created_at] *)
Definition insert_user (env : Env) (email : option string) (password : string)
    (name : option string) : M (list User) :=
  query env TUsers (fun d =>
    let d1 := bump_users_seq d in
    match email, name with
    | Some e, Some n =>
        if negb (varchar 255 email && varchar 255 (Some password) && varchar 255 name)%bool
        then (d1, inl ValueTooLong)
        else if existsb (has_email email) (users d) then (d1, inl UniqueViolation)
        else
          let row := mkUser (users_seq d1) e password n "admin" true
                            (now env) (now env) in
          (set_users (fun l => l ++ [row]) d1, inr [row])
    | _, _ => (d1, inl NotNullViolation)
    end).

(** [UPDATE users SET is_active = NOT is_active WHERE id = $1 RETURNING ...];
    the trigger of the table sets [updated_at]. *)
Definition flip_active (env : Env) (u : User) : User :=
  mkUser (u_id u) (u_email u) (u_password u) (u_name u) (u_role u)
         (negb (u_is_active u)) (u_created_at u) (now env).

Definition toggle_active_stmt (env : Env) (id : Z) : M (list User) :=
  query env TUsers (fun d =>
    (set_users (update_where (has_id id) (flip_active env)) d,
     inr (map (flip_active env) (filter (has_id id) (users d))))).

Section Routes.

Variable isEmail : string -> bool.
Variable normalizeEmail : string -> string.
Variable jwt_verify : string -> Z -> Thrown + option Z.

(** [jwt.sign({ userId, email, role }, secret, { expiresIn })] at a given time *)
Variable jwt_sign : Z -> string -> string -> Z -> string.

(** [bcrypt.hash(password, rounds)] and [bcrypt.compare(password, hash)] *)
Variable bcrypt_hash : string -> string.
Variable bcrypt_compare : string -> string -> bool.

(** The handler of [POST /api/admin/users] *)
Definition create_user (env : Env) (req : Request) (b : UserBody)
    : Database -> Database * Response :=
  try_catch
    (existing <- select env TUsers users (has_email (ub_email b)) ;;
     match existing with
     | _ :: _ => ret (error 400 "Email already exists")
     | [] =>
         hashedPassword <- match ub_password b with
                           | Some p => ret (bcrypt_hash p)
                           | None => throw TypeError
                           end ;;
         result <- insert_user env (ub_email b) hashedPassword (ub_name b) ;;
         uid <- actor req ;;
         row <- first_row result ;;
         _ <- insert_audit env (Some uid) "create_user" (Some "user")
                (Some (u_id row)) None None (Some (ip req)) None ;;
         ret (json 201
                (Obj [("message", Str "User created successfully");
                      ("user", project ["id"; "email"; "name"; "role"; "created_at"]
                                       (user_json row))]))
     end)
    (fun _ => error 500 "Failed to create user").

(** [POST /api/admin/users] *)
Definition post_users (env : Env) (req : Request) (b : UserBody)
    : Database -> Database * Response :=
  admin_only jwt_verify env req (fun req1 =>
    let (errors, b1) := userValidation isEmail normalizeEmail b in
    validated errors (create_user env req1 b1)).

(** The handler of [POST /api/admin/users/:id/toggle-active] *)
Definition toggle_active (env : Env) (req : Request) (id : Z)
    : Database -> Database * Response :=
  try_catch
    (uid <- actor req ;;
     if id =? uid then ret (error 400 "Cannot deactivate your own account")
     else
       current <- select env TUsers users (has_id id) ;;
       match current with
       | [] => ret (error 404 "User not found")
       | _ :: _ =>
           result <- toggle_active_stmt env id ;;
           row <- first_row result ;;
           _ <- insert_audit env (Some uid)
                  (if u_is_active row then "activate_user" else "deactivate_user")
                  (Some "user") (Some id) None None (Some (ip req)) None ;;
           ret (json 200
                  (Obj [("message",
                         Str (if u_is_active row then "User activated successfully"
                              else "User deactivated successfully"));
                        ("user", project ["id"; "email"; "name"; "role"; "is_active"]
                                         (user_json row))]))
       end)
    (fun _ => error 500 "Failed to toggle user status").

(** [POST /api/admin/users/:id/toggle-active] *)
Definition post_toggle_active (env : Env) (req : Request) (id : Z)
    : Database -> Database * Response :=
  admin_only jwt_verify env req (fun req1 => toggle_active env req1 id).

(** The handler of [POST /api/auth/login] *)
Definition login (env : Env) (req : Request) (b : LoginBody)
    : Database -> Database * Response :=
  try_catch
    (email <- match lb_email b with
              | Some e => ret (toLowerCase e)
              | None => throw TypeError
              end ;;
     result <- select env TUsers users (has_email (Some email)) ;;
     match result with
     | [] => ret (error 401 "Invalid email or password")
     | u :: _ =>
         if negb (u_is_active u) then ret (error 401 "Account is deactivated")
         else
           validPassword <- match lb_password b with
                            | Some p => ret (bcrypt_compare p (u_password u))
                            | None => throw TypeError
                            end ;;
           if negb validPassword then ret (error 401 "Invalid email or password")
           else
             let token := jwt_sign (u_id u) (u_email u) (u_role u) (now env) in
             _ <- insert_audit env (Some (u_id u)) "login" None None None None
                    (Some (ip req)) (user_agent req) ;;
             ret (mkResponse 200
                    (Obj [("message", Str "Login successful");
                          ("user", project ["id"; "email"; "name"; "role"]
                                           (user_json u));
                          ("token", Str token)])
                    (Some token))
     end)
    (fun _ => error 500 "Login failed").

(** [POST /api/auth/login] *)
Definition post_login (env : Env) (req : Request) (b : LoginBody)
    : Database -> Database * Response :=
  let (errors, b1) := loginValidation isEmail normalizeEmail b in
  validated errors (login env req b1).

End Routes.

End Accounts.

(* ================================================================== *)
(** ** The admin write endpoints, as one pipeline *)
(* ================================================================== *)

Module Pipeline.
Import Js Db Http Validate.

(** A write request to an admin endpoint: its route, parameters and body *)
Inductive AdminWrite :=
| CreateListing (b : ChiroBody)               (* POST /api/chiropractors *)
| UpdateListing (id : Z) (b : ChiroBody)      (* PUT /api/chiropractors/:id *)
| DeleteListing (id : Z)                      (* DELETE /api/chiropractors/:id *)
| RestoreListing (id : Z)                     (* POST /api/admin/chiropractors/:id/restore *)
| PermanentDeleteListing (id : Z)             (* DELETE /api/admin/chiropractors/:id/permanent *)
| CreatePost (b : PostBody)                   (* POST /api/blog *)
| UpdatePost (id : Z) (b : PostBody)          (* PUT /api/blog/:id *)
| DeletePost (id : Z)                         (* DELETE /api/blog/:id *)
| TogglePublish (id : Z)                      (* POST /api/admin/blog-posts/:id/toggle-publish *)
| UpdateSetting (key : string) (value : option string)   (* PUT /api/settings/:key *)
| BulkSettings (settings : option (list (string * option string)))  (* POST /api/settings/bulk *)
| CreateSetting (b : SettingBody)             (* POST /api/settings *)
| DeleteSetting (key : string)                (* DELETE /api/settings/:key *)
| CreateUser (b : UserBody)                   (* POST /api/admin/users *)
| ToggleUserActive (id : Z).                  (* POST /api/admin/users/:id/toggle-active *)

Section Pipeline.

Variable xss : string -> string.
Variable isEmail : string -> bool.
Variable isURL : string -> bool.
Variable normalizeEmail : string -> string.
Variable jwt_verify : string -> Z -> Thrown + option Z.
Variable bcrypt_hash : string -> string.

(** The violations the rules of the route report on the request *)
Definition violations (w : AdminWrite) : list Violation :=
  match w with
  | CreateListing b => fst (chiropractorValidation xss isEmail isURL normalizeEmail b)
  | UpdateListing id b =>
      idValidation id ++ fst (chiropractorValidation xss isEmail isURL normalizeEmail b)
  | DeleteListing id => idValidation id
  | CreatePost b => fst (blogPostValidation xss isURL b)
  | UpdatePost id b => idValidation id ++ fst (blogPostValidation xss isURL b)
  | DeletePost id => idValidation id
  | CreateSetting b => fst (settingsValidation xss b)
  | CreateUser b => fst (userValidation isEmail normalizeEmail b)
  | RestoreListing _ | PermanentDeleteListing _ | TogglePublish _
  | UpdateSetting _ _ | BulkSettings _ | DeleteSetting _ | ToggleUserActive _ => []
  end.

(** The handler of the route, on the body its rules leave in [req.body] *)
Definition handler (env : Env) (req : Request) (w : AdminWrite)
    : Database -> Database * Response :=
  match w with
  | CreateListing b =>
      Listings.create_chiropractor env req
        (snd (chiropractorValidation xss isEmail isURL normalizeEmail b))
  | UpdateListing id b =>
      Listings.update_chiropractor_handler env req id
        (snd (chiropractorValidation xss isEmail isURL normalizeEmail b))
  | DeleteListing id => Listings.soft_delete_chiropractor env req id
  | RestoreListing id => Listings.restore_chiropractor env req id
  | PermanentDeleteListing id => Listings.permanent_delete_chiropractor env req id
  | CreatePost b => Blog.create_post env req (snd (blogPostValidation xss isURL b))
  | UpdatePost id b =>
      Blog.update_post_handler env req id (snd (blogPostValidation xss isURL b))
  | DeletePost id => Blog.delete_post_handler env req id
  | TogglePublish id => Blog.toggle_publish env req id
  | UpdateSetting key value => Settings.update_setting env req key value
  | BulkSettings settings => Settings.bulk_update env req settings
  | CreateSetting b => Settings.create_setting env req (snd (settingsValidation xss b))
  | DeleteSetting key => Settings.delete_setting_handler env req key
  | CreateUser b =>
      Accounts.create_user bcrypt_hash env req
        (snd (userValidation isEmail normalizeEmail b))
  | ToggleUserActive id => Accounts.toggle_active env req id
  end.

(** The route as the routers mount it *)
Definition route (env : Env) (req : Request) (w : AdminWrite)
    : Database -> Database * Response :=
  match w with
  | CreateListing b =>
      Listings.post_chiropractors xss isEmail isURL normalizeEmail jwt_verify env req b
  | UpdateListing id b =>
      Listings.put_chiropractor xss isEmail isURL normalizeEmail jwt_verify env req id b
  | DeleteListing id => Listings.delete_chiropractor_route jwt_verify env req id
  | RestoreListing id => Listings.post_restore jwt_verify env req id
  | PermanentDeleteListing id => Listings.delete_permanent jwt_verify env req id
  | CreatePost b => Blog.post_blog xss isURL jwt_verify env req b
  | UpdatePost id b => Blog.put_blog xss isURL jwt_verify env req id b
  | DeletePost id => Blog.delete_blog jwt_verify env req id
  | TogglePublish id => Blog.post_toggle_publish jwt_verify env req id
  | UpdateSetting key value => Settings.put_setting jwt_verify env req key value
  | BulkSettings settings => Settings.post_bulk jwt_verify env req settings
  | CreateSetting b => Settings.post_setting xss jwt_verify env req b
  | DeleteSetting key => Settings.delete_setting_route jwt_verify env req key
  | CreateUser b =>
      Accounts.post_users isEmail normalizeEmail jwt_verify bcrypt_hash env req b
  | ToggleUserActive id => Accounts.post_toggle_active jwt_verify env req id
  end.

(** A response that reports success: 200 or 201 *)
Definition succeeded (r : Response) : bool :=
  ((status r =? 200) || (status r =? 201))%bool.

(** The clock and the randomness of [env], with the storage of the audit
    log failing and the storage of the other tables as in [env]. *)
Definition audit_storage_fails (env : Env) : Env :=
  mkEnv (now env)
        (fun t => match t with TAuditLog => true | _ => fault env t end)
        (random env).

End Pipeline.

End Pipeline.

(* ================================================================== *)
(** ** Stand-ins for the packages, and a small database *)
(* ================================================================== *)

Unset Implicit Arguments.

Module Sample.
Import Js Db Http Validate.

(** A filter that leaves its input as it is *)
Definition plain (s : string) : string := s.

(** A filter that deletes HTML comments, as the [xss] package does first
    with its default options: from each [<!--] up to the next [-->], or to
    the end when there is none. *)
Fixpoint strip_comments (inside : bool) (skip : nat) (s : string) : string :=
  match s with
  | EmptyString => EmptyString
  | String c r =>
      match skip with
      | S k => strip_comments inside k r
      | O =>
          if inside then
            if String.prefix "-->" s then strip_comments false 2 r
            else strip_comments true 0 r
          else if String.prefix "<!--" s then strip_comments true 0 r
          else String c (strip_comments false 0 r)
      end
  end.

Definition without_comments (s : string) : string := strip_comments false 0 s.

(** An address with an at sign; a URL by its scheme *)
Definition has_at (s : string) : bool := some_char (fun c => Ascii.eqb c "@") s.
Definition has_scheme (s : string) : bool :=
  (String.prefix "http://" s || String.prefix "https://" s)%bool.

(** Four tokens: of the administrator, of a deactivated account, an expired
    one, and everything else is malformed. *)
Definition tokens (token : string) (clock : Z) : Thrown + option Z :=
  if String.eqb token "admin.jwt" then inr (Some 1)
  else if String.eqb token "former.jwt" then inr (Some 2)
  else if String.eqb token "expired.jwt" then inl TokenExpiredError
  else inl JsonWebTokenError.

Definition sign (userId : Z) (email role : string) (clock : Z) : string := "admin.jwt".

Definition hash (password : string) : string := ("bcrypt:" ++ password)%string.
Definition compare (password hashed : string) : bool := String.eqb (hash password) hashed.

Definition contains_all (text pattern : string) : bool := true.

(** A request at time [t] with every table's storage working *)
Definition at_time (t : Z) : Env := mkEnv t (fun _ => false) (fun id => id).

Definition admin : User :=
  mkUser 1 "admin@justchiropractor.com" (hash "Admin123!@#") "Administrator"
         "admin" true 10 10.

Definition former : User :=
  mkUser 2 "former@justchiropractor.com" (hash "Former123") "Former" "admin"
         false 20 30.

Definition sarah : Chiro :=
  mkChiro 1 "Dr. Sarah Johnson" "California"
          "123 Main Street, Los Angeles, CA 90001" "(555) 123-4567"
          "sarah.johnson@chiro.com" (Some "https://www.sarahjohnsonchiro.com")
          (Some "Sports Injury & Rehabilitation") None false true 100 100.

Definition benefits : Post :=
  mkPost 1 "5 Benefits of Regular Chiropractic Care"
         "5-benefits-of-regular-chiropractic-care"
         "Regular chiropractic care keeps the spine aligned and the body moving."
         (Some "Why regular care matters") "Dr. Sarah Johnson" None ["wellness"]
         (Some "5 Benefits of Regular Chiropractic Care")
         (Some "Why regular care matters") true 7 100 100 (Some 100).

Definition site_name : Setting :=
  mkSetting 1 "site_name" (Some "Just Chiropractor") (Some "text")
            (Some "The name of the website") 10 10.

Definition primary_color : Setting :=
  mkSetting 5 "primary_color" (Some "#2563eb") (Some "color")
            (Some "Primary brand color") 10 10.

Definition db0 : Database :=
  mkDb [admin; former] [sarah] [benefits] [site_name; primary_color] []
       2 1 1 10 0.

(** A request of the administrator, by bearer token *)
Definition as_admin : Request :=
  mkRequest (Some "Bearer admin.jwt") None "203.0.113.7" (Some "curl/8.5") None.

Definition as_former : Request :=
  mkRequest (Some "Bearer former.jwt") None "203.0.113.7" None None.

Definition with_expired : Request :=
  mkRequest None (Some "expired.jwt") "203.0.113.7" None None.

Definition with_garbage : Request :=
  mkRequest (Some "Bearer not-a-token") None "203.0.113.7" None None.

Definition new_listing : ChiroBody :=
  mkChiroBody (Some "Dr. Michael Chen") (Some "New York")
              (Some "456 Broadway Ave, New York, NY 10001") (Some "(555) 234-5678")
              (Some "michael.chen@chiro.com") None (Some "Pediatric Chiropractic")
              None None.

Definition same_title : PostBody :=
  mkPostBody (Some "5 Benefits of Regular Chiropractic Care")
             (Some "A second look at the five benefits of regular chiropractic care.")
             (Some "Dr. Michael Chen") None None None None None None.

End Sample.

(* ================================================================== *)
(** ** The premises of the claims on authentication and login *)
(* ================================================================== *)

Module Premises.
Import Js Db Http Validate.

(** The three ways a presented credential fails in required mode *)
Inductive Credential :=
| Expired        (* past its expiry *)
| Malformed      (* malformed, or not signed with the secret *)
| Deactivated.   (* of an account whose active flag is false *)

Definition rejection (c : Credential) : Response :=
  match c with
  | Expired => ExpiredCredential
  | Malformed => InvalidCredential
  | Deactivated => DeactivatedAccount
  end.

(** The request carries a credential of kind [c], and the account store
    answers. *)
Definition presents (jwt_verify : string -> Z -> Thrown + option Z)
    (env : Env) (req : Request) (d : Database) (c : Credential) : Prop :=
  exists token,
    token_of req = Some token /\ is_empty token = false /\
    match c with
    | Expired => jwt_verify token (now env) = inl TokenExpiredError
    | Malformed => jwt_verify token (now env) = inl JsonWebTokenError
    | Deactivated =>
        exists subject u others,
          jwt_verify token (now env) = inr subject /\
          fault env TUsers = false /\
          filter (fun u => id_is subject (u_id u)) (users d) = u :: others /\
          u_is_active u = false
    end.

(** The request carries a valid credential of an active account with role
    [admin], and the account store answers: [verifyToken] and [isAdmin]
    call [next()] with the identity [i] attached. *)
Definition authenticated_admin (jwt_verify : string -> Z -> Thrown + option Z)
    (env : Env) (req : Request) (d : Database) (i : Identity) : Prop :=
  exists token subject u others,
    token_of req = Some token /\ is_empty token = false /\
    jwt_verify token (now env) = inr subject /\
    fault env TUsers = false /\
    filter (fun u => id_is subject (u_id u)) (users d) = u :: others /\
    u_is_active u = true /\ u_role u = "admin" /\ i = identity_of u.

(** The values [POST /api/blog] stores for the body [b] with the slug [slug]
    fit the VARCHAR columns of [blog_posts]. *)
Definition post_fits (b : PostBody) (slug : string) : bool :=
  Blog.fits (pb_title b) (Some slug) (pb_author b)
            (ChiroSql.or_null (pb_featured_image b))
            (match ChiroSql.or_null (pb_meta_title b) with
             | Some m => Some m
             | None => pb_title b
             end).

(** The answer of [handleValidationErrors] to a list of violations *)
Definition ValidationFailed (errors : list Violation) : Response :=
  json 400
    (Obj [("error", Str "Validation failed");
          ("details",
           Arr (map (fun err => Obj [("field", Str (fst err));
                                     ("message", Str (snd err))])
                    errors))]).

(** The address [POST /api/auth/login] looks up for a body *)
Definition login_email (normalizeEmail : string -> string) (b : LoginBody) : string :=
  toLowerCase (normalizeEmail (trim (toString (lb_email b)))).

(** No account has the address of the attempt. *)
Definition unknown_account (normalizeEmail : string -> string) (d : Database)
    (b : LoginBody) : Prop :=
  filter (Accounts.has_email (Some (login_email normalizeEmail b))) (users d) = [].

(** An active account has the address of the attempt, and the password of
    the attempt is not its password. *)
Definition wrong_password (normalizeEmail : string -> string)
    (bcrypt_compare : string -> string -> bool) (d : Database) (b : LoginBody) : Prop :=
  exists u others,
    filter (Accounts.has_email (Some (login_email normalizeEmail b))) (users d)
      = u :: others /\
    u_is_active u = true /\
    bcrypt_compare (toString (lb_password b)) (u_password u) = false.

(** The two public routes that answer one post: by slug, or by id *)
Definition public_post (env : Env) (by_ : string + Z) : Database -> Database * Response :=
  match by_ with
  | inl slug => Blog.get_blog_by_slug env slug
  | inr id => Blog.get_blog_by_id env id
  end.

(** The [WHERE] condition of the route on the slug or id *)
Definition selects (by_ : string + Z) : Post -> bool :=
  match by_ with
  | inl slug => Blog.has_slug slug
  | inr id => Blog.has_id id
  end.

(** The rules of the route on its parameter *)
Definition well_formed (by_ : string + Z) : bool :=
  match by_ with
  | inl _ => true
  | inr id => 1 <=? id
  end.

(** The published posts the route selects *)
Definition published (by_ : string + Z) (d : Database) : list Post :=
  filter (fun p => selects by_ p && p_is_published p)%bool (blog_posts d).

End Premises.

(* ================================================================== *)
(** ** What the audit log records of an admin write *)
(* ================================================================== *)

Module Trail.
Import Js Db Http Validate Pipeline.

(** The kind, the subject and the two snapshots of an entry *)
Definition about (e : AuditEntry) (entity_type : string) (entity_id : option Z)
    (old_values new_values : option Value) : Prop :=
  a_entity_type e = Some entity_type /\ a_entity_id e = entity_id /\
  a_old_values e = old_values /\ a_new_values e = new_values.

(** The entry [e] that a successful write [w] leaves, read against the
    database before ([d]) and after ([d']) the request. *)
Definition recorded (w : AdminWrite) (d d' : Database) (e : AuditEntry) : Prop :=
  match w with
  | CreateListing _ =>
      exists row,
        chiropractors d' = chiropractors d ++ [row] /\ a_action e = "create" /\
        about e "chiropractor" (Some (c_id row)) None (Some (chiro_json row))
  | UpdateListing id _ =>
      exists before rest after rest',
        filter (ChiroSql.has_id id) (chiropractors d) = before :: rest /\
        filter (ChiroSql.has_id id) (chiropractors d') = after :: rest' /\
        a_action e = "update" /\
        about e "chiropractor" (Some id) (Some (chiro_json before))
              (Some (chiro_json after))
  | DeleteListing id =>
      exists before rest,
        filter (ChiroSql.has_id id) (chiropractors d) = before :: rest /\
        a_action e = "delete" /\
        about e "chiropractor" (Some id) (Some (chiro_json before)) None
  | RestoreListing id =>
      a_action e = "restore" /\ about e "chiropractor" (Some id) None None
  | PermanentDeleteListing id =>
      exists before rest,
        filter (ChiroSql.has_id id) (chiropractors d) = before :: rest /\
        filter (ChiroSql.has_id id) (chiropractors d') = [] /\
        a_action e = "permanent_delete" /\
        about e "chiropractor" (Some id) (Some (chiro_json before)) None
  | CreatePost _ =>
      exists row,
        blog_posts d' = blog_posts d ++ [row] /\ a_action e = "create" /\
        about e "blog_post" (Some (p_id row)) None (Some (post_json row))
  | UpdatePost id _ =>
      exists before rest after rest',
        filter (Blog.has_id id) (blog_posts d) = before :: rest /\
        filter (Blog.has_id id) (blog_posts d') = after :: rest' /\
        a_action e = "update" /\
        about e "blog_post" (Some id) (Some (post_json before))
              (Some (post_json after))
  | DeletePost id =>
      exists before rest,
        filter (Blog.has_id id) (blog_posts d) = before :: rest /\
        filter (Blog.has_id id) (blog_posts d') = [] /\
        a_action e = "delete" /\
        about e "blog_post" (Some id) (Some (post_json before)) None
  | TogglePublish id =>
      exists before rest,
        filter (Blog.has_id id) (blog_posts d) = before :: rest /\
        a_action e = (if p_is_published before then "unpublish" else "publish") /\
        about e "blog_post" (Some id)
              (Some (Obj [("is_published", Bool (p_is_published before))]))
              (Some (Obj [("is_published", Bool (negb (p_is_published before)))]))
  | UpdateSetting key value =>
      exists before rest,
        filter (Settings.has_key key) (site_settings d) = before :: rest /\
        a_action e = "update" /\
        about e "setting" (Some (s_id before))
              (Some (Obj [("setting_value", opt_str (s_value before))]))
              (Some (Settings.value_json value))
  | BulkSettings settings =>
      exists entries,
        settings = Some entries /\ a_action e = "bulk_update" /\
        about e "settings" None None
              (Some (Obj (map (fun kv => (fst kv, opt_str (snd kv))) entries)))
  | CreateSetting _ =>
      exists row,
        site_settings d' = site_settings d ++ [row] /\ a_action e = "create" /\
        about e "setting" (Some (s_id row)) None (Some (setting_json row))
  | DeleteSetting key =>
      exists before rest,
        filter (Settings.has_key key) (site_settings d) = before :: rest /\
        filter (Settings.has_key key) (site_settings d') = [] /\
        a_action e = "delete" /\ a_entity_type e = Some "setting" /\
        a_old_values e = Some (setting_json before) /\ a_new_values e = None
  | CreateUser _ =>
      exists row,
        users d' = users d ++ [row] /\ a_action e = "create_user" /\
        about e "user" (Some (u_id row)) None None
  | ToggleUserActive id =>
      exists before rest,
        filter (Accounts.has_id id) (users d) = before :: rest /\
        a_action e = (if u_is_active before then "deactivate_user" else "activate_user") /\
        about e "user" (Some id) None None
  end.

(** One entry [e] was appended, for the account [uid] and the peer of
    [req], at the time of the request. *)
Definition appended (env : Env) (req : Request) (uid : Z) (d d' : Database)
    (e : AuditEntry) : Prop :=
  audit_log d' = audit_log d ++ [e] /\ a_user_id e = Some uid /\
  a_ip_address e = Some (ip req) /\ a_created_at e = now env.

(** The entity tables of two databases agree. *)
Definition same_entities (a b : Database) : Prop :=
  users a = users b /\ chiropractors a = chiropractors b /\
  blog_posts a = blog_posts b /\ site_settings a = site_settings b.

(** What the caller and the database see of a run in which only the audit
    log failed, against the database [d] before and the database [d'] that
    the same request leaves when nothing fails. *)
Definition write_without_entry (d d' : Database) (failed : Database * Response) : Prop :=
  status (snd failed) = 500 /\ audit_log (fst failed) = audit_log d /\
  same_entities (fst failed) d'.

End Trail.

(* ================================================================== *)
(** ** The session routes of [routes/auth.js] *)
(* ================================================================== *)

Module Session.
Import Js Db Http Validate Listings.

(** The body of [POST /api/auth/change-password] *)
Record PasswordBody := mkPasswordBody {
  pw_currentPassword : Field;
  pw_newPassword : Field
}.

(** The line terminators that [.] of a regular expression does not match,
    below U+0100: LF and CR. *)
Definition is_line_terminator (c : ascii) : bool :=
  (Nat.eqb (code c) 10 || Nat.eqb (code c) 13)%bool.

(** What [.*] can cross from the start of a string *)
Fixpoint first_line (s : string) : string :=
  match s with
  | EmptyString => EmptyString
  | String c r =>
      if is_line_terminator c then EmptyString else String c (first_line r)
  end.

(** [/^(?=.*[a-z])(?=.*[A-Z])(?=.*\d)/] *)
Definition strong_re (s : string) : bool :=
  (some_char is_lower (first_line s) && some_char is_upper (first_line s) &&
   some_char is_digit (first_line s))%bool.

(** [passwordValidation] *)
Definition passwordValidation (b : PasswordBody) : list Violation * PasswordBody :=
  let (e1, currentPassword) := run_chain "currentPassword" Required
    [Verify notEmpty "Current password is required"] (pw_currentPassword b) in
  let (e2, newPassword) := run_chain "newPassword" Required
    [Verify notEmpty "New password is required";
     Verify (isLength 8 None) "Password must be at least 8 characters";
     Verify strong_re "Password must contain uppercase, lowercase, and number"]
    (pw_newPassword b) in
  (e1 ++ e2, mkPasswordBody currentPassword newPassword).

(** [UPDATE users SET password = $1 WHERE id = $2]; the trigger of the table
    sets [updated_at]. *)
Definition set_password (env : Env) (hashed : string) (u : User) : User :=
  mkUser (u_id u) (u_email u) hashed (u_name u) (u_role u) (u_is_active u)
         (u_created_at u) (now env).

Definition update_password (env : Env) (id : Z) (hashed : string) : M unit :=
  query env TUsers (fun d =>
    if existsb (Accounts.has_id id) (users d) then
      if varchar 255 (Some hashed) then
        (set_users (update_where (Accounts.has_id id) (set_password env hashed)) d,
         inr tt)
      else (d, inl ValueTooLong)
    else (d, inr tt)).

Section Routes.

Variable jwt_verify : string -> Z -> Thrown + option Z.
Variable bcrypt_hash : string -> string.
Variable bcrypt_compare : string -> string -> bool.

(** The middleware [verifyToken] alone in front of a handler *)
Definition verified (env : Env) (req : Request)
    (A : Type) (refuse : Response -> A)
    (handler : Request -> Database -> Database * A)
    : Database -> Database * A :=
  fun d =>
    match verifyToken jwt_verify env req d with
    | (d1, mkMw _ (Some r)) => (d1, refuse r)
    | (d1, mkMw req1 None) => handler req1 d1
    end.

(** The handler of [POST /api/auth/change-password] *)
Definition change_password (env : Env) (req : Request) (b : PasswordBody)
    : Database -> Database * Response :=
  try_catch
    (uid <- actor req ;;
     result <- select env TUsers users (Accounts.has_id uid) ;;
     match result with
     | [] => ret (error 404 "User not found")
     | u :: _ =>
         validPassword <- match pw_currentPassword b with
                          | Some p => ret (bcrypt_compare p (u_password u))
                          | None => throw TypeError
                          end ;;
         if negb validPassword then ret (error 401 "Current password is incorrect")
         else
           hashedPassword <- match pw_newPassword b with
                             | Some p => ret (bcrypt_hash p)
                             | None => throw TypeError
                             end ;;
           _ <- update_password env uid hashedPassword ;;
           _ <- insert_audit env (Some uid) "password_change" None None None None
                  (Some (ip req)) None ;;
           ret (json 200 (Obj [("message", Str "Password changed successfully")]))
     end)
    (fun _ => error 500 "Failed to change password").

(** [POST /api/auth/change-password] *)
Definition post_change_password (env : Env) (req : Request) (b : PasswordBody)
    : Database -> Database * Response :=
  verified env req Response (fun r => r) (fun req1 =>
    let (errors, b1) := passwordValidation b in
    validated errors (change_password env req1 b1)).

(** The answer of [POST /api/auth/logout]: the response, and whether
    [res.clearCookie('token')] was called. *)
Record Farewell := mkFarewell {
  reply : Response;
  cookie_cleared : bool
}.

(** The handler of [POST /api/auth/logout] *)
Definition logout (env : Env) (req : Request) : Database -> Database * Farewell :=
  try_catch
    (uid <- actor req ;;
     _ <- insert_audit env (Some uid) "logout" None None None None
            (Some (ip req)) None ;;
     ret (mkFarewell (json 200 (Obj [("message", Str "Logged out successfully")]))
                     true))
    (fun _ => mkFarewell (error 500 "Logout failed") false).

(** [POST /api/auth/logout] *)
Definition post_logout (env : Env) (req : Request) : Database -> Database * Farewell :=
  verified env req Farewell (fun r => mkFarewell r false)
           (fun req1 => logout env req1).

End Routes.

End Session.

(* ================================================================== *)
(** ** The read routes of [routes/settings.js] and the page route of
       [routes/seo.js] *)
(* ================================================================== *)

Module SettingReads.
Import Js Db Http Settings.

Definition publicSettings : list string :=
  ["site_name"; "site_description"; "site_keywords"; "primary_color";
   "footer_text"; "social_facebook"; "social_twitter"; "social_linkedin"].

(** [setting_key = ANY($1)] and [setting_key IN (...)] *)
Definition key_in (keys : list string) (s : Setting) : bool :=
  existsb (String.eqb (s_key s)) keys.

(** [settings[key] = value] on an object with string keys: an existing
    property keeps its place, a new one goes last.  The values are those of
    the column [setting_value]: NULL or a string. *)
Fixpoint assign (key : string) (value : option string)
    (fields : list (string * option string)) : list (string * option string) :=
  match fields with
  | [] => [(key, value)]
  | (k, v) :: rest =>
      if String.eqb k key then (k, value) :: rest
      else (k, v) :: assign key value rest
  end.

(** [rows.forEach(row => { settings[row.setting_key] = row.setting_value })]
    from the empty object *)
Definition settings_object (rows : list Setting) : list (string * option string) :=
  fold_left (fun fields row => assign (s_key row) (s_value row) fields) rows [].

(** [settings.key] *)
Fixpoint property (key : string) (fields : list (string * option string))
    : option (option string) :=
  match fields with
  | [] => None
  | (k, v) :: rest => if String.eqb k key then Some v else property key rest
  end.

(** [GET /api/settings], public *)
Definition get_settings (env : Env) : Database -> Database * Response :=
  try_catch
    (rows <- select env TSiteSettings site_settings (key_in publicSettings) ;;
     ret (json 200
            (Obj [("settings",
                   Obj (map (fun kv => (fst kv, opt_str (snd kv)))
                            (settings_object rows)))])))
    (fun _ => error 500 "Failed to fetch settings").

(** [settings.key || fallback]: the property if it is a non-empty string *)
Definition or_default (v : option (option string)) (fallback : string) : string :=
  match v with
  | Some (Some s) => if is_empty s then fallback else s
  | _ => fallback
  end.

(** [`${settings.key}`]: the property may be absent, NULL or a string *)
Definition template (v : option (option string)) : string :=
  match v with
  | Some (Some s) => s
  | Some None => "null"
  | None => "undefined"
  end.

(** The handler of [GET /api/seo/page/:page] *)
Definition page_seo (env : Env) (page : string) : Database -> Database * Response :=
  try_catch
    (rows <- select env TSiteSettings site_settings
               (key_in ["site_name"; "site_description"; "site_keywords"; "site_url"]) ;;
     let settings := settings_object rows in
     let site_name := property "site_name" settings in
     let site_url := or_default (property "site_url" settings)
                                "https://justchiropractor.com" in
     let title :=
       if String.eqb page "home"
       then (template site_name ++ " - Find Chiropractors Across the USA")%string
       else if String.eqb page "directory"
       then ("Chiropractor Directory - " ++ template site_name)%string
       else if String.eqb page "blog"
       then ("Chiropractic Blog - " ++ template site_name)%string
       else or_default site_name "Just Chiropractor" in
     let description :=
       if String.eqb page "directory"
       then "Browse our comprehensive directory of chiropractors across all 50 states."
       else if String.eqb page "blog"
       then "Read the latest articles about chiropractic care, health tips, and wellness advice."
       else or_default (property "site_description" settings)
                       "Find trusted chiropractors across the USA" in
     ret (json 200
            (Obj [("seo",
                   Obj [("title", Str title);
                        ("description", Str description);
                        ("keywords",
                         Str (or_default (property "site_keywords" settings)
                                "chiropractor, chiropractic care, spine health"));
                        ("canonical",
                         Str (site_url ++ "/" ++
                              (if String.eqb page "home" then "" else page)));
                        ("ogType", Str "website");
                        ("ogImage", Str (site_url ++ "/images/og-default.jpg"))])])))
    (fun _ => error 500 "Failed to fetch SEO data").

End SettingReads.

(* ================================================================== *)
(** ** [utils/seo.js]: the sitemap *)
(* ================================================================== *)

Module Sitemap.
Import Js Db Slug.

Local Open Scope string_scope.

(** A line feed and a double quote *)
Definition nl : string := String (ascii_of_nat 10) EmptyString.
Definition dq : string := String (ascii_of_nat 34) EmptyString.

Definition header : string :=
  "<?xml version=" ++ dq ++ "1.0" ++ dq ++ " encoding=" ++ dq ++ "UTF-8" ++ dq ++ "?>"
  ++ nl ++ "<urlset xmlns=" ++ dq ++ "http://www.sitemaps.org/schemas/sitemap/0.9"
  ++ dq ++ ">".

Definition closing : string := nl ++ "</urlset>".

(** [String(n)] for an integer *)
Definition integer (n : Z) : string :=
  if (n <? 0)%Z then "-" ++ decimal (Z.to_nat (- n)) else decimal (Z.to_nat n).

(** One [<url>] element; [lastmod] is the last line of the element, empty
    for the elements that have none. *)
Definition url (loc changefreq priority : string) (lastmod : option string) : string :=
  nl ++ "    <url>" ++
  nl ++ "        <loc>" ++ loc ++ "</loc>" ++
  nl ++ "        <changefreq>" ++ changefreq ++ "</changefreq>" ++
  nl ++ "        <priority>" ++ priority ++ "</priority>" ++
  match lastmod with
  | Some l => nl ++ "        " ++ l
  | None => ""
  end ++
  nl ++ "    </url>".

Fixpoint concat_all (l : list string) : string :=
  match l with
  | [] => EmptyString
  | s :: rest => (s ++ concat_all rest)%string
  end.

Section Sitemap.

(** [process.env.SITE_URL], [encodeURIComponent], and the day of a time
    stamp as [toISOString().split('T')[0]] gives it *)
Variable SITE_URL : option string.
Variable encodeURIComponent : string -> string.
Variable iso_day : Z -> string.

(** The collation of the database *)
Variable collate_le : string -> string -> bool.

Definition baseUrl : string := Blog.or_else SITE_URL "https://justchiropractor.com".

Definition static_pages : string :=
  url (baseUrl ++ "/") "daily" "1.0" None ++
  url (baseUrl ++ "/directory") "daily" "0.9" None ++
  url (baseUrl ++ "/blog") "daily" "0.8" None.

(** [${lastmod ? `<lastmod>${lastmod}</lastmod>` : ''}] for the time stamp
    of a row *)
Definition lastmod_of (updated_at : Z) : string :=
  let lastmod := iso_day updated_at in
  if is_empty lastmod then "" else "<lastmod>" ++ lastmod ++ "</lastmod>".

Definition state_url (state : string) : string :=
  url (baseUrl ++ "/directory?state=" ++ encodeURIComponent state) "weekly" "0.7" None.

Definition post_url (p : Post) : string :=
  url (baseUrl ++ "/blog/" ++ p_slug p) "monthly" "0.6"
      (Some (lastmod_of (p_updated_at p))).

Definition chiro_url (c : Chiro) : string :=
  url (baseUrl ++ "/chiropractor/" ++ integer (c_id c) ++ "/" ++
       createSlug (c_name c) "")
      "monthly" "0.5" (Some (lastmod_of (c_updated_at c))).

(** [ORDER BY published_at DESC]: NULL first *)
Definition published_desc (a b : Post) : bool :=
  match p_published_at a, p_published_at b with
  | None, _ => true
  | Some _, None => false
  | Some x, Some y => (y <=? x)%Z
  end.

(** The three statements of [generateSitemap] *)
Definition select_states (env : Env) : M (list string) :=
  query env TChiropractors (fun d =>
    (d, inr (PublicReads.distinct_states collate_le
               (filter c_is_active (chiropractors d))))).

Definition select_posts (env : Env) : M (list Post) :=
  query env TBlogPosts (fun d =>
    (d, inr (PublicReads.order_by published_desc
               (filter p_is_published (blog_posts d))))).

Definition select_chiropractors (env : Env) : M (list Chiro) :=
  query env TChiropractors (fun d =>
    (d, inr (PublicReads.order_by (PublicReads.by_name collate_le)
               (filter c_is_active (chiropractors d))))).

(** [generateSitemap]: [xml] grows statement by statement; an error leaves
    it as far as it got, and the closing tag follows in any case. *)
Definition generateSitemap (env : Env) (d : Database) : Database * string :=
  let xml0 := (header ++ static_pages)%string in
  match select_states env d with
  | (d1, inl _) => (d1, xml0 ++ closing)
  | (d1, inr states) =>
      let xml1 := (xml0 ++ concat_all (map state_url states))%string in
      match select_posts env d1 with
      | (d2, inl _) => (d2, xml1 ++ closing)
      | (d2, inr posts) =>
          let xml2 := (xml1 ++ concat_all (map post_url posts))%string in
          match select_chiropractors env d2 with
          | (d3, inl _) => (d3, xml2 ++ closing)
          | (d3, inr rows) =>
              (d3, xml2 ++ concat_all (map chiro_url rows) ++ closing)
          end
      end
  end.

End Sitemap.

End Sitemap.

(* ================================================================== *)
(** ** Conditions on a request and the database it meets *)
(* ================================================================== *)

Module Conditions.
Import Js Db Http Validate Pipeline.

(** The storage of every table answers. *)
Definition storage_works (env : Env) : Prop := forall t, fault env t = false.

(** The request carries a valid credential of the active account [u]. *)
Definition authenticated (jwt_verify : string -> Z -> Thrown + option Z)
    (env : Env) (req : Request) (d : Database) (u : User) : Prop :=
  exists token subject others,
    token_of req = Some token /\ is_empty token = false /\
    jwt_verify token (now env) = inr subject /\
    fault env TUsers = false /\
    filter (fun u => id_is subject (u_id u)) (users d) = u :: others /\
    u_is_active u = true.

(** The record a write addresses is not in its table.  The writes that
    create rows, and the bulk update, address none. *)
Definition target_missing (w : AdminWrite) (actor_id : Z) (d : Database) : Prop :=
  match w with
  | UpdateListing id _ | DeleteListing id | RestoreListing id
  | PermanentDeleteListing id =>
      filter (ChiroSql.has_id id) (chiropractors d) = []
  | UpdatePost id _ | DeletePost id | TogglePublish id =>
      filter (Blog.has_id id) (blog_posts d) = []
  | UpdateSetting key _ =>
      filter (Settings.has_key key) (site_settings d) = []
  | DeleteSetting key =>
      existsb (String.eqb key) Settings.coreSettings = false /\
      filter (Settings.has_key key) (site_settings d) = []
  | ToggleUserActive id =>
      id <> actor_id /\ filter (Accounts.has_id id) (users d) = []
  | CreateListing _ | CreatePost _ | BulkSettings _ | CreateSetting _
  | CreateUser _ => False
  end.

(** The ids of a table were handed out by its sequence. *)
Definition chiropractor_ids_issued (d : Database) : Prop :=
  0 <= chiropractors_seq d /\
  forall c, In c (chiropractors d) -> c_id c <= chiropractors_seq d.

(** The flag and the time of publication of a post agree. *)
Definition publication_consistent (p : Post) : Prop :=
  p_is_published p = true <-> p_published_at p <> None.

(** What a row written by a listing write holds as its phone *)
Definition phone_of (b : ChiroBody) (row : Chiro) : Prop :=
  c_phone row = trim (toString (cb_phone b)) /\ phone_re (c_phone row) = true /\
  (1 <= String.length (c_phone row) <= 50)%nat.

(** What a write to [site_settings] cannot change of a row *)
Definition setting_frame (s : Setting) : Z * string * option string * option string * Z :=
  (s_id s, s_key s, s_type s, s_description s, s_created_at s).

(** What [PUT /api/chiropractors/:id] cannot change of a row *)
Definition listing_frame (c : Chiro) : Z * bool * Z :=
  (c_id c, c_is_active c, c_created_at c).

(** The time of publication that [PUT /api/blog/:id] stores *)
Definition updated_time (env : Env) (flag : option bool) (cur : Post) : option Z :=
  if (Blog.truthy flag && negb (p_is_published cur))%bool then Some (now env)
  else if negb (Blog.truthy flag) then None
  else p_published_at cur.

(** What [PUT /api/blog/:id] cannot change of a row *)
Definition post_frame (p : Post) : Z * Z * Z := (p_id p, p_views p, p_created_at p).

End Conditions.
(* ================================================================== *)
(** ** Properties of the slug helper *)
(* ================================================================== *)

Module SlugFacts.
Import Js Slug.

#[local] Arguments slug_char : simpl never.
#[local] Arguments is_hyphen : simpl never.
#[local] Arguments alnum : simpl never.
#[local] Arguments hyphen : simpl never.

Lemma slug_char_not_hyphen c : slug_char c = true -> is_hyphen c = false.
Proof.
  unfold is_hyphen, hyphen.
  destruct (Ascii.eqb_spec c "-"%char) as [->|]; [intros H; vm_compute in H; discriminate|auto].
Qed.

Lemma hyphen_not_slug_char : slug_char hyphen = false.
Proof. reflexivity. Qed.

Lemma replace_runs_loose s : forall b, loose b (replace_runs b s) = true.
Proof.
  induction s as [|c r IH]; intros b; simpl; auto.
  destruct (slug_char c) eqn:E.
  - simpl. rewrite E. apply IH.
  - destruct b.
    + apply IH.
    + simpl. rewrite ?hyphen_not_slug_char. simpl. apply IH.
Qed.

Lemma loose_weaken s : forall b, loose b s = true -> loose false s = true.
Proof.
  destruct s as [|c r]; intros b H; simpl in *; auto.
  destruct (slug_char c); auto.
  destruct (is_hyphen c), b; simpl in *; auto; discriminate.
Qed.

Lemma strip_leading_loose s : forall b, loose b s = true -> loose true (strip_leading s) = true.
Proof.
  induction s as [|c r IH]; intros b H; simpl in *; auto.
  destruct (is_hyphen c) eqn:Eh.
  - destruct (slug_char c) eqn:Es.
    + apply slug_char_not_hyphen in Es. congruence.
    + apply andb_prop in H. destruct H as [_ H]. eapply IH; eauto.
  - simpl. destruct (slug_char c) eqn:Es; auto.
    simpl in H. discriminate.
Qed.

Lemma strip_trailing_accepted s : forall w,
  loose (negb w) s = true ->
  if is_empty (strip_trailing s) then True
  else slug_dfa w (strip_trailing s) = true.
Proof.
  induction s as [|c r IH]; intros w H; simpl in *; auto.
  destruct (slug_char c) eqn:Es.
  - rewrite (slug_char_not_hyphen _ Es). simpl. rewrite Es.
    specialize (IH true H).
    destruct (strip_trailing r); simpl in *; auto.
  - apply andb_prop in H. destruct H as [H Hr].
    apply andb_prop in H. destruct H as [Hh Hw].
    rewrite Hh. simpl.
    destruct w; simpl in Hw; try discriminate.
    specialize (IH false Hr).
    destruct (strip_trailing r) eqn:Et; simpl in *; auto.
    rewrite Es, Hh. simpl. exact IH.
Qed.

(** A slug is empty or has the shape of the regular expression. *)
Lemma createSlug_shape title :
  createSlug title "" = "" \/ matches_slug_re (createSlug title "") = true.
Proof.
  unfold createSlug, matches_slug_re. simpl.
  pose proof (replace_runs_loose (toLowerCase title) false) as H.
  apply strip_leading_loose in H.
  apply (strip_trailing_accepted _ false) in H.
  destruct (strip_trailing _); simpl in *; auto.
Qed.

(** The three passes keep exactly the characters of [[a-z0-9]]. *)
Lemma replace_runs_some s : forall b,
  some_char slug_char (replace_runs b s) = some_char slug_char s.
Proof.
  induction s as [|c r IH]; intros b; simpl; auto.
  destruct (slug_char c) eqn:E; simpl.
  - rewrite E. reflexivity.
  - destruct b; simpl; rewrite ?hyphen_not_slug_char; simpl; apply IH.
Qed.

Lemma strip_leading_some s :
  some_char slug_char (strip_leading s) = some_char slug_char s.
Proof.
  induction s as [|c r IH]; simpl; auto.
  destruct (is_hyphen c) eqn:Eh; simpl; auto.
  destruct (slug_char c) eqn:Es; simpl; auto.
  apply slug_char_not_hyphen in Es. congruence.
Qed.

Lemma strip_trailing_some s :
  some_char slug_char (strip_trailing s) = some_char slug_char s.
Proof.
  induction s as [|c r IH]; simpl; auto.
  destruct (is_hyphen c) eqn:Eh; simpl.
  - assert (Es : slug_char c = false).
    { destruct (slug_char c) eqn:Es; auto. apply slug_char_not_hyphen in Es. congruence. }
    destruct (strip_trailing r) eqn:Et; simpl in *; rewrite Es; simpl; auto.
  - rewrite IH. reflexivity.
Qed.

Lemma lower_char_slug c : slug_char (lower_char c) = alnum c.
Proof.
  destruct c as [[] [] [] [] [] [] [] []]; reflexivity.
Qed.

Lemma toLowerCase_some s :
  some_char slug_char (toLowerCase s) = has_alnum s.
Proof.
  unfold has_alnum. induction s as [|c r IH]; simpl; auto.
  rewrite lower_char_slug, IH. reflexivity.
Qed.

Lemma createSlug_some title :
  some_char slug_char (createSlug title "") = has_alnum title.
Proof.
  unfold createSlug. simpl.
  rewrite strip_trailing_some, strip_leading_some, replace_runs_some.
  apply toLowerCase_some.
Qed.

Lemma accepted_some s : slug_dfa false s = true -> some_char slug_char s = true.
Proof.
  destruct s as [|c r]; simpl; try discriminate.
  destruct (slug_char c); simpl; auto.
  rewrite andb_false_r. discriminate.
Qed.


End SlugFacts.

(* ================================================================== *)
(** ** Properties of the sanitizer *)
(* ================================================================== *)

Module SanitizerFacts.
Import Js.

Lemma trimEnd_idempotent s : trimEnd (trimEnd s) = trimEnd s.
Proof.
  induction s as [|c r IH]; simpl; auto.
  destruct (trimEnd r) as [|c' r'] eqn:E.
  - destruct (is_space c) eqn:Es; simpl; auto. rewrite Es. reflexivity.
  - simpl in *. rewrite IH. reflexivity.
Qed.

Lemma trimStart_tight s : tight_start (trimStart s) = true.
Proof.
  induction s as [|c r IH]; simpl; auto.
  destruct (is_space c) eqn:E; simpl; auto. rewrite E. reflexivity.
Qed.

Lemma trimStart_of_tight s : tight_start s = true -> trimStart s = s.
Proof.
  destruct s as [|c r]; simpl; auto.
  destruct (is_space c); simpl; auto. discriminate.
Qed.

Lemma trimEnd_tight s : tight_start s = true -> tight_start (trimEnd s) = true.
Proof.
  destruct s as [|c r]; simpl; auto. intros H.
  destruct (trimEnd r); simpl; auto.
  destruct (is_space c) eqn:E; simpl; rewrite ?E; auto.
Qed.

Lemma trim_idempotent s : trim (trim s) = trim s.
Proof.
  unfold trim.
  rewrite (trimStart_of_tight (trimEnd (trimStart s))).
  - apply trimEnd_idempotent.
  - apply trimEnd_tight, trimStart_tight.
Qed.




End SanitizerFacts.

(* ================================================================== *)
(** ** Properties of the authentication middleware and of login *)
(* ================================================================== *)

Module AuthFacts.
Import Js Db Http Validate Premises.

Section Auth.

Variable jwt_verify : string -> Z -> Thrown + option Z.

(** The middleware only reads the database. *)
Lemma verifyToken_reads env req d : fst (verifyToken jwt_verify env req d) = d.
Proof.
  unfold verifyToken.
  destruct (token_of req) as [token|]; auto.
  destruct (is_empty token); auto.
  unfold try_catch, bind, jwt_verify_m, select, query, ret.
  destruct (jwt_verify token (now env)) as [e|subject]; auto.
  destruct (fault env TUsers); auto.
  destruct (filter _ (users d)) as [|u others]; auto.
  destruct (negb (u_is_active u)); auto.
Qed.

(** A request the middleware answers keeps the [req.user] it came with. *)
Lemma verifyToken_rejection_keeps_request env req d :
  mw_res (snd (verifyToken jwt_verify env req d)) <> None ->
  mw_req (snd (verifyToken jwt_verify env req d)) = req.
Proof.
  unfold verifyToken.
  destruct (token_of req) as [token|]; auto.
  destruct (is_empty token); auto.
  unfold try_catch, bind, jwt_verify_m, select, query, ret.
  destruct (jwt_verify token (now env)) as [e|subject].
  - destruct e; auto.
  - destruct (fault env TUsers); auto.
    destruct (filter _ (users d)) as [|u others]; auto.
    destruct (negb (u_is_active u)); simpl; auto. congruence.
Qed.

(** C5. In required mode an expired credential is answered with
    [ExpiredCredential], a malformed or unsigned one with
    [InvalidCredential], one whose subject is an account with active flag
    false with [DeactivatedAccount]; and whenever the middleware answers
    instead of calling [next()], no identity is attached to the request. *)
Theorem verifyToken_rejects :
  forall (env : Env) (req : Request) (d : Database) (c : Credential),
    presents jwt_verify env req d c ->
    verifyToken jwt_verify env req d = (d, reject req (rejection c))
    /\ user (mw_req (snd (verifyToken jwt_verify env req d))) = user req
    /\ forall env' req' d',
         mw_res (snd (verifyToken jwt_verify env' req' d')) <> None ->
         user (mw_req (snd (verifyToken jwt_verify env' req' d'))) = user req'.
Proof.
  intros env req d c (token & Htok & Hne & Hc).
  assert (Hrun : verifyToken jwt_verify env req d = (d, reject req (rejection c))).
  { unfold verifyToken. rewrite Htok, Hne.
    unfold try_catch, bind, jwt_verify_m, select, query, ret.
    destruct c; simpl.
    - rewrite Hc. reflexivity.
    - rewrite Hc. reflexivity.
    - destruct Hc as (subject & u & others & Hjwt & Hfault & Hrows & Hoff).
      rewrite Hjwt, Hfault, Hrows, Hoff. reflexivity. }
  split; [exact Hrun|]. split.
  - rewrite Hrun. reflexivity.
  - intros env' req' d' H. rewrite verifyToken_rejection_keeps_request; auto.
Qed.

End Auth.

Lemma verifyToken_rejects_witness :
  verifyToken Sample.tokens (Sample.at_time 200) Sample.with_expired Sample.db0
    = (Sample.db0, reject Sample.with_expired ExpiredCredential)
  /\ user (mw_req (snd (verifyToken Sample.tokens (Sample.at_time 200)
                          Sample.with_expired Sample.db0))) = None.
Proof.
  destruct (verifyToken_rejects Sample.tokens (Sample.at_time 200)
              Sample.with_expired Sample.db0 Expired) as (H1 & H2 & _).
  - exists "expired.jwt". repeat split; reflexivity.
  - split; [exact H1 | exact H2].
Defined.

Example malformed_credential :
  verifyToken Sample.tokens (Sample.at_time 200) Sample.with_garbage Sample.db0
    = (Sample.db0, reject Sample.with_garbage InvalidCredential).
Proof. reflexivity. Qed.

Example deactivated_account :
  verifyToken Sample.tokens (Sample.at_time 200) Sample.as_former Sample.db0
    = (Sample.db0, reject Sample.as_former DeactivatedAccount).
Proof. reflexivity. Qed.

Section Login.

Variable isEmail : string -> bool.
Variable normalizeEmail : string -> string.
Variable jwt_sign : Z -> string -> string -> Z -> string.
Variable bcrypt_compare : string -> string -> bool.

Lemma loginValidation_body b :
  snd (loginValidation isEmail normalizeEmail b)
    = mkLoginBody (Some (normalizeEmail (trim (toString (lb_email b))))) (lb_password b).
Proof.
  unfold loginValidation, run_chain. simpl.
  repeat match goal with
         | |- context [if ?c then _ else _] => destruct c
         end; reflexivity.
Qed.

Lemma post_login_valid env req b d :
  fst (loginValidation isEmail normalizeEmail b) = [] ->
  Accounts.post_login isEmail normalizeEmail jwt_sign bcrypt_compare env req b d
    = Accounts.login jwt_sign bcrypt_compare env req
        (mkLoginBody (Some (normalizeEmail (trim (toString (lb_email b)))))
                     (lb_password b)) d.
Proof.
  intros Hv. unfold Accounts.post_login.
  pose proof (loginValidation_body b) as Hb.
  destruct (loginValidation isEmail normalizeEmail b) as [errors b1].
  simpl in *. subst. reflexivity.
Qed.

Lemma valid_login_has_password b :
  fst (loginValidation isEmail normalizeEmail b) = [] ->
  lb_password b = Some (toString (lb_password b)).
Proof.
  unfold loginValidation, run_chain. simpl.
  destruct (lb_password b) as [p|]; auto.
  simpl.
  repeat match goal with
         | |- context [if ?c then _ else _] => destruct c
         end; simpl; discriminate.
Qed.


End Login.


End AuthFacts.

(* ================================================================== *)
(** ** Properties of the blog routes *)
(* ================================================================== *)

Module BlogFacts.
Import Js Db Http Validate Premises Blog.

Lemma read_post_cases env hit d :
  let rows := filter (fun p => hit p && p_is_published p)%bool (blog_posts d) in
  read_post env hit d =
    if fault env TBlogPosts then (d, error 500 "Failed to fetch blog post")
    else match rows with
         | [] => (d, error 404 "Blog post not found")
         | row :: _ =>
             (set_blog_posts (update_where (has_id (p_id row)) (add_view env)) d,
              json 200 (Obj [("post", project public_columns (post_json row))]))
         end.
Proof.
  unfold read_post, try_catch, bind, select, increment_views, query, ret.
  destruct (fault env TBlogPosts) eqn:Hf; auto.
  simpl. destruct (filter _ (blog_posts d)); auto.
Qed.




End BlogFacts.

(* ================================================================== *)
(** ** Slug collisions on [POST /api/blog] *)
(* ================================================================== *)

Module CollisionFacts.
Import Js Db Http Validate Premises Slug Blog.

Lemma length_append (a b : string) :
  String.length (a ++ b) = (String.length a + String.length b)%nat.
Proof. induction a as [|c a IH]; simpl; auto. Qed.

Lemma digits36_not_empty fuel : forall n acc, is_empty (digits36 fuel n acc) = false.
Proof.
  induction fuel as [|f IH]; intros n acc; simpl; auto.
  destruct (n <? 36); auto.
Qed.

Lemma toString36_not_empty n : is_empty (toString36 n) = false.
Proof.
  unfold toString36. destruct (n <? 0); auto. apply digits36_not_empty.
Qed.

(** A slug with a suffix is longer than the slug without. *)
Lemma createSlug_suffix_differs title id :
  is_empty id = false -> createSlug title id <> createSlug title "".
Proof.
  intros Hid H. unfold createSlug in H. rewrite Hid in H. simpl in H.
  apply (f_equal String.length) in H.
  rewrite !length_append in H. simpl in H. lia.
Qed.

Lemma filter_of_existsb {A} (f : A -> bool) (l : list A) :
  existsb f l = true -> exists x rest, filter f l = x :: rest.
Proof.
  induction l as [|a l IH]; simpl; try discriminate.
  destruct (f a); eauto.
Qed.

Lemma filter_nil_of_existsb {A} (f : A -> bool) (l : list A) :
  existsb f l = false -> filter f l = [].
Proof.
  induction l as [|a l IH]; simpl; auto.
  destruct (f a); simpl; auto. discriminate.
Qed.

Section Routes.

Variable xss : string -> string.
Variable isURL : string -> bool.
Variable jwt_verify : string -> Z -> Thrown + option Z.

Lemma admin_only_pass env req d i handler :
  authenticated_admin jwt_verify env req d i ->
  admin_only jwt_verify env req handler d = handler (set_user i req) d.
Proof.
  intros (token & subject & u & others & Htok & Hne & Hjwt & Hf & Hrows & Hon & Hrole & ->).
  unfold admin_only, verifyToken.
  rewrite Htok, Hne.
  unfold try_catch, bind, jwt_verify_m, select, query, ret.
  rewrite Hjwt, Hf, Hrows, Hon. simpl.
  unfold isAdmin. simpl. rewrite Hrole. reflexivity.
Qed.

(** The required fields of a blog post leave the rules as strings. *)
Lemma blogPostValidation_required b :
  exists title content author,
    pb_title (snd (blogPostValidation xss isURL b)) = Some title /\
    pb_content (snd (blogPostValidation xss isURL b)) = Some content /\
    pb_author (snd (blogPostValidation xss isURL b)) = Some author.
Proof.
  unfold blogPostValidation. simpl.
  repeat match goal with
         | |- context [let (_, _) := ?p in _] => destruct p
         end.
  cbn [snd pb_title pb_content pb_author].
  do 3 eexists. repeat split; reflexivity.
Qed.

Lemma post_blog_valid env req b d i :
  authenticated_admin jwt_verify env req d i ->
  fst (blogPostValidation xss isURL b) = [] ->
  post_blog xss isURL jwt_verify env req b d
    = create_post env (set_user i req) (snd (blogPostValidation xss isURL b)) d.
Proof.
  intros Hauth Hvalid. unfold post_blog.
  rewrite (admin_only_pass _ _ _ i) by assumption.
  destruct (blogPostValidation xss isURL b) as [errors b1].
  simpl in Hvalid. subst errors. reflexivity.
Qed.

Lemma unique_slug_on_collision env title d :
  fault env TBlogPosts = false ->
  existsb (has_slug (createSlug title "")) (blog_posts d) = true ->
  unique_slug env (Some title) (fun _ => true) d
    = (d, inr (createSlug title (toString36 (now env)))).
Proof.
  intros Hf Hfirst.
  destruct (filter_of_existsb _ _ Hfirst) as (p0 & rest & Hrows).
  unfold unique_slug, bind, slug_of, select, query, ret. rewrite Hf.
  rewrite (filter_ext _ (has_slug (createSlug title "")))
    by (intros p; apply andb_true_r).
  rewrite Hrows. reflexivity.
Qed.

Lemma or_substring_content a content n d :
  or_substring a (Some content) n d
    = (d, inr (match ChiroSql.or_null a with
               | Some s => s
               | None => substring0 n content
               end)).
Proof. unfold or_substring. destruct (ChiroSql.or_null a); reflexivity. Qed.


End Routes.


End CollisionFacts.

(* ================================================================== *)
(** ** Running the admin routes *)
(* ================================================================== *)

Module RunFacts.
Import Js Db Http Validate Premises Pipeline.

(** Split on the innermost [match] of a hypothesis or of the goal. *)
Ltac break_in H :=
  match type of H with
  | context [match ?x with _ => _ end] =>
      lazymatch x with
      | context [match _ with _ => _ end] => fail
      | _ => destruct x eqn:?
      end
  end.

Ltac break_goal :=
  match goal with
  | |- context [match ?x with _ => _ end] =>
      lazymatch x with
      | context [match _ with _ => _ end] => fail
      | _ => destruct x eqn:?
      end
  end.

Ltac unfold_db :=
  unfold try_catch, bind, select, insert_audit, Listings.actor,
         Listings.first_row, query, ret, throw in *.

Section Routes.

Variable jwt_verify : string -> Z -> Thrown + option Z.

Lemma rejections_do_not_succeed :
  succeeded MissingCredential = false /\ succeeded InvalidCredential = false /\
  succeeded ExpiredCredential = false /\ succeeded UnknownSubject = false /\
  succeeded DeactivatedAccount = false /\ succeeded AuthenticationError = false /\
  succeeded InsufficientPrivilege = false.
Proof. repeat split. Qed.

(** What the chain [verifyToken, isAdmin] does: it answers itself, with a
    401, 403 or 500 and the database untouched, or it hands the request with
    the identity of an active administrator to the handler, whatever the
    handler is. *)
Lemma admin_only_inv env req handler d d' r :
  admin_only jwt_verify env req handler d = (d', r) ->
  (d' = d /\ succeeded r = false /\
   (status r = 401 \/ status r = 403 \/ status r = 500))
  \/ (exists u,
        In u (users d) /\ u_is_active u = true /\ u_role u = "admin" /\
        fault env TUsers = false /\
        handler (set_user (identity_of u) req) d = (d', r) /\
        forall h, admin_only jwt_verify env req h d
                  = h (set_user (identity_of u) req) d).
Proof.
  unfold admin_only, verifyToken, isAdmin. intros H.
  destruct (token_of req) as [token|];
    [destruct (is_empty token)|];
    try (inversion H; subst; left; simpl; auto; fail).
  unfold try_catch, bind, jwt_verify_m, select, query, ret in *.
  destruct (jwt_verify token (now env)) as [e|subject].
  - destruct e; inversion H; subst; left; simpl; auto.
  - destruct (fault env TUsers) eqn:Hf;
      [inversion H; subst; left; simpl; auto|].
    destruct (filter _ (users d)) as [|u others] eqn:Hrows;
      [inversion H; subst; left; simpl; auto|].
    assert (Hin : In u (users d)).
    { eapply proj1. eapply filter_In. rewrite Hrows. left; reflexivity. }
    destruct (u_is_active u) eqn:Hon; simpl in H;
      [|inversion H; subst; left; simpl; auto].
    destruct (String.eqb (u_role u) "admin") eqn:Hrole;
      [|inversion H; subst; left; simpl; auto].
    right. exists u. apply String.eqb_eq in Hrole.
    simpl in H.
    repeat (split; [first [assumption | reflexivity]|]).
    intros h. simpl. rewrite Hrole. reflexivity.
Qed.

(** The rules stop a request with a 400 and the database untouched. *)
Lemma validated_inv errors handler d d' r :
  Listings.validated errors handler d = (d', r) ->
  (errors <> [] /\ d' = d /\ handleValidationErrors errors = Some r /\ status r = 400)
  \/ (errors = [] /\ handler d = (d', r)).
Proof.
  unfold Listings.validated. destruct errors as [|e errors]; simpl; intros H.
  - right. auto.
  - left. inversion H; subst. repeat split; auto. discriminate.
Qed.

(** The chain in front of the handlers does not depend on the storage of
    the audit log. *)
Lemma admin_only_audit_storage env req handler d :
  admin_only jwt_verify (audit_storage_fails env) req handler d
    = admin_only jwt_verify env req handler d.
Proof. reflexivity. Qed.

End Routes.

End RunFacts.

(* ================================================================== *)
(** ** Soft delete and restore of a listing *)
(* ================================================================== *)

Module ListingFacts.
Import Js Db Http Validate Premises Pipeline ChiroSql PublicReads RunFacts.

Lemma set_active_id env b c : has_id (c_id c) (set_active env b c) = true.
Proof. unfold has_id. simpl. apply Z.eqb_refl. Qed.

Lemma filter_update_where id env b rows :
  filter (has_id id) (update_where (has_id id) (set_active env b) rows)
    = map (set_active env b) (filter (has_id id) rows).
Proof.
  induction rows as [|c rows IH]; simpl; auto.
  destruct (has_id id c) eqn:E; simpl.
  - unfold has_id in *. simpl. rewrite E. simpl. f_equal. apply IH.
  - rewrite E. apply IH.
Qed.

(** A deactivated row and a deleted row are the same to a query that asks
    for active rows. *)
Lemma deactivated_as_deleted (P : Chiro -> bool) id env rows :
  (forall c, c_is_active c = false -> P c = false) ->
  filter P (update_where (has_id id) (set_active env false) rows)
    = filter P (delete_where (has_id id) rows).
Proof.
  intros HP. unfold delete_where.
  induction rows as [|c rows IH]; simpl; auto.
  destruct (has_id id c) eqn:E; simpl.
  - rewrite HP by reflexivity. apply IH.
  - rewrite IH. reflexivity.
Qed.

Lemma restore_after_delete id env1 env2 rows :
  update_where (has_id id) (set_active env2 true)
    (update_where (has_id id) (set_active env1 false) rows)
  = update_where (has_id id) (set_active env2 true) rows.
Proof.
  unfold update_where. rewrite map_map. apply map_ext. intros c.
  destruct (has_id id c) eqn:E.
  - unfold has_id in *. simpl. rewrite E. reflexivity.
  - rewrite E. reflexivity.
Qed.

Section Queries.

Variable collate_le : string -> string -> bool.
Variable ilike : string -> string -> bool.

(** Every public statement answers from the deactivated table what it
    answers from the table without the row. *)
Lemma public_queries_skip_deactivated env env' q id rows :
  answer collate_le ilike env' q
         (update_where (has_id id) (set_active env false) rows)
  = answer collate_le ilike env' q (delete_where (has_id id) rows).
Proof.
  destruct q; unfold answer;
    rewrite (deactivated_as_deleted _ id env rows); auto;
    intros c Hc; unfold list_where; rewrite Hc;
    rewrite ?andb_false_r; reflexivity.
Qed.

Lemma detail_ignores_flag env b c :
  project ["id"; "name"; "state"; "address"; "phone"; "email"; "website";
           "specialty"; "description"; "is_featured"; "created_at"]
          (chiro_json (set_active env b c))
  = project ["id"; "name"; "state"; "address"; "phone"; "email"; "website";
             "specialty"; "description"; "is_featured"; "created_at"]
            (chiro_json c).
Proof. reflexivity. Qed.

Lemma detail_after_restore env env' id rows :
  answer collate_le ilike env' (QById id)
         (update_where (has_id id) (set_active env true) rows)
  = ret (rows_json ["id"; "name"; "state"; "address"; "phone"; "email";
                    "website"; "specialty"; "description"; "is_featured";
                    "created_at"]
                   (filter (has_id id) rows)).
Proof.
  unfold answer. f_equal. unfold rows_json.
  induction rows as [|c rows IH]; simpl; auto.
  destruct (has_id id c) eqn:E; simpl.
  - unfold has_id in *. simpl. rewrite E. simpl. f_equal. apply IH.
  - rewrite E. simpl. apply IH.
Qed.

Lemma detail_while_deleted env' id rows :
  answer collate_le ilike env' (QById id) (delete_where (has_id id) rows)
  = ret [].
Proof.
  unfold answer, delete_where. f_equal. unfold rows_json.
  induction rows as [|c rows IH]; simpl; auto.
  destruct (has_id id c) eqn:E; simpl; auto.
  rewrite E. simpl. apply IH.
Qed.

End Queries.

Section Routes.

Variable xss : string -> string.
Variable isEmail : string -> bool.
Variable isURL : string -> bool.
Variable normalizeEmail : string -> string.
Variable jwt_verify : string -> Z -> Thrown + option Z.
Variable bcrypt_hash : string -> string.
Variable collate_le : string -> string -> bool.
Variable ilike : string -> string -> bool.

Local Abbreviation route :=
  (Pipeline.route xss isEmail isURL normalizeEmail jwt_verify bcrypt_hash).

Lemma soft_delete_success env req id d d' r :
  Listings.soft_delete_chiropractor env req id d = (d', r) ->
  succeeded r = true ->
  filter (has_id id) (chiropractors d) <> []
  /\ chiropractors d'
     = update_where (has_id id) (set_active env false) (chiropractors d).
Proof.
  unfold Listings.soft_delete_chiropractor, select_by_id, update_active.
  unfold_db. intros H Hok.
  repeat (break_in H; simpl in H); inversion H; subst; try discriminate.
  split; [congruence | reflexivity].
Qed.

Lemma restore_success env req id d d' r :
  Listings.restore_chiropractor env req id d = (d', r) ->
  succeeded r = true ->
  chiropractors d'
    = update_where (has_id id) (set_active env true) (chiropractors d).
Proof.
  unfold Listings.restore_chiropractor, update_active.
  unfold_db. intros H Hok.
  repeat (break_in H; simpl in H); inversion H; subst; try discriminate.
  reflexivity.
Qed.

(** C7, as the code has it.  After a successful standard delete of a listing
    and a successful restore of it:
    - the delete was an update: no row was removed, the rows with the id are
      still found by [SELECT * ... WHERE id = $1], deactivated;
    - between the two, every public statement answers as if the row were
      not in the table, and the public route by id answers 404;
    - after the restore the row has the columns it had before the delete,
      except [is_active], which is true, and [updated_at], which the trigger
      of the table set to the time of the restore; the public route by id
      answers its columns as they were. *)
Theorem soft_delete_then_restore :
  forall (env1 env2 : Env) (req1 req2 : Request) (id : Z)
         (d d1 d2 : Database) (r1 r2 : Response),
    route env1 req1 (DeleteListing id) d = (d1, r1) ->
    succeeded r1 = true ->
    route env2 req2 (RestoreListing id) d1 = (d2, r2) ->
    succeeded r2 = true ->
    filter (has_id id) (chiropractors d) <> []
    /\ chiropractors d1
       = update_where (has_id id) (set_active env1 false) (chiropractors d)
    /\ filter (has_id id) (chiropractors d1)
       = map (set_active env1 false) (filter (has_id id) (chiropractors d))
    /\ (forall env, fault env TChiropractors = false ->
          select_by_id env id d1
          = (d1, inr (map (set_active env1 false)
                          (filter (has_id id) (chiropractors d)))))
    /\ (forall env q,
          answer collate_le ilike env q (chiropractors d1)
          = answer collate_le ilike env q
                   (delete_where (has_id id) (chiropractors d)))
    /\ (forall env, fault env TChiropractors = false ->
          Listings.get_chiropractor collate_le ilike env id d1
          = (d1, error 404 "Chiropractor not found"))
    /\ chiropractors d2
       = update_where (has_id id) (set_active env2 true) (chiropractors d)
    /\ (forall c,
          set_active env2 true c
          = mkChiro (c_id c) (c_name c) (c_state c) (c_address c) (c_phone c)
                    (c_email c) (c_website c) (c_specialty c) (c_description c)
                    (c_is_featured c) true (c_created_at c) (now env2))
    /\ (forall env,
          answer collate_le ilike env (QById id) (chiropractors d2)
          = ret (rows_json ["id"; "name"; "state"; "address"; "phone"; "email";
                            "website"; "specialty"; "description"; "is_featured";
                            "created_at"]
                           (filter (has_id id) (chiropractors d)))).
Proof.
  intros env1 env2 req1 req2 id d d1 d2 r1 r2 Hdel Hok1 Hres Hok2.
  simpl in Hdel, Hres.
  unfold Listings.delete_chiropractor_route in Hdel.
  unfold Listings.post_restore in Hres.
  apply admin_only_inv in Hdel.
  destruct Hdel as [(_ & Hno & _) | (u & _ & _ & _ & _ & Hdel & _)]; [congruence|].
  apply validated_inv in Hdel.
  destruct Hdel as [(_ & _ & _ & H400) | (Hid & Hdel)].
  { unfold succeeded in Hok1. rewrite H400 in Hok1. discriminate. }
  apply admin_only_inv in Hres.
  destruct Hres as [(_ & Hno & _) | (u' & _ & _ & _ & _ & Hres & _)]; [congruence|].
  destruct (soft_delete_success _ _ _ _ _ _ Hdel Hok1) as (Hfound & Hd1).
  pose proof (restore_success _ _ _ _ _ _ Hres Hok2) as Hd2.
  rewrite Hd1 in Hd2. rewrite restore_after_delete in Hd2.
  repeat split; auto.
  - rewrite Hd1. apply filter_update_where.
  - intros env Hup. unfold select_by_id, select, query. rewrite Hup.
    rewrite Hd1, filter_update_where. reflexivity.
  - intros env q. rewrite Hd1. apply public_queries_skip_deactivated.
  - intros env Hup. unfold Listings.get_chiropractor. rewrite Hid.
    unfold Listings.validated, public_query, try_catch, bind, query.
    cbn [handleValidationErrors]. rewrite Hup.
    rewrite Hd1, public_queries_skip_deactivated, detail_while_deleted.
    reflexivity.
  - intros env. rewrite Hd2. apply detail_after_restore.
Qed.

End Routes.

Lemma soft_delete_then_restore_witness :
  let run1 := Pipeline.route Sample.plain Sample.has_at Sample.has_scheme toLowerCase
                Sample.tokens Sample.hash (Sample.at_time 200) Sample.as_admin
                (DeleteListing 1) Sample.db0 in
  let run2 := Pipeline.route Sample.plain Sample.has_at Sample.has_scheme toLowerCase
                Sample.tokens Sample.hash (Sample.at_time 300) Sample.as_admin
                (RestoreListing 1) (fst run1) in
  chiropractors (fst run1) = [set_active (Sample.at_time 200) false Sample.sarah]
  /\ chiropractors (fst run2) = [set_active (Sample.at_time 300) true Sample.sarah].
Proof.
  intros run1 run2.
  destruct (soft_delete_then_restore Sample.plain Sample.has_at Sample.has_scheme
              toLowerCase Sample.tokens Sample.hash String.leb Sample.contains_all
              (Sample.at_time 200) (Sample.at_time 300) Sample.as_admin
              Sample.as_admin 1 Sample.db0 (fst run1) (fst run2) (snd run1)
              (snd run2) eq_refl eq_refl eq_refl eq_refl)
    as (_ & H1 & _ & _ & _ & _ & H2 & _).
  split; [rewrite H1 | rewrite H2]; reflexivity.
Defined.

(** C7, as stated, fails: after the sample listing is deleted at time 200
    and restored at time 300 it is active as before, and its [updated_at]
    is 300, not 100; the public sitemap shows the new value. *)
Lemma restore_moves_updated_at :
  let run1 := Pipeline.route Sample.plain Sample.has_at Sample.has_scheme toLowerCase
                Sample.tokens Sample.hash (Sample.at_time 200) Sample.as_admin
                (DeleteListing 1) Sample.db0 in
  let run2 := Pipeline.route Sample.plain Sample.has_at Sample.has_scheme toLowerCase
                Sample.tokens Sample.hash (Sample.at_time 300) Sample.as_admin
                (RestoreListing 1) (fst run1) in
  status (snd run1) = 200 /\ status (snd run2) = 200
  /\ map c_is_active (chiropractors Sample.db0) = [true]
  /\ map c_is_active (chiropractors (fst run2)) = [true]
  /\ map c_updated_at (chiropractors Sample.db0) = [100]
  /\ map c_updated_at (chiropractors (fst run2)) = [300]
  /\ snd (answer String.leb Sample.contains_all (Sample.at_time 400)
            QSitemapChiropractors (chiropractors Sample.db0) Sample.db0)
     <> snd (answer String.leb Sample.contains_all (Sample.at_time 400)
               QSitemapChiropractors (chiropractors (fst run2)) (fst run2)).
Proof. vm_compute. repeat split. discriminate. Qed.

End ListingFacts.

(* ================================================================== *)
(** ** The audit trail of the admin write endpoints *)
(* ================================================================== *)

Module TrailFacts.
Import Js Db Http Validate Premises Pipeline Trail RunFacts.

#[local] Arguments chiro_json : simpl never.
#[local] Arguments post_json : simpl never.
#[local] Arguments setting_json : simpl never.
#[local] Arguments user_json : simpl never.
#[local] Arguments project : simpl never.
#[local] Arguments Slug.createSlug : simpl never.
#[local] Arguments toString36 : simpl never.
#[local] Arguments substring0 : simpl never.
#[local] Arguments ChiroSql.fits : simpl never.
#[local] Arguments Blog.fits : simpl never.
#[local] Arguments varchar : simpl never.
#[local] Arguments decimal : simpl never.
#[local] Arguments String.eqb : simpl never.
#[local] Arguments String.append : simpl never.
#[local] Arguments Blog.unique_slug : simpl never.
#[local] Arguments Blog.or_substring : simpl never.

Ltac invert_run H :=
  repeat (break_in H; simpl in H); inversion H; subst; clear H;
  simpl in *; try discriminate.

Ltac entry :=
  eexists; split; [unfold appended; simpl; repeat split; reflexivity|];
  simpl; unfold about; simpl.

Lemma filter_updated {R} (h : R -> bool) (f : R -> R) (rows : list R) :
  (forall r, h (f r) = h r) ->
  filter h (update_where h f rows) = map f (filter h rows).
Proof.
  intros Hf. induction rows as [|c rows IH]; simpl; auto.
  destruct (h c) eqn:E; simpl.
  - rewrite Hf, E. simpl. f_equal. apply IH.
  - rewrite E. apply IH.
Qed.

Lemma filter_deleted {R} (h : R -> bool) (rows : list R) :
  filter h (delete_where h rows) = [].
Proof.
  unfold delete_where. induction rows as [|c rows IH]; simpl; auto.
  destruct (h c) eqn:E; simpl; auto. rewrite E. apply IH.
Qed.

Lemma found_so_exists {R} (h : R -> bool) (rows : list R) r rest :
  filter h rows = r :: rest -> existsb h rows = false -> False.
Proof.
  intros Hf He. rewrite (CollisionFacts.filter_nil_of_existsb _ _ He) in Hf.
  discriminate.
Qed.

Lemma unique_slug_reads env title taken d :
  fst (Blog.unique_slug env title taken d) = d.
Proof.
  unfold Blog.unique_slug, Blog.slug_of. unfold_db.
  destruct title; simpl; auto.
  destruct (fault env TBlogPosts); simpl; auto.
  destruct (filter _ (blog_posts d)); reflexivity.
Qed.

Lemma or_substring_reads a content n d :
  fst (Blog.or_substring a content n d) = d.
Proof.
  unfold Blog.or_substring. unfold_db.
  destruct (ChiroSql.or_null a), content; reflexivity.
Qed.

(** Name the database that the read-only steps of a run hand on. *)
Ltac settle_reads :=
  repeat match goal with
         | E : Blog.unique_slug ?env ?t ?k ?d = (?d1, _) |- _ =>
             tryif constr_eq d1 d then fail else
               (let X := fresh in
                pose proof (unique_slug_reads env t k d) as X;
                rewrite E in X; simpl in X; subst d1)
         | E : Blog.or_substring ?a ?c ?n ?d = (?d1, _) |- _ =>
             tryif constr_eq d1 d then fail else
               (let X := fresh in
                pose proof (or_substring_reads a c n d) as X;
                rewrite E in X; simpl in X; subst d1)
         end.

Ltac absurd_run :=
  try (exfalso; eapply found_so_exists; eassumption);
  try match goal with
      | E1 : filter ?h ?l = _ :: _, E2 : map _ (filter ?h ?l) = [] |- _ =>
          rewrite E1 in E2; discriminate
      end.

Section Handlers.

Variable uid : Z.
Variable env : Env.
Variable req : Request.
Hypothesis Huser : exists i, user req = Some i /\ i_id i = uid.

Lemma create_chiropractor_trail b d d' r :
  Listings.create_chiropractor env req b d = (d', r) -> succeeded r = true ->
  exists e, appended env req uid d d' e /\ recorded (CreateListing b) d d' e.
Proof.
  destruct Huser as (i & Hi & <-).
  unfold Listings.create_chiropractor, ChiroSql.insert_chiropractor.
  unfold_db. rewrite Hi. intros H Hok. invert_run H.
  entry. eexists. repeat split; reflexivity.
Qed.

Lemma update_chiropractor_trail id b d d' r :
  Listings.update_chiropractor_handler env req id b d = (d', r) ->
  succeeded r = true ->
  exists e, appended env req uid d d' e /\ recorded (UpdateListing id b) d d' e.
Proof.
  destruct Huser as (i & Hi & <-).
  unfold Listings.update_chiropractor_handler, ChiroSql.update_chiropractor,
    ChiroSql.select_by_id.
  unfold_db. rewrite Hi. intros H Hok. invert_run H.
  entry.
  rewrite filter_updated by reflexivity.
  match goal with E : filter _ (chiropractors d) = _ |- _ => rewrite E in * end.
  simpl in *.
  match goal with E : _ :: _ = _ :: _ |- _ => injection E as <- <- end.
  do 4 eexists. repeat split; reflexivity.
Qed.

Lemma soft_delete_trail id d d' r :
  Listings.soft_delete_chiropractor env req id d = (d', r) ->
  succeeded r = true ->
  exists e, appended env req uid d d' e /\ recorded (DeleteListing id) d d' e.
Proof.
  destruct Huser as (i & Hi & <-).
  unfold Listings.soft_delete_chiropractor, ChiroSql.update_active,
    ChiroSql.select_by_id.
  unfold_db. rewrite Hi. intros H Hok. invert_run H.
  entry. do 2 eexists. repeat split; eauto.
Qed.

Lemma restore_trail id d d' r :
  Listings.restore_chiropractor env req id d = (d', r) ->
  succeeded r = true ->
  exists e, appended env req uid d d' e /\ recorded (RestoreListing id) d d' e.
Proof.
  destruct Huser as (i & Hi & <-).
  unfold Listings.restore_chiropractor, ChiroSql.update_active.
  unfold_db. rewrite Hi. intros H Hok. invert_run H.
  entry. repeat split; reflexivity.
Qed.

Lemma permanent_delete_trail id d d' r :
  Listings.permanent_delete_chiropractor env req id d = (d', r) ->
  succeeded r = true ->
  exists e, appended env req uid d d' e /\ recorded (PermanentDeleteListing id) d d' e.
Proof.
  destruct Huser as (i & Hi & <-).
  unfold Listings.permanent_delete_chiropractor, ChiroSql.delete_chiropractor,
    ChiroSql.select_by_id.
  unfold_db. rewrite Hi. intros H Hok. invert_run H.
  entry. do 2 eexists. repeat split; eauto. apply filter_deleted.
Qed.

Lemma create_post_trail b d d' r :
  Blog.create_post env req b d = (d', r) -> succeeded r = true ->
  exists e, appended env req uid d d' e /\ recorded (CreatePost b) d d' e.
Proof.
  destruct Huser as (i & Hi & <-).
  unfold Blog.create_post, Blog.insert_post.
  unfold_db. rewrite Hi. intros H Hok.
  repeat (break_in H; simpl in H; settle_reads).
  all: inversion H; subst; clear H; simpl in *; try discriminate.
  all: entry; eexists; repeat split; reflexivity.
Qed.

Lemma update_post_trail id b d d' r :
  Blog.update_post_handler env req id b d = (d', r) -> succeeded r = true ->
  exists e, appended env req uid d d' e /\ recorded (UpdatePost id b) d d' e.
Proof.
  destruct Huser as (i & Hi & <-).
  unfold Blog.update_post_handler, Blog.update_post, Blog.select_by_id.
  unfold_db. rewrite Hi. intros H Hok.
  repeat (break_in H; simpl in H; settle_reads);
    inversion H; subst; clear H; simpl in *; try discriminate;
    absurd_run;
    entry; rewrite filter_updated by reflexivity;
    match goal with
    | E : filter (Blog.has_id id) (blog_posts ?d0) = _,
      E2 : map _ (filter (Blog.has_id id) (blog_posts ?d0)) = _ |- _ =>
        rewrite E in E2 |- *; simpl in E2; injection E2 as <- <-
    end;
    simpl; do 4 eexists; repeat split; reflexivity.
Qed.

Lemma delete_post_trail id d d' r :
  Blog.delete_post_handler env req id d = (d', r) -> succeeded r = true ->
  exists e, appended env req uid d d' e /\ recorded (DeletePost id) d d' e.
Proof.
  destruct Huser as (i & Hi & <-).
  unfold Blog.delete_post_handler, Blog.delete_post, Blog.select_by_id.
  unfold_db. rewrite Hi. intros H Hok. invert_run H.
  entry. do 2 eexists. repeat split; eauto. apply filter_deleted.
Qed.

Lemma toggle_publish_trail id d d' r :
  Blog.toggle_publish env req id d = (d', r) -> succeeded r = true ->
  exists e, appended env req uid d d' e /\ recorded (TogglePublish id) d d' e.
Proof.
  destruct Huser as (i & Hi & <-).
  unfold Blog.toggle_publish, Blog.update_published, Blog.select_by_id.
  unfold_db. rewrite Hi. intros H Hok.
  repeat (break_in H; simpl in H);
    inversion H; subst; clear H; simpl in *; try discriminate;
    entry; do 2 eexists; (split; [eassumption|]);
    match goal with
    | E : negb (p_is_published ?p) = _ |- _ =>
        destruct (p_is_published p); simpl in E; try discriminate
    end;
    repeat split; reflexivity.
Qed.

Lemma update_setting_trail key value d d' r :
  Settings.update_setting env req key value d = (d', r) -> succeeded r = true ->
  exists e, appended env req uid d d' e /\ recorded (UpdateSetting key value) d d' e.
Proof.
  destruct Huser as (i & Hi & <-).
  unfold Settings.update_setting, Settings.update_value, Settings.select_by_key.
  unfold_db. rewrite Hi. intros H Hok.
  repeat (break_in H; simpl in H);
    inversion H; subst; clear H; simpl in *; try discriminate;
    entry; do 2 eexists; repeat split; eauto.
Qed.

Lemma bulk_loop_keeps_audit_log entries : forall updated d,
  audit_log (fst (Settings.bulk_loop env entries updated d)) = audit_log d.
Proof.
  induction entries as [|[key value] entries IH]; intros updated d; simpl; auto.
  unfold Settings.update_value. unfold_db.
  destruct (fault env TSiteSettings); simpl; auto.
  rewrite IH. reflexivity.
Qed.

Lemma bulk_update_trail settings d d' r :
  Settings.bulk_update env req settings d = (d', r) -> succeeded r = true ->
  exists e, appended env req uid d d' e /\ recorded (BulkSettings settings) d d' e.
Proof.
  destruct Huser as (i & Hi & <-).
  unfold Settings.bulk_update.
  unfold_db. rewrite Hi. intros H Hok.
  destruct settings as [entries|]; simpl in H;
    [|inversion H; subst; discriminate].
  pose proof (bulk_loop_keeps_audit_log entries [] d) as Hlog.
  destruct (Settings.bulk_loop env entries [] d) as [d1 [err|updated]];
    simpl in *; [inversion H; subst; discriminate|].
  destruct (fault env TAuditLog); inversion H; subst; clear H; try discriminate.
  eexists. split.
  - unfold appended. simpl. rewrite Hlog. repeat split; reflexivity.
  - simpl. exists entries. unfold about. simpl. repeat split; reflexivity.
Qed.

Lemma create_setting_trail b d d' r :
  Settings.create_setting env req b d = (d', r) -> succeeded r = true ->
  exists e, appended env req uid d d' e /\ recorded (CreateSetting b) d d' e.
Proof.
  destruct Huser as (i & Hi & <-).
  unfold Settings.create_setting, Settings.insert_setting.
  unfold_db. rewrite Hi. intros H Hok.
  repeat (break_in H; simpl in H);
    inversion H; subst; clear H; simpl in *; try discriminate;
    entry; eexists; repeat split; reflexivity.
Qed.

Lemma delete_setting_trail key d d' r :
  Settings.delete_setting_handler env req key d = (d', r) -> succeeded r = true ->
  exists e, appended env req uid d d' e /\ recorded (DeleteSetting key) d d' e.
Proof.
  destruct Huser as (i & Hi & <-).
  unfold Settings.delete_setting_handler, Settings.delete_setting,
    Settings.select_by_key.
  unfold_db. rewrite Hi. intros H Hok.
  repeat (break_in H; simpl in H);
    inversion H; subst; clear H; simpl in *; try discriminate;
    entry; do 2 eexists; repeat split; eauto; apply filter_deleted.
Qed.

Lemma create_user_trail bcrypt_hash b d d' r :
  Accounts.create_user bcrypt_hash env req b d = (d', r) -> succeeded r = true ->
  exists e, appended env req uid d d' e /\ recorded (CreateUser b) d d' e.
Proof.
  destruct Huser as (i & Hi & <-).
  unfold Accounts.create_user, Accounts.insert_user.
  unfold_db. rewrite Hi. intros H Hok.
  repeat (break_in H; simpl in H);
    inversion H; subst; clear H; simpl in *; try discriminate;
    entry; eexists; repeat split; reflexivity.
Qed.

Lemma toggle_active_trail id d d' r :
  Accounts.toggle_active env req id d = (d', r) -> succeeded r = true ->
  exists e, appended env req uid d d' e /\ recorded (ToggleUserActive id) d d' e.
Proof.
  destruct Huser as (i & Hi & <-).
  unfold Accounts.toggle_active, Accounts.toggle_active_stmt.
  unfold_db. rewrite Hi. intros H Hok.
  repeat (break_in H; simpl in H);
    inversion H; subst; clear H; simpl in *; try discriminate;
    match goal with
    | E : filter (Accounts.has_id id) (users ?d0) = _,
      E2 : map _ (filter (Accounts.has_id id) (users ?d0)) = _ |- _ =>
        rewrite E in E2; simpl in E2; injection E2 as <- <-
    end;
    entry; do 2 eexists; (split; [eassumption|]);
    match goal with
    | E : u_is_active (Accounts.flip_active _ ?u) = _ |- _ =>
        simpl in E; destruct (u_is_active u); simpl in E; try discriminate
    end;
    repeat split; reflexivity.
Qed.

End Handlers.

Section Routes.

Variable xss : string -> string.
Variable isEmail : string -> bool.
Variable isURL : string -> bool.
Variable normalizeEmail : string -> string.
Variable jwt_verify : string -> Z -> Thrown + option Z.
Variable bcrypt_hash : string -> string.

Local Abbreviation route :=
  (Pipeline.route xss isEmail isURL normalizeEmail jwt_verify bcrypt_hash).
Local Abbreviation handler :=
  (Pipeline.handler xss isEmail isURL normalizeEmail bcrypt_hash).

(** A route that reports success ran its handler, for an active
    administrator, on a request that passed the rules; and with the same
    request it runs its handler whatever the storage of the audit log does. *)
Lemma route_success env req w d d' r :
  route env req w d = (d', r) -> succeeded r = true ->
  exists u,
    In u (users d) /\ u_is_active u = true /\ u_role u = "admin" /\
    fault env TUsers = false /\
    violations xss isEmail isURL normalizeEmail w = [] /\
    handler env (set_user (identity_of u) req) w d = (d', r) /\
    route (audit_storage_fails env) req w d
      = handler (audit_storage_fails env) (set_user (identity_of u) req) w d.
Proof.
  intros H Hok.
  assert (Hv : forall errors h,
             Listings.validated errors h d = (d', r) ->
             errors = [] /\ h d = (d', r)).
  { intros errors h Hh. apply validated_inv in Hh.
    destruct Hh as [(_ & _ & _ & H400) | Hh]; auto.
    unfold succeeded in Hok. rewrite H400 in Hok. discriminate. }
  destruct w; cbn [Pipeline.route Pipeline.handler violations] in H |- *;
    unfold Listings.post_chiropractors, Listings.put_chiropractor,
      Listings.delete_chiropractor_route, Listings.post_restore,
      Listings.delete_permanent, Blog.post_blog, Blog.put_blog,
      Blog.delete_blog, Blog.post_toggle_publish, Settings.put_setting,
      Settings.post_bulk, Settings.post_setting, Settings.delete_setting_route,
      Accounts.post_users, Accounts.post_toggle_active in H |- *;
    apply admin_only_inv in H;
    destruct H as [(_ & Hno & _) | (u & Hin & Hon & Hrole & Hf & H & Hany)];
    try congruence;
    exists u; repeat (split; [assumption|]);
    rewrite admin_only_audit_storage, Hany;
    first
      [ split; [reflexivity | split; [exact H | reflexivity]]
      | apply Hv in H; destruct H as [He H];
        split; [assumption | split; [assumption|]];
        rewrite He; reflexivity
      | match type of H with
        | (let (_, _) := ?v in _) _ = _ => destruct v as [errors b1]
        end;
        simpl in *; apply Hv in H; destruct H as [He H];
        split; [assumption | split; [assumption|]];
        rewrite He; reflexivity ].
Qed.


End Routes.



End TrailFacts.

(* ================================================================== *)
(** ** A failing audit log *)
(* ================================================================== *)

Module AtomicityFacts.
Import Js Db Http Validate Premises Pipeline Trail RunFacts TrailFacts.

#[local] Arguments chiro_json : simpl never.
#[local] Arguments post_json : simpl never.
#[local] Arguments setting_json : simpl never.
#[local] Arguments user_json : simpl never.
#[local] Arguments project : simpl never.
#[local] Arguments Slug.createSlug : simpl never.
#[local] Arguments toString36 : simpl never.
#[local] Arguments substring0 : simpl never.
#[local] Arguments ChiroSql.fits : simpl never.
#[local] Arguments Blog.fits : simpl never.
#[local] Arguments varchar : simpl never.
#[local] Arguments decimal : simpl never.
#[local] Arguments String.eqb : simpl never.
#[local] Arguments String.append : simpl never.
#[local] Arguments Blog.unique_slug : simpl never.
#[local] Arguments Blog.or_substring : simpl never.

Lemma unique_slug_audit_storage env title taken :
  Blog.unique_slug (audit_storage_fails env) title taken
    = Blog.unique_slug env title taken.
Proof. reflexivity. Qed.

Lemma bulk_loop_audit_storage env entries : forall updated d,
  Settings.bulk_loop (audit_storage_fails env) entries updated d
    = Settings.bulk_loop env entries updated d.
Proof.
  induction entries as [|[key value] entries IH]; intros updated d; simpl; auto.
  unfold Settings.update_value. unfold_db. simpl.
  destruct (fault env TSiteSettings); auto.
Qed.

Lemma set_active_audit_storage env b :
  ChiroSql.set_active (audit_storage_fails env) b = ChiroSql.set_active env b.
Proof. reflexivity. Qed.

Lemma set_published_audit_storage env b t :
  Blog.set_published (audit_storage_fails env) b t = Blog.set_published env b t.
Proof. reflexivity. Qed.

Lemma set_value_audit_storage env v :
  Settings.set_value (audit_storage_fails env) v = Settings.set_value env v.
Proof. reflexivity. Qed.

Lemma flip_active_audit_storage env :
  Accounts.flip_active (audit_storage_fails env) = Accounts.flip_active env.
Proof. reflexivity. Qed.

(** Replay on the goal the choices that the run in the context made. *)
Ltac replay :=
  repeat (simpl;
          match goal with
          | E : ?x = _ |- context [match ?x with _ => _ end] => rewrite E
          end).

Ltac both_runs :=
  unfold write_without_entry, same_entities;
  unfold_db;
  rewrite ?set_active_audit_storage, ?set_published_audit_storage,
    ?set_value_audit_storage, ?flip_active_audit_storage,
    ?unique_slug_audit_storage;
  unfold audit_storage_fails; simpl;
  intros H Hok;
  repeat (break_in H; simpl in H; settle_reads);
  inversion H; subst; clear H; simpl in Hok; try discriminate;
  replay; simpl; repeat split; reflexivity.

Section Handlers.

Variable env : Env.
Variable req : Request.
Variable xss : string -> string.
Variable isEmail : string -> bool.
Variable isURL : string -> bool.
Variable normalizeEmail : string -> string.
Variable bcrypt_hash : string -> string.

Local Abbreviation handler :=
  (Pipeline.handler xss isEmail isURL normalizeEmail bcrypt_hash).

Lemma bulk_writes_without_entry settings d d' r :
  Settings.bulk_update env req settings d = (d', r) ->
  succeeded r = true ->
  write_without_entry d d'
    (Settings.bulk_update (audit_storage_fails env) req settings d).
Proof.
  unfold Settings.bulk_update, write_without_entry, same_entities.
  unfold_db. destruct settings as [entries|]; simpl;
    [|intros H Hok; inversion H; subst; discriminate].
  rewrite bulk_loop_audit_storage.
  pose proof (bulk_loop_keeps_audit_log env entries [] d) as Hlog.
  destruct (Settings.bulk_loop env entries [] d) as [d1 [err|updated]];
    simpl in *; [intros H Hok; inversion H; subst; discriminate|].
  destruct (user req); simpl;
    [|intros H Hok; inversion H; subst; discriminate].
  destruct (fault env TAuditLog); simpl;
    intros H Hok; inversion H; subst; try discriminate.
  simpl. repeat split; auto.
Qed.

Lemma handler_writes_without_entry w d d' r :
  handler env req w d = (d', r) ->
  succeeded r = true ->
  write_without_entry d d' (handler (audit_storage_fails env) req w d).
Proof.
  destruct w; cbn [Pipeline.handler];
    try apply bulk_writes_without_entry;
    repeat match goal with
           | |- context [snd ?v] => generalize (snd v); intro
           end;
    unfold Listings.create_chiropractor, Listings.update_chiropractor_handler,
      Listings.soft_delete_chiropractor, Listings.restore_chiropractor,
      Listings.permanent_delete_chiropractor,
      ChiroSql.insert_chiropractor, ChiroSql.update_chiropractor,
      ChiroSql.update_active, ChiroSql.delete_chiropractor, ChiroSql.select_by_id,
      Blog.create_post, Blog.update_post_handler, Blog.delete_post_handler,
      Blog.toggle_publish, Blog.insert_post, Blog.update_post, Blog.delete_post,
      Blog.update_published, Blog.select_by_id,
      Settings.update_setting, Settings.create_setting,
      Settings.delete_setting_handler, Settings.update_value,
      Settings.insert_setting, Settings.delete_setting, Settings.select_by_key,
      Accounts.create_user, Accounts.toggle_active, Accounts.insert_user,
      Accounts.toggle_active_stmt;
    both_runs.
Qed.

End Handlers.

Section Routes.

Variable xss : string -> string.
Variable isEmail : string -> bool.
Variable isURL : string -> bool.
Variable normalizeEmail : string -> string.
Variable jwt_verify : string -> Z -> Thrown + option Z.
Variable bcrypt_hash : string -> string.

Local Abbreviation route :=
  (Pipeline.route xss isEmail isURL normalizeEmail jwt_verify bcrypt_hash).

(** C2, as the code has it.  The entity write and the audit append are
    separate statements with no transaction around them: where a request
    to an admin write endpoint succeeds, the same request with the storage
    of the audit log failing is answered with 500, records no audit entry,
    and leaves the entity tables as the successful request leaves them. *)
Theorem audit_failure_keeps_the_write :
  forall (env : Env) (req : Request) (w : AdminWrite) (d d' : Database)
         (r : Response),
    route env req w d = (d', r) ->
    succeeded r = true ->
    let failed := route (audit_storage_fails env) req w d in
    status (snd failed) = 500
    /\ audit_log (fst failed) = audit_log d
    /\ users (fst failed) = users d'
    /\ chiropractors (fst failed) = chiropractors d'
    /\ blog_posts (fst failed) = blog_posts d'
    /\ site_settings (fst failed) = site_settings d'.
Proof.
  intros env req w d d' r H Hok failed. subst failed.
  destruct (TrailFacts.route_success xss isEmail isURL normalizeEmail jwt_verify
              bcrypt_hash _ _ _ _ _ _ H Hok)
    as (u & _ & _ & _ & _ & _ & Hrun & Hfailed).
  rewrite Hfailed.
  apply (handler_writes_without_entry _ _ xss isEmail isURL normalizeEmail
           bcrypt_hash _ _ _ _ Hrun Hok).
Qed.

End Routes.

Lemma audit_failure_keeps_the_write_witness :
  let failed := Pipeline.route Sample.plain Sample.has_at Sample.has_scheme toLowerCase
                  Sample.tokens Sample.hash (audit_storage_fails (Sample.at_time 200))
                  Sample.as_admin (CreateListing Sample.new_listing) Sample.db0 in
  status (snd failed) = 500
  /\ audit_log (fst failed) = []
  /\ List.length (chiropractors (fst failed)) = 2%nat.
Proof.
  intros failed.
  destruct (audit_failure_keeps_the_write Sample.plain Sample.has_at Sample.has_scheme
              toLowerCase Sample.tokens Sample.hash (Sample.at_time 200)
              Sample.as_admin (CreateListing Sample.new_listing) Sample.db0
              _ _ eq_refl eq_refl)
    as (Hs & Hlog & _ & Hrows & _).
  split; [exact Hs|]. split; [exact Hlog|].
  unfold failed. rewrite Hrows. reflexivity.
Defined.

(** C2, as stated, fails: with the storage of the audit log failing, the
    creation of a listing on the sample database is answered with 500, the
    listing is in the table, and the audit log is empty. *)
Lemma write_survives_audit_failure :
  let failed := Pipeline.route Sample.plain Sample.has_at Sample.has_scheme toLowerCase
                  Sample.tokens Sample.hash (audit_storage_fails (Sample.at_time 200))
                  Sample.as_admin (CreateListing Sample.new_listing) Sample.db0 in
  snd failed = error 500 "Failed to create chiropractor"
  /\ map c_name (chiropractors Sample.db0) = ["Dr. Sarah Johnson"]
  /\ map c_name (chiropractors (fst failed)) = ["Dr. Sarah Johnson"; "Dr. Michael Chen"]
  /\ audit_log (fst failed) = [].
Proof. vm_compute. repeat split. Qed.

End AtomicityFacts.

(* ================================================================== *)
(** ** Requests that fail the rules *)
(* ================================================================== *)

Module ValidationFacts.
Import Js Db Http Validate Premises Pipeline RunFacts.

Section Routes.

Variable xss : string -> string.
Variable isEmail : string -> bool.
Variable isURL : string -> bool.
Variable normalizeEmail : string -> string.
Variable jwt_verify : string -> Z -> Thrown + option Z.
Variable bcrypt_hash : string -> string.

Local Abbreviation route :=
  (Pipeline.route xss isEmail isURL normalizeEmail jwt_verify bcrypt_hash).
Local Abbreviation violations :=
  (Pipeline.violations xss isEmail isURL normalizeEmail).

(** With a violation, the route is the chain in front of it followed by the
    answer of [handleValidationErrors]: the handler is not part of it. *)
Lemma route_rejects env req w d :
  violations w <> [] ->
  route env req w d
    = admin_only jwt_verify env req
        (fun _ d0 => (d0, ValidationFailed (violations w))) d.
Proof.
  intros Hne.
  destruct w; cbn [Pipeline.route Pipeline.violations] in *;
    try contradiction;
    unfold Listings.post_chiropractors, Listings.put_chiropractor,
      Listings.delete_chiropractor_route, Blog.post_blog, Blog.put_blog,
      Blog.delete_blog, Settings.post_setting, Accounts.post_users;
    repeat match goal with
           | |- context [let (_, _) := ?v in _] => destruct v as [errors b1]
           end;
    cbn [fst] in *;
    match goal with
    | |- context [Listings.validated ?es] =>
        destruct es; [contradiction | reflexivity]
    end.
Qed.

Lemma rejecting_reads env req r d :
  fst (admin_only jwt_verify env req (fun _ d0 => (d0, r)) d) = d.
Proof.
  unfold admin_only.
  pose proof (AuthFacts.verifyToken_reads jwt_verify env req d) as Hd.
  destruct (verifyToken jwt_verify env req d) as [d1 [req1 [res|]]];
    simpl in *; auto.
  destruct (isAdmin req1) as [req2 [res|]]; auto.
Qed.

(** The phone rule reports a phone of ["abc"], whatever the other fields. *)
Lemma phone_abc_is_reported b :
  cb_phone b = Some "abc" ->
  In ("phone", "Invalid phone number format")
     (fst (chiropractorValidation xss isEmail isURL normalizeEmail b)).
Proof.
  intros Hphone. unfold chiropractorValidation. rewrite Hphone. simpl.
  repeat match goal with
         | |- context [let (_, _) := ?v in _] => destruct v
         end.
  cbn [fst]. do 3 (apply in_or_app; right). left. reflexivity.
Qed.

(** The custom sanitizer of a chain has run on the field when the chain
    ends, with or without violations. *)
Lemma setting_value_is_sanitized b v :
  sb_setting_value b = Some v ->
  sb_setting_value (snd (settingsValidation xss b)) = Some (xss (trim v)).
Proof.
  intros Hv. unfold settingsValidation. rewrite Hv. simpl.
  repeat match goal with
         | |- context [let (_, _) := ?v in _] => destruct v
         end.
  reflexivity.
Qed.


End Routes.



End ValidationFacts.

(* ================================================================== *)
(** ** More on slugs *)
(* ================================================================== *)

Module SlugMore.
Import Js Slug.

#[local] Arguments is_hyphen : simpl never.
#[local] Arguments slug_char : simpl never.
#[local] Arguments lower_char : simpl never.

Lemma is_hyphen_eq c : is_hyphen c = true -> c = hyphen.
Proof. unfold is_hyphen. intros H. apply Ascii.eqb_eq. exact H. Qed.

Lemma lower_char_of_slug_char c : slug_char c = true -> lower_char c = c.
Proof. destruct c as [[] [] [] [] [] [] [] []]; vm_compute; congruence. Qed.

(** A string the automaton accepts is made of lower-case letters, digits
    and hyphens. *)
Lemma accepted_lower s : forall w, slug_dfa w s = true -> toLowerCase s = s.
Proof.
  induction s as [|c r IH]; intros w H; simpl in *; auto.
  destruct (slug_char c) eqn:Es.
  - rewrite (lower_char_of_slug_char _ Es). f_equal. eapply IH; eauto.
  - destruct (is_hyphen c) eqn:Eh; simpl in H; try discriminate.
    destruct w; simpl in H; try discriminate.
    apply is_hyphen_eq in Eh. subst c.
    change (lower_char hyphen) with hyphen. f_equal. eapply IH; eauto.
Qed.

Lemma accepted_no_runs s : forall w b,
  slug_dfa w s = true -> (b = true -> w = false) -> replace_runs b s = s.
Proof.
  induction s as [|c r IH]; intros w b H Hb; simpl in *; auto.
  destruct (slug_char c) eqn:Es.
  - f_equal. apply (IH true false H). discriminate.
  - destruct (is_hyphen c) eqn:Eh; simpl in H; try discriminate.
    destruct w; simpl in H; try discriminate.
    destruct b; [specialize (Hb eq_refl); discriminate|].
    apply is_hyphen_eq in Eh. subst c. f_equal. apply (IH false true H). auto.
Qed.

Lemma accepted_no_leading s : slug_dfa false s = true -> strip_leading s = s.
Proof.
  destruct s as [|c r]; simpl; auto.
  destruct (slug_char c) eqn:Es.
  - rewrite (SlugFacts.slug_char_not_hyphen _ Es). reflexivity.
  - rewrite andb_false_r. discriminate.
Qed.

Lemma accepted_no_trailing s : forall w,
  slug_dfa w s = true -> strip_trailing s = s.
Proof.
  induction s as [|c r IH]; intros w H; simpl in *; auto.
  destruct (slug_char c) eqn:Es.
  - rewrite (SlugFacts.slug_char_not_hyphen _ Es). simpl.
    f_equal. eapply IH; eauto.
  - destruct (is_hyphen c) eqn:Eh; simpl in H; try discriminate.
    destruct w; simpl in H; try discriminate.
    rewrite (IH false H). destruct r; simpl in *; [discriminate | reflexivity].
Qed.

(** A string of the shape of a slug is its own slug. *)
Lemma createSlug_fixes_slugs s :
  matches_slug_re s = true -> createSlug s "" = s.
Proof.
  unfold matches_slug_re, createSlug. intros H. simpl.
  rewrite (accepted_lower _ _ H).
  rewrite (accepted_no_runs _ false false H) by discriminate.
  rewrite (accepted_no_leading _ H). apply (accepted_no_trailing _ _ H).
Qed.

Lemma digit36_slug_char d : 0 <= d < 36 -> slug_char (digit36 d) = true.
Proof.
  intros Hd.
  assert (exists k, (k < 36)%nat /\ d = Z.of_nat k) as (k & Hk & ->)
    by (exists (Z.to_nat d); lia).
  do 36 (destruct k as [|k]; [reflexivity|]). lia.
Qed.

Lemma digits36_slug_chars fuel : forall n acc,
  0 <= n -> all_chars slug_char acc = true ->
  all_chars slug_char (digits36 fuel n acc) = true.
Proof.
  induction fuel as [|f IH]; intros n acc Hn Hacc; simpl.
  - rewrite digit36_slug_char by (apply Z.mod_pos_bound; lia). exact Hacc.
  - destruct (n <? 36) eqn:E.
    + apply Z.ltb_lt in E. simpl. rewrite digit36_slug_char by lia. exact Hacc.
    + apply IH.
      * apply Z.div_pos; lia.
      * simpl. rewrite digit36_slug_char by (apply Z.mod_pos_bound; lia).
        exact Hacc.
Qed.

(** The time of a request in base 36 is a word of [[a-z0-9]]. *)
Lemma toString36_slug_chars n :
  0 <= n -> all_chars slug_char (toString36 n) = true.
Proof.
  intros Hn. unfold toString36.
  destruct (n <? 0) eqn:E; [apply Z.ltb_lt in E; lia|].
  apply digits36_slug_chars; auto.
Qed.

Lemma word_accepted b : forall w,
  all_chars slug_char b = true -> (is_empty b = true -> w = true) ->
  slug_dfa w b = true.
Proof.
  induction b as [|c r IH]; intros w H Hw; simpl in *.
  - auto.
  - apply andb_prop in H. destruct H as [Hc Hr]. rewrite Hc.
    apply IH; auto.
Qed.

(** A slug, a hyphen and a word make a slug. *)
Lemma suffixed_accepted a b : forall w,
  slug_dfa w a = true -> all_chars slug_char b = true -> is_empty b = false ->
  slug_dfa w (a ++ "-" ++ b)%string = true.
Proof.
  induction a as [|c r IH]; intros w H Hb Hne; simpl in *.
  - subst w. change (slug_char "-") with false. change (is_hyphen "-") with true.
    simpl. apply word_accepted; auto. congruence.
  - destruct (slug_char c) eqn:Es.
    + apply IH; auto.
    + destruct (is_hyphen c && w)%bool; try discriminate. apply IH; auto.
Qed.

(** X1. [createSlug] is idempotent: the slug of a slug is that slug. *)
Theorem createSlug_idempotent :
  forall title : string,
    createSlug (createSlug title "") "" = createSlug title "".
Proof.
  intros title.
  destruct (SlugFacts.createSlug_shape title) as [H | H].
  - rewrite H. reflexivity.
  - apply createSlug_fixes_slugs. exact H.
Qed.



End SlugMore.

(* ================================================================== *)
(** ** More on the authentication middleware *)
(* ================================================================== *)

Module AuthMore.
Import Js Db Http Validate Premises Pipeline Conditions RunFacts.

Section Auth.

Variable xss : string -> string.
Variable isEmail : string -> bool.
Variable isURL : string -> bool.
Variable normalizeEmail : string -> string.
Variable jwt_verify : string -> Z -> Thrown + option Z.
Variable bcrypt_hash : string -> string.

Local Abbreviation route :=
  (Pipeline.route xss isEmail isURL normalizeEmail jwt_verify bcrypt_hash).

Lemma first_of_filter {A} (p : A -> bool) (l : list A) x rest :
  filter p l = x :: rest -> In x l /\ p x = true.
Proof.
  intros H. apply filter_In. rewrite H. left. reflexivity.
Qed.

(** X3. [optionalAuth] never answers and never writes: it calls [next()]
    with the request as it came, or with [req.user] set to an active
    account whose id is the [userId] of the verified token. *)
Theorem optionalAuth_never_rejects :
  forall (env : Env) (req : Request) (d : Database),
    let run := optionalAuth jwt_verify env req d in
    fst run = d /\ mw_res (snd run) = None
    /\ (mw_req (snd run) = req
        \/ exists token u,
             token_of req = Some token /\
             jwt_verify token (now env) = inr (Some (u_id u)) /\
             In u (users d) /\ u_is_active u = true /\
             mw_req (snd run) = set_user (identity_of u) req).
Proof.
  intros env req d run. subst run. unfold optionalAuth.
  destruct (token_of req) as [token|] eqn:Htok; [|simpl; auto].
  destruct (is_empty token); [simpl; auto|].
  unfold try_catch, bind, jwt_verify_m, select, query, ret.
  destruct (jwt_verify token (now env)) as [e|subject] eqn:Hjwt; [simpl; auto|].
  destruct (fault env TUsers); [simpl; auto|].
  destruct (filter _ (users d)) as [|u others] eqn:Hrows; [simpl; auto|].
  apply first_of_filter in Hrows. destruct Hrows as [Hin Hp].
  apply andb_prop in Hp. destruct Hp as [Hid Hon].
  simpl. split; [reflexivity|]. split; [reflexivity|]. right.
  unfold id_is in Hid. destruct subject as [v|]; [|discriminate].
  apply Z.eqb_eq in Hid. subst v.
  exists token, u. repeat split; auto.
Qed.

(** X4. When [verifyToken] calls [next()], [req.user] is an account of the
    table that is active and whose id is the [userId] of the token; the
    database is as before. *)
Theorem verifyToken_attaches_active_account :
  forall (env : Env) (req : Request) (d d' : Database) (m : Mw),
    verifyToken jwt_verify env req d = (d', m) ->
    mw_res m = None ->
    d' = d
    /\ exists token u,
         token_of req = Some token /\ is_empty token = false /\
         jwt_verify token (now env) = inr (Some (u_id u)) /\
         In u (users d) /\ u_is_active u = true /\
         mw_req m = set_user (identity_of u) req.
Proof.
  intros env req d d' m H Hnext. unfold verifyToken in H.
  destruct (token_of req) as [token|] eqn:Htok;
    [|inversion H; subst; discriminate].
  destruct (is_empty token) eqn:Hne; [inversion H; subst; discriminate|].
  unfold try_catch, bind, jwt_verify_m, select, query, ret in H.
  destruct (jwt_verify token (now env)) as [e|subject] eqn:Hjwt;
    [destruct e; inversion H; subst; discriminate|].
  destruct (fault env TUsers); [inversion H; subst; discriminate|].
  destruct (filter _ (users d)) as [|u others] eqn:Hrows;
    [inversion H; subst; discriminate|].
  apply first_of_filter in Hrows. destruct Hrows as [Hin Hid].
  destruct (u_is_active u) eqn:Hon; simpl in H;
    inversion H; subst; try discriminate.
  split; [reflexivity|]. exists token, u.
  unfold id_is in Hid. destruct subject as [v|]; [|discriminate].
  apply Z.eqb_eq in Hid. subst v. repeat split; auto.
Qed.

Lemma admin_only_refuses env req d u handler :
  authenticated jwt_verify env req d u -> u_role u <> "admin" ->
  admin_only jwt_verify env req handler d = (d, InsufficientPrivilege).
Proof.
  intros (token & subject & others & Htok & Hne & Hjwt & Hf & Hrows & Hon) Hrole.
  unfold admin_only, verifyToken.
  rewrite Htok, Hne.
  unfold try_catch, bind, jwt_verify_m, select, query, ret.
  rewrite Hjwt, Hf, Hrows, Hon. simpl.
  unfold isAdmin. simpl.
  destruct (String.eqb_spec (u_role u) "admin"); [contradiction | reflexivity].
Qed.

(** X5. An account whose role is not [admin] is refused by every admin
    write route with 403, whatever the request asks for, and nothing is
    written. *)
Theorem other_roles_are_refused :
  forall (env : Env) (req : Request) (d : Database) (u : User) (w : AdminWrite),
    authenticated jwt_verify env req d u ->
    u_role u <> "admin" ->
    route env req w d = (d, InsufficientPrivilege).
Proof.
  intros env req d u w Hauth Hrole.
  destruct w; cbn [Pipeline.route];
    unfold Listings.post_chiropractors, Listings.put_chiropractor,
      Listings.delete_chiropractor_route, Listings.post_restore,
      Listings.delete_permanent, Blog.post_blog, Blog.put_blog,
      Blog.delete_blog, Blog.post_toggle_publish, Settings.put_setting,
      Settings.post_bulk, Settings.post_setting, Settings.delete_setting_route,
      Accounts.post_users, Accounts.post_toggle_active;
    apply (admin_only_refuses _ _ _ u); assumption.
Qed.

End Auth.

Lemma verifyToken_attaches_active_account_witness :
  verifyToken Sample.tokens (Sample.at_time 200) Sample.as_admin Sample.db0
  = (Sample.db0, next (set_user (identity_of Sample.admin) Sample.as_admin)).
Proof.
  destruct (verifyToken_attaches_active_account Sample.tokens (Sample.at_time 200)
              Sample.as_admin Sample.db0 _ _ eq_refl eq_refl) as [_ _].
  reflexivity.
Defined.

(** An editor: an active account that is not an administrator *)
Lemma other_roles_are_refused_witness :
  let editor := mkUser 1 "editor@justchiropractor.com" "x" "Editor" "editor" true 10 10 in
  let d := mkDb [editor] [Sample.sarah] [] [] [] 1 1 0 0 0 in
  Pipeline.route Sample.plain Sample.has_at Sample.has_scheme toLowerCase
    Sample.tokens Sample.hash (Sample.at_time 200) Sample.as_admin
    (PermanentDeleteListing 1) d
  = (d, InsufficientPrivilege).
Proof.
  intros editor d.
  apply (other_roles_are_refused Sample.plain Sample.has_at Sample.has_scheme
           toLowerCase Sample.tokens Sample.hash (Sample.at_time 200)
           Sample.as_admin d editor).
  - exists "admin.jwt", (Some 1), []. repeat split; reflexivity.
  - discriminate.
Defined.

End AuthMore.

(* ================================================================== *)
(** ** What the rules let through *)
(* ================================================================== *)

Module ValidationMore.
Import Js Db Http Validate Premises Pipeline Conditions RunFacts.

(** Name the violations and the field each chain of a rule set leaves. *)
Ltac split_chains :=
  repeat match goal with
         | H : context [let (_, _) := ?v in _] |- _ => destruct v eqn:?
         | |- context [let (_, _) := ?v in _] => destruct v eqn:?
         end.

(** No violation at all: none from any chain. *)
Ltac split_errors H :=
  cbn [fst] in H;
  repeat match type of H with
         | _ ++ _ = [] =>
             apply app_eq_nil in H;
             let H1 := fresh "Hnil" in destruct H as [H1 H]
         end.

(** Run the chain of the field [path]. *)
Ltac run_chain_of path :=
  match goal with
  | E : run_chain path _ _ _ = _ |- _ =>
      unfold run_chain in E; cbn [skipped run_steps toString] in E;
      inversion E; subst; clear E
  end.

Lemma map_nil {A B} (f : A -> B) l : map f l = [] -> l = [].
Proof. destruct l; simpl; congruence. Qed.

Lemma verdict_nil (ok : bool) (m : string) rest :
  (if ok then [] else [m]) ++ rest = [] -> ok = true /\ rest = [].
Proof. destruct ok; simpl; [auto | discriminate]. Qed.

(** The violations of a chain are reported for its field. *)
Lemma run_chain_path path p steps v errors v' :
  run_chain path p steps v = (errors, v') ->
  forall e, In e errors -> fst e = path.
Proof.
  unfold run_chain. destruct (skipped p v).
  - intros H; inversion H; subst. intros e [].
  - destruct (run_steps steps v) as [errs w]. intros H; inversion H; subst.
    intros e He. apply in_map_iff in He. destruct He as (m & <- & _). reflexivity.
Qed.

Lemma In_update_where {R} (p : R -> bool) (f : R -> R) rows row :
  In row (update_where p f rows) ->
  In row rows \/ exists r, In r rows /\ p r = true /\ row = f r.
Proof.
  unfold update_where. intros H. apply in_map_iff in H.
  destruct H as (r & Hr & Hin). destruct (p r) eqn:E.
  - right. exists r. auto.
  - left. subst. exact Hin.
Qed.

Section Rules.

Variable xss : string -> string.
Variable isEmail : string -> bool.
Variable isURL : string -> bool.
Variable normalizeEmail : string -> string.
Variable jwt_verify : string -> Z -> Thrown + option Z.
Variable bcrypt_hash : string -> string.

Local Abbreviation route :=
  (Pipeline.route xss isEmail isURL normalizeEmail jwt_verify bcrypt_hash).

(** The phone of a body without violations *)
Lemma chiropractorValidation_phone b :
  fst (chiropractorValidation xss isEmail isURL normalizeEmail b) = [] ->
  let phone := trim (toString (cb_phone b)) in
  cb_phone (snd (chiropractorValidation xss isEmail isURL normalizeEmail b)) = Some phone
  /\ phone_re phone = true /\ (String.length phone <= 50)%nat.
Proof.
  intros H phone. unfold chiropractorValidation in *.
  split_chains. split_errors H. cbn [snd cb_phone].
  run_chain_of "phone".
  match goal with E : map _ _ = [] |- _ => apply map_nil in E; rename E into Hp end.
  apply verdict_nil in Hp. destruct Hp as [_ Hp].
  apply verdict_nil in Hp. destruct Hp as [Hre Hp].
  apply verdict_nil in Hp. destruct Hp as [Hlen _].
  split; [reflexivity|]. split; [exact Hre|].
  unfold isLength in Hlen. simpl in Hlen. apply Nat.leb_le in Hlen. exact Hlen.
Qed.

Lemma phone_re_not_empty s : phone_re s = true -> (1 <= String.length s)%nat.
Proof. destruct s; simpl; [discriminate | lia]. Qed.

Lemma create_chiropractor_phone env req b p d d' r row :
  Listings.create_chiropractor env req b d = (d', r) ->
  cb_phone b = Some p ->
  In row (chiropractors d') -> In row (chiropractors d) \/ c_phone row = p.
Proof.
  unfold Listings.create_chiropractor, ChiroSql.insert_chiropractor. unfold_db.
  intros H Hp Hin. rewrite Hp in H.
  repeat (break_in H; simpl in H); inversion H; subst; simpl in *; auto;
    try discriminate;
    repeat match goal with
           | E : (_, _) = (_, _) |- _ => inversion E; subst; clear E
           end; simpl in *; auto;
    try (apply in_app_or in Hin; destruct Hin as [Hin | [<- | []]]; auto).
Qed.

Lemma update_chiropractor_phone env req id b p d d' r row :
  Listings.update_chiropractor_handler env req id b d = (d', r) ->
  cb_phone b = Some p ->
  In row (chiropractors d') -> In row (chiropractors d) \/ c_phone row = p.
Proof.
  unfold Listings.update_chiropractor_handler, ChiroSql.update_chiropractor,
    ChiroSql.select_by_id.
  unfold_db. intros H Hp Hin. rewrite Hp in H.
  repeat (break_in H; simpl in H); inversion H; subst; simpl in *; auto;
    try discriminate;
    repeat match goal with
           | E : (_, _) = (_, _) |- _ => inversion E; subst; clear E
           end; simpl in *; auto;
    try (apply In_update_where in Hin;
         destruct Hin as [Hin | (r0 & _ & _ & ->)]; auto).
Qed.


(** The key and the value of a new setting without violations *)
Lemma settingsValidation_key b :
  fst (settingsValidation xss b) = [] ->
  let key := trim (toString (sb_setting_key b)) in
  sb_setting_key (snd (settingsValidation xss b)) = Some key
  /\ key_re key = true /\ (String.length key <= 255)%nat.
Proof.
  intros H key. unfold settingsValidation in *.
  split_chains. split_errors H. cbn [snd sb_setting_key].
  run_chain_of "setting_key".
  match goal with E : map _ _ = [] |- _ => apply map_nil in E; rename E into Hp end.
  apply verdict_nil in Hp. destruct Hp as [_ Hp].
  apply verdict_nil in Hp. destruct Hp as [Hlen Hp].
  apply verdict_nil in Hp. destruct Hp as [Hre _].
  split; [reflexivity|]. split; [exact Hre|].
  unfold isLength in Hlen. simpl in Hlen. apply Nat.leb_le in Hlen. exact Hlen.
Qed.

Lemma settingsValidation_value b :
  sb_setting_value (snd (settingsValidation xss b))
  = match sb_setting_value b with
    | Some v => Some (xss (trim v))
    | None => None
    end.
Proof.
  unfold settingsValidation. split_chains. cbn [snd sb_setting_value].
  match goal with
  | E : run_chain "setting_value" _ _ _ = _ |- _ =>
      unfold run_chain in E; destruct (sb_setting_value b);
      simpl in E; inversion E; reflexivity
  end.
Qed.

Lemma create_setting_row env req b k d d' r row :
  Settings.create_setting env req b d = (d', r) ->
  sb_setting_key b = Some k ->
  In row (site_settings d') ->
  In row (site_settings d)
  \/ (s_key row = k /\ s_value row = Some (Blog.or_else (sb_setting_value b) "")).
Proof.
  unfold Settings.create_setting, Settings.insert_setting. unfold_db.
  intros H Hk Hin. rewrite Hk in H.
  repeat (break_in H; simpl in H); inversion H; subst; simpl in *; auto;
    try discriminate;
    repeat match goal with
           | E : (_, _) = (_, _) |- _ => inversion E; subst; clear E
           end; simpl in *; auto;
    try (apply in_app_or in Hin; destruct Hin as [Hin | [<- | []]]; auto).
Qed.


(** X8. No chain stops at its first violation: a listing whose name is
    absent or blank is reported twice for [name], as required and as too
    short, ahead of the violations of the other fields. *)
Theorem blank_name_is_reported_twice :
  forall b : ChiroBody,
    trim (toString (cb_name b)) = "" ->
    exists rest,
      fst (chiropractorValidation xss isEmail isURL normalizeEmail b)
      = ("name", "Name is required")
        :: ("name", "Name must be between 2 and 255 characters") :: rest
      /\ forall e, In e rest -> fst e <> "name".
Proof.
  intros b Hblank. unfold chiropractorValidation.
  split_chains. cbn [fst].
  repeat match goal with
         | E : run_chain ?p _ _ _ = (?l, _) |- _ =>
             lazymatch p with
             | "name" => fail
             | _ =>
                 let P := fresh "Hpath" in
                 pose proof (run_chain_path _ _ _ _ _ _ E) as P; clear E
             end
         end.
  run_chain_of "name". rewrite Hblank. simpl.
  eexists. split; [reflexivity|].
  intros e He.
  repeat (apply in_app_or in He; destruct He as [He | He]);
    match goal with
    | Hp : forall e, In e ?l -> fst e = _, Hi : In _ ?l |- _ =>
        rewrite (Hp _ Hi); discriminate
    end.
Qed.

End Rules.


Lemma blank_name_is_reported_twice_witness :
  fst (chiropractorValidation Sample.plain Sample.has_at Sample.has_scheme toLowerCase
         (mkChiroBody (Some "  ") (Some "Texas") (Some "789 Oak Lane, Houston")
            (Some "(555) 345-6789") (Some "emily@chiro.com") None None None None))
  = [("name", "Name is required");
     ("name", "Name must be between 2 and 255 characters")].
Proof.
  destruct (blank_name_is_reported_twice Sample.plain Sample.has_at Sample.has_scheme
              toLowerCase
              (mkChiroBody (Some "  ") (Some "Texas") (Some "789 Oak Lane, Houston")
                 (Some "(555) 345-6789") (Some "emily@chiro.com") None None None None)
              eq_refl) as (rest & H & _).
  reflexivity.
Defined.


End ValidationMore.

(* ================================================================== *)
(** ** Writes to records that are not there, or that must stay *)
(* ================================================================== *)

Module TargetFacts.
Import Js Db Http Validate Premises Pipeline Conditions RunFacts.

Lemma update_where_none {R} (p : R -> bool) (f : R -> R) rows :
  filter p rows = [] -> update_where p f rows = rows.
Proof.
  unfold update_where. induction rows as [|r rows IH]; simpl; auto.
  destruct (p r); [discriminate|]. intros H. f_equal. auto.
Qed.

Lemma restore_of_missing env req id d :
  fault env TChiropractors = false ->
  filter (ChiroSql.has_id id) (chiropractors d) = [] ->
  Listings.restore_chiropractor env req id d
  = (d, error 404 "Chiropractor not found").
Proof.
  intros Hup Hmiss.
  unfold Listings.restore_chiropractor, ChiroSql.update_active. unfold_db.
  rewrite Hup. unfold set_chiropractors.
  rewrite (update_where_none _ _ _ Hmiss), Hmiss. destruct d; reflexivity.
Qed.

Section Routes.

Variable xss : string -> string.
Variable isEmail : string -> bool.
Variable isURL : string -> bool.
Variable normalizeEmail : string -> string.
Variable jwt_verify : string -> Z -> Thrown + option Z.
Variable bcrypt_hash : string -> string.

Local Abbreviation route :=
  (Pipeline.route xss isEmail isURL normalizeEmail jwt_verify bcrypt_hash).
Local Abbreviation violations :=
  (Pipeline.violations xss isEmail isURL normalizeEmail).


(** X10. The settings [site_name], [site_description] and [contact_email]
    cannot be deleted: whatever the request, [DELETE /api/settings/:key] on
    one of them leaves the database as it was, and an administrator is
    answered with 400. *)
Theorem core_settings_cannot_be_deleted :
  forall (env : Env) (req : Request) (d : Database) (key : string),
    In key Settings.coreSettings ->
    fst (route env req (DeleteSetting key) d) = d
    /\ forall i, authenticated_admin jwt_verify env req d i ->
                 snd (route env req (DeleteSetting key) d)
                 = error 400 "Cannot delete core settings".
Proof.
  intros env req d key Hcore.
  assert (Hc : existsb (String.eqb key) Settings.coreSettings = true).
  { apply existsb_exists. exists key. split; [exact Hcore | apply String.eqb_refl]. }
  cbn [Pipeline.route]. unfold Settings.delete_setting_route. split.
  - destruct (admin_only jwt_verify env req
                (fun req1 => Settings.delete_setting_handler env req1 key) d)
      as [d' r] eqn:H.
    apply admin_only_inv in H.
    destruct H as [(-> & _) | (u & _ & _ & _ & _ & H & _)]; [reflexivity|].
    unfold Settings.delete_setting_handler in H. rewrite Hc in H.
    unfold_db. inversion H. reflexivity.
  - intros i Hauth.
    rewrite (CollisionFacts.admin_only_pass jwt_verify env req d i) by assumption.
    unfold Settings.delete_setting_handler. rewrite Hc. reflexivity.
Qed.

Lemma set_value_frame env v rows key :
  map setting_frame (update_where (Settings.has_key key) (Settings.set_value env v) rows)
  = map setting_frame rows.
Proof.
  unfold update_where. rewrite map_map. apply map_ext. intros s.
  destruct (Settings.has_key key s); reflexivity.
Qed.

Lemma bulk_loop_frame env entries : forall updated d d' r,
  Settings.bulk_loop env entries updated d = (d', r) ->
  map setting_frame (site_settings d') = map setting_frame (site_settings d)
  /\ users d' = users d /\ chiropractors d' = chiropractors d
  /\ blog_posts d' = blog_posts d.
Proof.
  induction entries as [|[key value] rest IH]; intros updated d d' r H.
  - inversion H; subst. auto.
  - cbn [Settings.bulk_loop] in H. unfold bind at 1 in H.
    unfold Settings.update_value at 1, query in H.
    destruct (fault env TSiteSettings); [inversion H; subst; auto|].
    apply IH in H. simpl in H. rewrite set_value_frame in H. exact H.
Qed.

(** X11. The two routes that change the values of settings, [PUT
    /api/settings/:key] and [POST /api/settings/bulk], change nothing else:
    whatever the request, the table has the same rows with the same ids,
    keys, types and descriptions afterwards (a key that no row has is
    skipped, not created), and the other entity tables are as they were. *)
Theorem setting_updates_keep_the_rows :
  forall (env : Env) (req : Request) (w : AdminWrite) (d : Database),
    (exists key value, w = UpdateSetting key value)
    \/ (exists settings, w = BulkSettings settings) ->
    let d' := fst (route env req w d) in
    map setting_frame (site_settings d') = map setting_frame (site_settings d)
    /\ users d' = users d /\ chiropractors d' = chiropractors d
    /\ blog_posts d' = blog_posts d.
Proof.
  intros env req w d Hw d'. subst d'.
  destruct (route env req w d) as [d' r] eqn:H. cbn [fst].
  destruct Hw as [(key & value & ->) | (settings & ->)]; cbn [Pipeline.route] in H;
    unfold Settings.put_setting, Settings.post_bulk in H;
    apply admin_only_inv in H;
    (destruct H as [(-> & _) | (u & _ & _ & _ & _ & H & _)]; [auto|]).
  - unfold Settings.update_setting, Settings.select_by_key, Settings.update_value in H.
    unfold_db.
    repeat (break_in H; simpl in H); inversion H; subst; simpl; auto;
      repeat match goal with
             | E : (_, _) = (_, _) |- _ => inversion E; subst; clear E
             end; simpl; rewrite ?set_value_frame; auto.
  - unfold Settings.bulk_update in H. destruct settings as [entries|].
    + unfold try_catch, bind at 1 in H.
      destruct (Settings.bulk_loop env entries [] d) as [d1 [e|updated]] eqn:Hloop;
        apply bulk_loop_frame in Hloop.
      * inversion H; subst. exact Hloop.
      * unfold_db.
        repeat (break_in H; simpl in H); inversion H; subst; simpl; auto;
          repeat match goal with
                 | E : (_, _) = (_, _) |- _ => inversion E; subst; clear E
                 end; simpl; auto.
    + unfold_db. inversion H; subst. auto.
Qed.

(** X12. [PUT /api/chiropractors/:id] neither deactivates nor restores a
    listing: whatever the request, the table has the same rows with the
    same ids, active flags and creation times afterwards. *)
Theorem listing_update_keeps_the_flag :
  forall (env : Env) (req : Request) (id : Z) (b : ChiroBody) (d : Database),
    map listing_frame (chiropractors (fst (route env req (UpdateListing id b) d)))
    = map listing_frame (chiropractors d).
Proof.
  intros env req id b d.
  destruct (route env req (UpdateListing id b) d) as [d' r] eqn:H. cbn [fst].
  cbn [Pipeline.route] in H. unfold Listings.put_chiropractor in H.
  apply admin_only_inv in H.
  destruct H as [(-> & _) | (u & _ & _ & _ & _ & H & _)]; [reflexivity|].
  destruct (chiropractorValidation xss isEmail isURL normalizeEmail b) as [errors b1].
  apply validated_inv in H.
  destruct H as [(_ & -> & _) | (_ & H)]; [reflexivity|].
  unfold Listings.update_chiropractor_handler, ChiroSql.update_chiropractor,
    ChiroSql.select_by_id in H.
  unfold_db.
  repeat (break_in H; simpl in H); inversion H; subst; simpl; auto;
    repeat match goal with
           | E : (_, _) = (_, _) |- _ => inversion E; subst; clear E
           end; simpl; auto;
    unfold update_where; rewrite map_map; apply map_ext;
    let row := fresh "row" in
    intros row; destruct (ChiroSql.has_id id row); reflexivity.
Qed.

End Routes.

Lemma core_settings_cannot_be_deleted_witness :
  Pipeline.route Sample.plain Sample.has_at Sample.has_scheme toLowerCase
    Sample.tokens Sample.hash (Sample.at_time 200) Sample.as_admin
    (DeleteSetting "site_name") Sample.db0
  = (Sample.db0, error 400 "Cannot delete core settings").
Proof.
  destruct (core_settings_cannot_be_deleted Sample.plain Sample.has_at
              Sample.has_scheme toLowerCase Sample.tokens Sample.hash
              (Sample.at_time 200) Sample.as_admin Sample.db0 "site_name"
              (or_introl eq_refl)) as [_ _].
  reflexivity.
Defined.

Lemma setting_updates_keep_the_rows_witness :
  let run := Pipeline.route Sample.plain Sample.has_at Sample.has_scheme toLowerCase
               Sample.tokens Sample.hash (Sample.at_time 200) Sample.as_admin
               (BulkSettings (Some [("primary_color", Some "#000000");
                                    ("accent_color", Some "#ffffff")]))
               Sample.db0 in
  map s_key (site_settings (fst run)) = ["site_name"; "primary_color"]
  /\ map s_value (site_settings (fst run))
     = [Some "Just Chiropractor"; Some "#000000"].
Proof.
  intros run.
  destruct (setting_updates_keep_the_rows Sample.plain Sample.has_at
              Sample.has_scheme toLowerCase Sample.tokens Sample.hash
              (Sample.at_time 200) Sample.as_admin
              (BulkSettings (Some [("primary_color", Some "#000000");
                                   ("accent_color", Some "#ffffff")]))
              Sample.db0 (or_intror (ex_intro _ _ eq_refl))) as [_ _].
  split; reflexivity.
Defined.


End TargetFacts.

(* ================================================================== *)
(** ** Creating, finding and deleting *)
(* ================================================================== *)

Module RoundTrips.
Import Js Db Http Validate Premises Pipeline Conditions RunFacts.

(** Run a handler that reported success down to its statements. *)
Ltac run_to_end H :=
  repeat (break_in H; simpl in H); inversion H; subst; clear H;
  simpl in *; try discriminate;
  repeat match goal with
         | E : (_, _) = (_, _) |- _ => inversion E; subst; clear E
         end;
  simpl in *.

Lemma filter_app_none {R} (p : R -> bool) rows row :
  (forall r, In r rows -> p r = false) -> p row = true ->
  filter p (rows ++ [row]) = [row].
Proof.
  intros Hrows Hrow. rewrite filter_app. simpl. rewrite Hrow.
  replace (filter p rows) with (@nil R); [reflexivity|].
  symmetry. induction rows as [|r rows IH]; simpl; auto.
  rewrite (Hrows r) by (left; reflexivity). apply IH.
  intros r' Hr'. apply Hrows. right. exact Hr'.
Qed.

Section Routes.

Variable xss : string -> string.
Variable isEmail : string -> bool.
Variable isURL : string -> bool.
Variable normalizeEmail : string -> string.
Variable jwt_verify : string -> Z -> Thrown + option Z.
Variable bcrypt_hash : string -> string.
Variable collate_le : string -> string -> bool.
Variable ilike : string -> string -> bool.

Local Abbreviation route :=
  (Pipeline.route xss isEmail isURL normalizeEmail jwt_verify bcrypt_hash).

(** X13. [POST /api/settings] with the key of an existing setting is
    answered with 400 and writes nothing. *)
Theorem existing_key_is_refused :
  forall (env : Env) (req : Request) (b : SettingBody) (d : Database)
         (i : Identity),
    authenticated_admin jwt_verify env req d i ->
    fault env TSiteSettings = false ->
    fst (settingsValidation xss b) = [] ->
    existsb (Settings.has_key (trim (toString (sb_setting_key b))))
            (site_settings d) = true ->
    route env req (CreateSetting b) d = (d, error 400 "Setting already exists").
Proof.
  intros env req b d i Hauth Hup Hv Hex.
  cbn [Pipeline.route]. unfold Settings.post_setting.
  rewrite (CollisionFacts.admin_only_pass jwt_verify env req d i) by assumption.
  destruct (ValidationMore.settingsValidation_key xss b Hv) as (Hk & _).
  destruct (settingsValidation xss b) as [errors b1]. simpl in Hv, Hk. subst errors.
  unfold Listings.validated. cbn [handleValidationErrors].
  unfold Settings.create_setting. unfold_db. rewrite Hup, Hk.
  apply CollisionFacts.filter_of_existsb in Hex.
  destruct Hex as (s & rest & Hex).
  match goal with
  | |- context [filter ?p (site_settings d)] =>
      replace (filter p (site_settings d)) with (s :: rest)
        by (symmetry; exact Hex)
  end.
  reflexivity.
Qed.

(** X14. A listing that [POST /api/chiropractors] created is the last row
    of the table, active, with the next id of the sequence, and [GET
    /api/chiropractors/:id] answers it under that id, provided the ids of
    the table were handed out by the sequence; they still are afterwards. *)
Theorem created_listing_is_public :
  forall (env env' : Env) (req : Request) (b : ChiroBody) (d d' : Database)
         (r : Response),
    chiropractor_ids_issued d ->
    route env req (CreateListing b) d = (d', r) ->
    succeeded r = true ->
    fault env' TChiropractors = false ->
    exists row,
      chiropractors d' = chiropractors d ++ [row]
      /\ c_id row = chiropractors_seq d + 1 /\ c_is_active row = true
      /\ Listings.get_chiropractor collate_le ilike env' (c_id row) d'
         = (d', json 200
                  (Obj [("chiropractor",
                         project ["id"; "name"; "state"; "address"; "phone";
                                  "email"; "website"; "specialty"; "description";
                                  "is_featured"; "created_at"]
                                 (chiro_json row))]))
      /\ chiropractor_ids_issued d'.
Proof.
  intros env env' req b d d' r (Hseq & Hids) H Hok Hup.
  destruct (TrailFacts.route_success xss isEmail isURL normalizeEmail jwt_verify
              bcrypt_hash _ _ _ _ _ _ H Hok)
    as (u & _ & _ & _ & _ & _ & Hrun & _).
  cbn [Pipeline.handler] in Hrun.
  unfold Listings.create_chiropractor, ChiroSql.insert_chiropractor in Hrun.
  unfold_db. run_to_end Hrun.
  eexists. split; [reflexivity|]. split; [reflexivity|]. split; [reflexivity|].
  split.
  - unfold Listings.get_chiropractor, idValidation. simpl.
    replace (1 <=? chiropractors_seq d + 1) with true
      by (symmetry; apply Z.leb_le; lia).
    unfold Listings.validated, PublicReads.public_query. cbn [handleValidationErrors].
    unfold_db. simpl. rewrite Hup.
    unfold PublicReads.answer, PublicReads.rows_json, ret.
    rewrite filter_app_none.
    + reflexivity.
    + intros c Hc. unfold ChiroSql.has_id.
      specialize (Hids c Hc).
      destruct (Z.eqb_spec (c_id c) (chiropractors_seq d + 1)); [lia | reflexivity].
    + unfold ChiroSql.has_id. simpl. rewrite Z.eqb_refl. reflexivity.
  - split; simpl; [lia|]. intros c Hc. apply in_app_or in Hc.
    destruct Hc as [Hc | [<- | []]]; [specialize (Hids c Hc); lia | simpl; lia].
Qed.

(** X15. A listing deleted by [DELETE
    /api/admin/chiropractors/:id/permanent] is gone: the rows with the id
    are removed, the others stay as they were, and a later restore finds
    nothing to restore. *)
Theorem permanent_delete_is_final :
  forall (env : Env) (req : Request) (id : Z) (d d' : Database) (r : Response),
    route env req (PermanentDeleteListing id) d = (d', r) ->
    succeeded r = true ->
    chiropractors d' = delete_where (ChiroSql.has_id id) (chiropractors d)
    /\ filter (ChiroSql.has_id id) (chiropractors d') = []
    /\ forall env2 req2 i,
         authenticated_admin jwt_verify env2 req2 d' i ->
         storage_works env2 ->
         route env2 req2 (RestoreListing id) d'
         = (d', error 404 "Chiropractor not found").
Proof.
  intros env req id d d' r H Hok.
  destruct (TrailFacts.route_success xss isEmail isURL normalizeEmail jwt_verify
              bcrypt_hash _ _ _ _ _ _ H Hok)
    as (u & _ & _ & _ & _ & _ & Hrun & _).
  cbn [Pipeline.handler] in Hrun.
  assert (Hrows : chiropractors d'
                  = delete_where (ChiroSql.has_id id) (chiropractors d)).
  { unfold Listings.permanent_delete_chiropractor, ChiroSql.select_by_id,
      ChiroSql.delete_chiropractor in Hrun.
    unfold_db. run_to_end Hrun. reflexivity. }
  assert (Hgone : filter (ChiroSql.has_id id) (chiropractors d') = []).
  { rewrite Hrows. apply TrailFacts.filter_deleted. }
  split; [exact Hrows|]. split; [exact Hgone|].
  intros env2 req2 i Hauth Hup.
  cbn [Pipeline.route]. unfold Listings.post_restore.
  rewrite (CollisionFacts.admin_only_pass jwt_verify env2 req2 d' i) by assumption.
  apply TargetFacts.restore_of_missing; [apply Hup | exact Hgone].
Qed.

End Routes.

Lemma existing_key_is_refused_witness :
  Pipeline.route Sample.plain Sample.has_at Sample.has_scheme toLowerCase
    Sample.tokens Sample.hash (Sample.at_time 200) Sample.as_admin
    (CreateSetting (mkSettingBody (Some "primary_color") (Some "#111111") None None))
    Sample.db0
  = (Sample.db0, error 400 "Setting already exists").
Proof.
  apply (existing_key_is_refused Sample.plain Sample.has_at Sample.has_scheme
           toLowerCase Sample.tokens Sample.hash (Sample.at_time 200)
           Sample.as_admin _ Sample.db0 (identity_of Sample.admin)).
  - exists "admin.jwt", (Some 1), Sample.admin, []. repeat split; reflexivity.
  - reflexivity.
  - reflexivity.
  - reflexivity.
Defined.

Lemma created_listing_is_public_witness :
  let run := Pipeline.route Sample.plain Sample.has_at Sample.has_scheme toLowerCase
               Sample.tokens Sample.hash (Sample.at_time 200) Sample.as_admin
               (CreateListing Sample.new_listing) Sample.db0 in
  exists row,
    chiropractors (fst run) = [Sample.sarah; row] /\ c_id row = 2 /\
    status (snd (Listings.get_chiropractor String.leb Sample.contains_all
                   (Sample.at_time 300) 2 (fst run))) = 200.
Proof.
  intros run.
  destruct (created_listing_is_public Sample.plain Sample.has_at Sample.has_scheme
              toLowerCase Sample.tokens Sample.hash String.leb Sample.contains_all
              (Sample.at_time 200) (Sample.at_time 300) Sample.as_admin
              Sample.new_listing Sample.db0 (fst run) (snd run))
    as (row & Hrows & Hid & _ & Hget & _).
  - split; [simpl; lia|]. intros c [<- | []]. simpl. lia.
  - reflexivity.
  - reflexivity.
  - reflexivity.
  - exists row. split; [exact Hrows|]. split; [exact Hid|].
    change 2 with (chiropractors_seq Sample.db0 + 1). rewrite <- Hid, Hget.
    reflexivity.
Defined.

Lemma permanent_delete_is_final_witness :
  let run := Pipeline.route Sample.plain Sample.has_at Sample.has_scheme toLowerCase
               Sample.tokens Sample.hash (Sample.at_time 200) Sample.as_admin
               (PermanentDeleteListing 1) Sample.db0 in
  chiropractors (fst run) = []
  /\ snd (Pipeline.route Sample.plain Sample.has_at Sample.has_scheme toLowerCase
            Sample.tokens Sample.hash (Sample.at_time 300) Sample.as_admin
            (RestoreListing 1) (fst run))
     = error 404 "Chiropractor not found".
Proof.
  intros run.
  destruct (permanent_delete_is_final Sample.plain Sample.has_at Sample.has_scheme
              toLowerCase Sample.tokens Sample.hash (Sample.at_time 200)
              Sample.as_admin 1 Sample.db0 (fst run) (snd run) eq_refl eq_refl)
    as (Hrows & _ & Hrestore).
  split; [rewrite Hrows; reflexivity|].
  rewrite (Hrestore (Sample.at_time 300) Sample.as_admin (identity_of Sample.admin)).
  - reflexivity.
  - exists "admin.jwt", (Some 1), Sample.admin, []. repeat split; reflexivity.
  - intros t. reflexivity.
Defined.

End RoundTrips.

(* ================================================================== *)
(** ** More on the blog routes *)
(* ================================================================== *)

Module BlogMore.
Import Js Db Http Validate Premises Pipeline Conditions RunFacts.

#[local] Arguments post_json : simpl never.
#[local] Arguments project : simpl never.
#[local] Arguments Slug.createSlug : simpl never.
#[local] Arguments toString36 : simpl never.
#[local] Arguments substring0 : simpl never.
#[local] Arguments Blog.fits : simpl never.
#[local] Arguments varchar : simpl never.
#[local] Arguments String.eqb : simpl never.
#[local] Arguments String.append : simpl never.
#[local] Arguments Blog.unique_slug : simpl never.
#[local] Arguments Blog.or_substring : simpl never.

Lemma In_updated {R} (p : R -> bool) (f : R -> R) rows row :
  In row (update_where p f rows) -> p row = true ->
  (forall r, p (f r) = p r) ->
  exists r, In r rows /\ p r = true /\ row = f r.
Proof.
  unfold update_where. intros H Hp Hf. apply in_map_iff in H.
  destruct H as (r & Hr & Hin). exists r. destruct (p r) eqn:E.
  - auto.
  - subst row. congruence.
Qed.

Lemma or_null_again v s :
  ChiroSql.or_null v = Some s -> ChiroSql.or_null (Some s) = Some s.
Proof.
  unfold ChiroSql.or_null. destruct v as [x|]; [|discriminate].
  destruct (is_empty x) eqn:E; [discriminate|].
  intros H. injection H as <-. rewrite E. reflexivity.
Qed.

Section Routes.

Variable xss : string -> string.
Variable isEmail : string -> bool.
Variable isURL : string -> bool.
Variable normalizeEmail : string -> string.
Variable jwt_verify : string -> Z -> Thrown + option Z.
Variable bcrypt_hash : string -> string.

Local Abbreviation route :=
  (Pipeline.route xss isEmail isURL normalizeEmail jwt_verify bcrypt_hash).

(** X16. A successful [POST /api/admin/blog-posts/:id/toggle-publish]
    flips the flag of the post: unpublishing clears [published_at];
    publishing keeps an earlier time of publication and stamps the time of
    the request when there is none.  The flag and the time agree
    afterwards. *)
Theorem toggle_publish_sets_flag_and_time :
  forall (env : Env) (req : Request) (id : Z) (d d' : Database) (r : Response),
    route env req (TogglePublish id) d = (d', r) ->
    succeeded r = true ->
    exists cur rest,
      filter (Blog.has_id id) (blog_posts d) = cur :: rest
      /\ forall p, In p (blog_posts d') -> p_id p = id ->
           p_is_published p = negb (p_is_published cur)
           /\ p_published_at p
              = (if p_is_published cur then None
                 else Some (match p_published_at cur with
                            | Some t => t
                            | None => now env
                            end))
           /\ publication_consistent p.
Proof.
  intros env req id d d' r H Hok.
  destruct (TrailFacts.route_success xss isEmail isURL normalizeEmail jwt_verify
              bcrypt_hash _ _ _ _ _ _ H Hok)
    as (u & _ & _ & _ & _ & _ & Hrun & _).
  cbn [Pipeline.handler] in Hrun.
  unfold Blog.toggle_publish, Blog.update_published, Blog.select_by_id in Hrun.
  unfold_db.
  repeat (break_in Hrun; simpl in Hrun); inversion Hrun; subst; clear Hrun;
    simpl in *; try discriminate;
    repeat match goal with
           | E : (_, _) = (_, _) |- _ => inversion E; subst; clear E
           end;
    simpl in *;
    do 2 eexists; (split; [reflexivity|]);
    intros q Hq Hid;
    (apply In_updated in Hq;
     [|unfold Blog.has_id; apply Z.eqb_eq; exact Hid | reflexivity]);
    destruct Hq as (r0 & _ & _ & ->); simpl;
    match goal with
    | E : negb (p_is_published ?p) = _ |- _ =>
        destruct (p_is_published p); simpl in E; try discriminate
    end;
    unfold publication_consistent; simpl;
    repeat split; try reflexivity; try congruence; try discriminate;
    match goal with
    | E : p_published_at _ = _ |- _ => rewrite E; reflexivity
    end.
Qed.

(** What a successful update stores in the rows with the id *)
Lemma update_post_success env req id b d d' r :
  Blog.update_post_handler env req id b d = (d', r) -> succeeded r = true ->
  exists cur rest t slug,
    filter (Blog.has_id id) (blog_posts d) = cur :: rest
    /\ pb_title b = Some t
    /\ (Blog.differs (pb_title b) (p_title cur) = false -> slug = p_slug cur)
    /\ forall p, In p (blog_posts d') -> p_id p = id ->
         p_title p = t /\ p_slug p = slug
         /\ p_is_published p = Blog.not_false (pb_is_published b)
         /\ p_published_at p = updated_time env (pb_is_published b) cur.
Proof.
  unfold Blog.update_post_handler, Blog.update_post, Blog.select_by_id.
  unfold_db. intros H Hok.
  repeat (break_in H; simpl in H; TrailFacts.settle_reads);
    inversion H; subst; clear H; simpl in *; try discriminate;
    TrailFacts.absurd_run;
    do 4 eexists; (split; [reflexivity|]); (split; [reflexivity|]);
    (split; [let Hd := fresh in
             intros Hd; simpl in Hd; first [congruence | reflexivity]|]);
    intros q Hq Hid;
    (apply In_updated in Hq;
     [|unfold Blog.has_id; apply Z.eqb_eq; exact Hid | reflexivity]);
    destruct Hq as (r0 & _ & _ & ->); simpl;
    unfold updated_time;
    repeat match goal with
           | E : _ = _ |- _ => rewrite E
           end;
    repeat split; reflexivity.
Qed.

(** The title and the flag that the rules hand to the handler *)
Lemma blogPostValidation_passes b :
  pb_title (snd (blogPostValidation xss isURL b))
  = Some (xss (trim (toString (pb_title b))))
  /\ pb_is_published (snd (blogPostValidation xss isURL b)) = pb_is_published b.
Proof.
  unfold blogPostValidation. ValidationMore.split_chains.
  cbn [snd pb_title pb_is_published].
  ValidationMore.run_chain_of "title". simpl.
  rewrite SanitizerFacts.trim_idempotent. split; reflexivity.
Qed.

(** X17. [PUT /api/blog/:id] with a body that has no [is_published] leaves
    the post published and without a time of publication: the flag is
    stored as [is_published !== false], the time as for an unpublished
    post. *)
Theorem update_without_flag_publishes_undated :
  forall (env : Env) (req : Request) (id : Z) (b : PostBody) (d d' : Database)
         (r : Response),
    route env req (UpdatePost id b) d = (d', r) ->
    succeeded r = true ->
    pb_is_published b = None ->
    forall p, In p (blog_posts d') -> p_id p = id ->
      p_is_published p = true /\ p_published_at p = None.
Proof.
  intros env req id b d d' r H Hok Hflag p Hp Hid.
  destruct (TrailFacts.route_success xss isEmail isURL normalizeEmail jwt_verify
              bcrypt_hash _ _ _ _ _ _ H Hok)
    as (u & _ & _ & _ & _ & _ & Hrun & _).
  cbn [Pipeline.handler] in Hrun.
  destruct (update_post_success _ _ _ _ _ _ _ Hrun Hok)
    as (cur & rest & t & slug & _ & _ & _ & Hrows).
  destruct (Hrows p Hp Hid) as (_ & _ & Hpub & Hat).
  destruct (blogPostValidation_passes b) as [_ Hsame].
  rewrite Hsame, Hflag in Hpub, Hat. split; [exact Hpub | exact Hat].
Qed.

(** X18. A successful [PUT /api/blog/:id] whose title, as the rules leave
    it, is the title the post has, keeps the slug of the post. *)
Theorem unchanged_title_keeps_the_slug :
  forall (env : Env) (req : Request) (id : Z) (b : PostBody) (d d' : Database)
         (r : Response) (cur : Post) (rest : list Post),
    route env req (UpdatePost id b) d = (d', r) ->
    succeeded r = true ->
    filter (Blog.has_id id) (blog_posts d) = cur :: rest ->
    xss (trim (toString (pb_title b))) = p_title cur ->
    forall p, In p (blog_posts d') -> p_id p = id ->
      p_slug p = p_slug cur /\ p_title p = p_title cur.
Proof.
  intros env req id b d d' r cur rest H Hok Hcur Htitle p Hp Hid.
  destruct (TrailFacts.route_success xss isEmail isURL normalizeEmail jwt_verify
              bcrypt_hash _ _ _ _ _ _ H Hok)
    as (u & _ & _ & _ & _ & _ & Hrun & _).
  cbn [Pipeline.handler] in Hrun.
  destruct (update_post_success _ _ _ _ _ _ _ Hrun Hok)
    as (cur' & rest' & t & slug & Hcur' & Ht & Hslug & Hrows).
  rewrite Hcur in Hcur'. injection Hcur' as <- <-.
  destruct (Hrows p Hp Hid) as (Hpt & Hps & _).
  destruct (blogPostValidation_passes b) as [Htitle' _].
  rewrite Htitle' in Ht, Hslug. injection Ht as <-.
  rewrite Hps, Hpt. split; [|exact Htitle].
  apply Hslug. unfold Blog.differs. rewrite Htitle, String.eqb_refl. reflexivity.
Qed.

(** X19. [PUT /api/blog/:id] does not reset the views: whatever the
    request, the table has the same rows with the same ids, view counters
    and creation times afterwards. *)
Theorem post_update_keeps_the_views :
  forall (env : Env) (req : Request) (id : Z) (b : PostBody) (d : Database),
    map post_frame (blog_posts (fst (route env req (UpdatePost id b) d)))
    = map post_frame (blog_posts d).
Proof.
  intros env req id b d.
  destruct (route env req (UpdatePost id b) d) as [d' r] eqn:H. cbn [fst].
  cbn [Pipeline.route] in H. unfold Blog.put_blog in H.
  apply admin_only_inv in H.
  destruct H as [(-> & _) | (u & _ & _ & _ & _ & H & _)]; [reflexivity|].
  destruct (blogPostValidation xss isURL b) as [errors b1].
  apply validated_inv in H.
  destruct H as [(_ & -> & _) | (_ & H)]; [reflexivity|].
  unfold Blog.update_post_handler, Blog.update_post, Blog.select_by_id in H.
  unfold_db.
  repeat (break_in H; simpl in H; TrailFacts.settle_reads);
    inversion H; subst; clear H; simpl; auto;
    unfold update_where; rewrite map_map; apply map_ext;
    let row := fresh "row" in
    intros row; destruct (Blog.has_id id row); reflexivity.
Qed.

(** X30. A post that [POST /api/blog] created is the last row of the
    table, with no views; its excerpt is the excerpt of the body or, when
    that is absent or empty, the first 200 characters of the content; its
    meta title falls back to the title and its meta description to the
    excerpt of the body and then to the first 160 characters of the content;
    it is published with the time of the request unless the body says
    [is_published: false], and then it has no time of publication. *)
Theorem created_post_defaults :
  forall (env : Env) (req : Request) (b : PostBody) (d d' : Database) (r : Response),
    route env req (CreatePost b) d = (d', r) ->
    succeeded r = true ->
    let b1 := snd (blogPostValidation xss isURL b) in
    exists row content,
      blog_posts d' = blog_posts d ++ [row]
      /\ pb_content b1 = Some content
      /\ p_id row = blog_posts_seq d + 1 /\ p_views row = 0
      /\ p_title row = xss (trim (toString (pb_title b)))
      /\ p_excerpt row
         = Some (match ChiroSql.or_null (pb_excerpt b1) with
                 | Some e => e
                 | None => substring0 200 content
                 end)
      /\ p_meta_title row
         = Some (match ChiroSql.or_null (pb_meta_title b1) with
                 | Some m => m
                 | None => p_title row
                 end)
      /\ p_meta_description row
         = Some (match ChiroSql.or_null (pb_meta_description b1),
                       ChiroSql.or_null (pb_excerpt b1) with
                 | Some m, _ => m
                 | None, Some e => e
                 | None, None => substring0 160 content
                 end)
      /\ p_is_published row = Blog.not_false (pb_is_published b)
      /\ p_published_at row
         = (if Blog.not_false (pb_is_published b) then Some (now env) else None).
Proof.
  intros env req b d d' r H Hok b1.
  destruct (TrailFacts.route_success xss isEmail isURL normalizeEmail jwt_verify
              bcrypt_hash _ _ _ _ _ _ H Hok)
    as (u & _ & _ & _ & _ & _ & Hrun & _).
  cbn [Pipeline.handler] in Hrun. fold b1 in Hrun.
  destruct (blogPostValidation_passes b) as [Htitle Hflag].
  fold b1 in Htitle, Hflag. rewrite <- Hflag.
  clearbody b1. clear H.
  unfold Blog.create_post, Blog.insert_post in Hrun.
  unfold_db. rewrite Htitle in Hrun.
  repeat (break_in Hrun; simpl in Hrun; TrailFacts.settle_reads);
    inversion Hrun; subst; clear Hrun; simpl in *; try discriminate;
    unfold Blog.or_substring in *; unfold_db;
    repeat match goal with
           | E : match ?x with _ => _ end _ = _ |- _ => destruct x eqn:?
           end;
    repeat match goal with
           | E : (_, _) = (_, _) |- _ => inversion E; subst; clear E
           end;
    try discriminate;
    repeat match goal with
           | E : ChiroSql.or_null _ = Some ?s,
             E2 : ChiroSql.or_null (Some ?s) = _ |- _ =>
               rewrite (or_null_again _ _ E) in E2; inversion E2; subst; clear E2
           end;
    do 2 eexists; repeat split; reflexivity.
Qed.

End Routes.

Lemma created_post_defaults_witness :
  let b := mkPostBody (Some "Stretching at the Desk")
             (Some "Five stretches that take two minutes each and keep the neck and the lower back moving through a day at the desk.")
             (Some "Dr. Emily Rodriguez") None None None None None (Some false) in
  let run := Pipeline.route Sample.plain Sample.has_at Sample.has_scheme toLowerCase
               Sample.tokens Sample.hash (Sample.at_time 200) Sample.as_admin
               (CreatePost b) Sample.db0 in
  map p_slug (blog_posts (fst run))
  = ["5-benefits-of-regular-chiropractic-care"; "stretching-at-the-desk"]
  /\ map p_is_published (blog_posts (fst run)) = [true; false]
  /\ map p_published_at (blog_posts (fst run)) = [Some 100; None]
  /\ map p_meta_title (blog_posts (fst run))
     = [Some "5 Benefits of Regular Chiropractic Care"; Some "Stretching at the Desk"].
Proof.
  intros b run.
  destruct (created_post_defaults Sample.plain Sample.has_at Sample.has_scheme
              toLowerCase Sample.tokens Sample.hash (Sample.at_time 200)
              Sample.as_admin b Sample.db0 (fst run) (snd run) eq_refl eq_refl)
    as (row & content & Hrows & _).
  repeat split; reflexivity.
Defined.

Lemma toggle_publish_sets_flag_and_time_witness :
  let run := Pipeline.route Sample.plain Sample.has_at Sample.has_scheme toLowerCase
               Sample.tokens Sample.hash (Sample.at_time 200) Sample.as_admin
               (TogglePublish 1) Sample.db0 in
  map p_is_published (blog_posts (fst run)) = [false]
  /\ map p_published_at (blog_posts (fst run)) = [None].
Proof.
  intros run.
  destruct (toggle_publish_sets_flag_and_time Sample.plain Sample.has_at
              Sample.has_scheme toLowerCase Sample.tokens Sample.hash
              (Sample.at_time 200) Sample.as_admin 1 Sample.db0 (fst run) (snd run)
              eq_refl eq_refl) as (cur & rest & _ & _).
  split; reflexivity.
Defined.

(** The sample post, rewritten under its title without [is_published] *)
Lemma update_without_flag_publishes_undated_witness :
  let run := Pipeline.route Sample.plain Sample.has_at Sample.has_scheme toLowerCase
               Sample.tokens Sample.hash (Sample.at_time 200) Sample.as_admin
               (UpdatePost 1 Sample.same_title) Sample.db0 in
  status (snd run) = 200
  /\ map p_is_published (blog_posts (fst run)) = [true]
  /\ map p_published_at (blog_posts Sample.db0) = [Some 100]
  /\ map p_published_at (blog_posts (fst run)) = [None].
Proof.
  intros run.
  pose proof (update_without_flag_publishes_undated Sample.plain Sample.has_at
                Sample.has_scheme toLowerCase Sample.tokens Sample.hash
                (Sample.at_time 200) Sample.as_admin 1 Sample.same_title Sample.db0
                (fst run) (snd run) eq_refl eq_refl eq_refl) as _.
  repeat split; reflexivity.
Defined.

Lemma unchanged_title_keeps_the_slug_witness :
  let run := Pipeline.route Sample.plain Sample.has_at Sample.has_scheme toLowerCase
               Sample.tokens Sample.hash (Sample.at_time 200) Sample.as_admin
               (UpdatePost 1 Sample.same_title) Sample.db0 in
  map p_slug (blog_posts (fst run)) = ["5-benefits-of-regular-chiropractic-care"]
  /\ map p_author (blog_posts (fst run)) = ["Dr. Michael Chen"].
Proof.
  intros run.
  pose proof (unchanged_title_keeps_the_slug Sample.plain Sample.has_at
                Sample.has_scheme toLowerCase Sample.tokens Sample.hash
                (Sample.at_time 200) Sample.as_admin 1 Sample.same_title Sample.db0
                (fst run) (snd run) Sample.benefits [] eq_refl eq_refl eq_refl
                eq_refl) as _.
  split; reflexivity.
Defined.

End BlogMore.

(* ================================================================== *)
(** ** Accounts, passwords and sessions *)
(* ================================================================== *)

Module AccountFacts.
Import Js Db Http Validate Premises Pipeline Conditions RunFacts.

#[local] Arguments user_json : simpl never.
#[local] Arguments project : simpl never.
#[local] Arguments varchar : simpl never.
#[local] Arguments String.eqb : simpl never.

Ltac run_to_end H :=
  repeat (break_in H; simpl in H); inversion H; subst; clear H;
  simpl in *; try discriminate;
  repeat match goal with
         | E : (_, _) = (_, _) |- _ => inversion E; subst; clear E
         end;
  simpl in *.

Lemma lower_char_not_upper c : is_upper (lower_char c) = false.
Proof. destruct c as [[] [] [] [] [] [] [] []]; reflexivity. Qed.

(** A string in lower case has no capital letter. *)
Lemma lower_has_no_capital s : some_char is_upper (toLowerCase s) = false.
Proof.
  induction s as [|c r IH]; simpl; auto.
  rewrite lower_char_not_upper, IH. reflexivity.
Qed.

Section Routes.

Variable xss : string -> string.
Variable isEmail : string -> bool.
Variable isURL : string -> bool.
Variable normalizeEmail : string -> string.
Variable jwt_verify : string -> Z -> Thrown + option Z.
Variable jwt_sign : Z -> string -> string -> Z -> string.
Variable bcrypt_hash : string -> string.
Variable bcrypt_compare : string -> string -> bool.

Local Abbreviation route :=
  (Pipeline.route xss isEmail isURL normalizeEmail jwt_verify bcrypt_hash).
Local Abbreviation post_login :=
  (Accounts.post_login isEmail normalizeEmail jwt_sign bcrypt_compare).


(** X21. A login with the address of a deactivated account is answered
    with 401 and [Account is deactivated], whatever the password; the
    password is not compared and nothing is written. *)
Theorem deactivated_account_cannot_log_in :
  forall (env : Env) (req : Request) (b : LoginBody) (d : Database) (u : User)
         (others : list User),
    fst (loginValidation isEmail normalizeEmail b) = [] ->
    fault env TUsers = false ->
    filter (Accounts.has_email (Some (login_email normalizeEmail b))) (users d)
      = u :: others ->
    u_is_active u = false ->
    post_login env req b d = (d, error 401 "Account is deactivated").
Proof.
  intros env req b d u others Hv Hup Hrows Hoff.
  rewrite (AuthFacts.post_login_valid isEmail normalizeEmail jwt_sign bcrypt_compare
             env req b d Hv).
  unfold Accounts.login. unfold_db. simpl.
  rewrite Hup. unfold login_email in Hrows. rewrite Hrows, Hoff. reflexivity.
Qed.

(** What [POST /api/admin/users] stores when it reports success *)
Lemma create_user_success env req b d d' r :
  Accounts.create_user bcrypt_hash env req b d = (d', r) -> succeeded r = true ->
  exists e p n,
    ub_email b = Some e /\ ub_password b = Some p /\ ub_name b = Some n /\
    filter (Accounts.has_email (Some e)) (users d) = [] /\
    users d' = users d ++ [mkUser (users_seq d + 1) e (bcrypt_hash p) n "admin"
                                  true (now env) (now env)].
Proof.
  unfold Accounts.create_user, Accounts.insert_user. unfold_db. intros H Hok.
  run_to_end H. do 3 eexists. repeat split; try reflexivity; eassumption.
Qed.

Lemma userValidation_body b :
  snd (userValidation isEmail normalizeEmail b)
  = mkUserBody (Some (normalizeEmail (toString (ub_email b)))) (ub_password b)
               (Some (trim (toString (ub_name b)))).
Proof.
  unfold userValidation, run_chain. simpl.
  repeat match goal with
         | |- context [if ?c then _ else _] => destruct c
         end; reflexivity.
Qed.

(** X22. An account that [POST /api/admin/users] created can log in: it is
    active, an administrator, stored under the normalized address with the
    hash of the password, and [POST /api/auth/login] with that password and
    an address that normalizes and lower-cases to the stored one is
    answered with 200 and a token signed for the account, also set as the
    cookie; provided [bcrypt.compare] accepts a password against its own
    hash. *)
Theorem created_account_can_log_in :
  forall (env env2 : Env) (req req2 : Request) (b : UserBody) (attempt : LoginBody)
         (d d' : Database) (r : Response),
    route env req (CreateUser b) d = (d', r) ->
    succeeded r = true ->
    fst (loginValidation isEmail normalizeEmail attempt) = [] ->
    login_email normalizeEmail attempt = normalizeEmail (toString (ub_email b)) ->
    lb_password attempt = ub_password b ->
    (forall p, bcrypt_compare p (bcrypt_hash p) = true) ->
    fault env2 TUsers = false -> fault env2 TAuditLog = false ->
    exists row,
      users d' = users d ++ [row]
      /\ u_email row = normalizeEmail (toString (ub_email b))
      /\ u_password row = bcrypt_hash (toString (ub_password b))
      /\ u_is_active row = true /\ u_role row = "admin"
      /\ status (snd (post_login env2 req2 attempt d')) = 200
      /\ token_cookie (snd (post_login env2 req2 attempt d'))
         = Some (jwt_sign (u_id row) (u_email row) "admin" (now env2)).
Proof.
  intros env env2 req req2 b attempt d d' r H Hok Hv Hemail Hpw Hbcrypt Hup Haudit.
  destruct (TrailFacts.route_success xss isEmail isURL normalizeEmail jwt_verify
              bcrypt_hash _ _ _ _ _ _ H Hok)
    as (u & _ & _ & _ & _ & _ & Hrun & _).
  cbn [Pipeline.handler] in Hrun. rewrite userValidation_body in Hrun.
  destruct (create_user_success _ _ _ _ _ _ Hrun Hok)
    as (e & p & n & He & Hp & Hn & Hfree & Hrows).
  simpl in He, Hp, Hn. injection He as <-. injection Hn as <-.
  eexists. split; [exact Hrows|]. simpl. rewrite Hp. simpl.
  do 4 (split; [reflexivity|]).
  rewrite (AuthFacts.post_login_valid isEmail normalizeEmail jwt_sign bcrypt_compare
             env2 req2 attempt d' Hv).
  unfold Accounts.login. unfold_db. simpl. rewrite Hup.
  unfold login_email in Hemail. rewrite Hemail, Hrows, filter_app, Hfree.
  cbn [filter app Accounts.has_email u_email]. rewrite String.eqb_refl.
  cbn [app u_is_active negb u_password u_id u_role].
  rewrite Hpw, Hp, Hbcrypt. cbn [negb]. rewrite Haudit.
  split; reflexivity.
Qed.

(** X23. A successful login is for an active account whose stored address
    is the address of the attempt, normalized and in lower case, and whose
    hash [bcrypt.compare] accepts; the token is signed for that account and
    is also the cookie.  An account stored under an address with a capital
    letter is never logged in. *)
Theorem login_is_for_a_matching_account :
  forall (env : Env) (req : Request) (b : LoginBody) (d d' : Database)
         (r : Response),
    post_login env req b d = (d', r) ->
    status r = 200 ->
    exists u,
      In u (users d) /\ u_is_active u = true
      /\ u_email u = login_email normalizeEmail b
      /\ some_char is_upper (u_email u) = false
      /\ bcrypt_compare (toString (lb_password b)) (u_password u) = true
      /\ token_cookie r = Some (jwt_sign (u_id u) (u_email u) (u_role u) (now env))
      /\ users d' = users d.
Proof.
  intros env req b d d' r H Hok.
  unfold Accounts.post_login in H.
  pose proof (AuthFacts.loginValidation_body isEmail normalizeEmail b) as Hb.
  destruct (loginValidation isEmail normalizeEmail b) as [errors b1].
  simpl in Hb. subst b1.
  apply validated_inv in H.
  destruct H as [(_ & _ & _ & H400) | (_ & H)]; [congruence|].
  unfold Accounts.login in H. unfold_db. simpl in H.
  repeat (break_in H; simpl in H); inversion H; subst; clear H;
    simpl in *; try discriminate.
  match goal with
  | E : filter _ (users d) = ?u :: _ |- _ =>
      exists u; apply AuthMore.first_of_filter in E; destruct E as [Hin Hmail]
  end.
  unfold Accounts.has_email in Hmail. apply String.eqb_eq in Hmail.
  split; [exact Hin|].
  split; [match goal with E : negb (u_is_active _) = false |- _ =>
            apply negb_false_iff in E; exact E end|].
  split; [exact Hmail|].
  split; [rewrite Hmail; apply lower_has_no_capital|].
  split; [match goal with E : negb (bcrypt_compare _ _) = false |- _ =>
            apply negb_false_iff in E; exact E end|].
  split; reflexivity.
Qed.

End Routes.

Lemma created_account_can_log_in_witness :
  let b := mkUserBody (Some "Emily@JustChiropractor.com") (Some "Emily123!")
                      (Some "Emily Rodriguez") in
  let run := Pipeline.route Sample.plain Sample.has_at Sample.has_scheme toLowerCase
               Sample.tokens Sample.hash (Sample.at_time 200) Sample.as_admin
               (CreateUser b) Sample.db0 in
  let attempt := mkLoginBody (Some " emily@justchiropractor.com ") (Some "Emily123!") in
  map u_email (users (fst run))
  = ["admin@justchiropractor.com"; "former@justchiropractor.com";
     "emily@justchiropractor.com"]
  /\ status (snd (Accounts.post_login Sample.has_at toLowerCase Sample.sign
                    Sample.compare (Sample.at_time 300) Sample.with_garbage attempt
                    (fst run))) = 200.
Proof.
  intros b run attempt.
  destruct (created_account_can_log_in Sample.plain Sample.has_at Sample.has_scheme
              toLowerCase Sample.tokens Sample.sign Sample.hash Sample.compare
              (Sample.at_time 200) (Sample.at_time 300) Sample.as_admin
              Sample.with_garbage b attempt Sample.db0 (fst run) (snd run)
              eq_refl eq_refl eq_refl eq_refl eq_refl
              (fun p => String.eqb_refl _) eq_refl eq_refl)
    as (row & Hrows & Hmail & _ & _ & _ & Hok & _).
  split; [|exact Hok].
  rewrite Hrows, map_app. simpl. rewrite Hmail. reflexivity.
Defined.

Lemma login_is_for_a_matching_account_witness :
  let run := Accounts.post_login Sample.has_at toLowerCase Sample.sign Sample.compare
               (Sample.at_time 200) Sample.with_garbage
               (mkLoginBody (Some "Admin@JustChiropractor.com") (Some "Admin123!@#"))
               Sample.db0 in
  status (snd run) = 200 /\ token_cookie (snd run) = Some "admin.jwt"
  /\ users (fst run) = users Sample.db0.
Proof.
  intros run.
  destruct (login_is_for_a_matching_account Sample.has_at toLowerCase Sample.sign
              Sample.compare (Sample.at_time 200) Sample.with_garbage
              (mkLoginBody (Some "Admin@JustChiropractor.com") (Some "Admin123!@#"))
              Sample.db0 (fst run) (snd run) eq_refl eq_refl)
    as (u & _ & _ & _ & _ & _ & _ & Hsame).
  split; [reflexivity|]. split; [reflexivity | exact Hsame].
Defined.


Lemma deactivated_account_cannot_log_in_witness :
  Accounts.post_login Sample.has_at toLowerCase Sample.sign Sample.compare
    (Sample.at_time 200) Sample.with_garbage
    (mkLoginBody (Some "Former@JustChiropractor.com") (Some "Former123"))
    Sample.db0
  = (Sample.db0, error 401 "Account is deactivated").
Proof.
  apply (deactivated_account_cannot_log_in Sample.has_at toLowerCase Sample.sign
           Sample.compare (Sample.at_time 200) Sample.with_garbage _ Sample.db0
           Sample.former []); reflexivity.
Defined.

End AccountFacts.

(* ================================================================== *)
(** ** Changing the password, logging out *)
(* ================================================================== *)

Module SessionFacts.
Import Js Db Http Validate Premises Pipeline Conditions RunFacts Session.

#[local] Arguments varchar : simpl never.

Section Routes.

Variable jwt_verify : string -> Z -> Thrown + option Z.
Variable bcrypt_hash : string -> string.
Variable bcrypt_compare : string -> string -> bool.

Local Abbreviation post_change_password :=
  (Session.post_change_password jwt_verify bcrypt_hash bcrypt_compare).
Local Abbreviation post_logout := (Session.post_logout jwt_verify).

(** With a valid credential of an active account, [verifyToken] hands the
    request with that account to the handler. *)
Lemma verified_pass env req d u A refuse handler :
  authenticated jwt_verify env req d u ->
  verified jwt_verify env req A refuse handler d
  = handler (set_user (identity_of u) req) d.
Proof.
  intros (token & subject & others & Htok & Hne & Hjwt & Hf & Hrows & Hon).
  unfold verified, verifyToken. rewrite Htok, Hne.
  unfold try_catch, bind, jwt_verify_m, select, query, ret.
  rewrite Hjwt, Hf, Hrows, Hon. reflexivity.
Qed.

(** The rows [WHERE id = req.user.id] selects *)
Lemma own_rows env req d u :
  authenticated jwt_verify env req d u ->
  exists others, filter (Accounts.has_id (u_id u)) (users d) = u :: others.
Proof.
  intros (token & subject & others & _ & _ & _ & _ & Hrows & _).
  exists others.
  pose proof (AuthMore.first_of_filter _ _ _ _ Hrows) as [_ Hid].
  unfold id_is in Hid. destruct subject as [v|]; [|discriminate].
  apply Z.eqb_eq in Hid. subst v. exact Hrows.
Qed.

(** The rules of a password change alter nothing; a body without
    violations has both passwords, the new one of 8 characters or more with
    a lower-case letter, a capital and a digit on its first line. *)
Lemma passwordValidation_passes b :
  snd (passwordValidation b) = b
  /\ (fst (passwordValidation b) = [] ->
      exists current new,
        pw_currentPassword b = Some current /\ pw_newPassword b = Some new /\
        (8 <= String.length new)%nat /\ strong_re new = true).
Proof.
  unfold passwordValidation, run_chain. simpl.
  destruct b as [[current|] [new|]]; simpl; (split; [reflexivity|]); intros H;
    repeat match type of H with
           | context [if ?c then _ else _] => destruct c eqn:?
           end; simpl in H; try discriminate.
  exists current, new. repeat split; auto.
  match goal with
  | E : isLength 8 None new = true |- _ =>
      unfold isLength in E; rewrite andb_true_r in E; apply Nat.leb_le in E; exact E
  end.
Qed.


(** X25. A successful password change stores the hash of the new password
    in the row of the account and in no other, and records one
    [password_change] entry; the new password has 8 characters or more and,
    on its first line, a lower-case letter, a capital and a digit. *)
Theorem changed_password_is_stored :
  forall (env : Env) (req : Request) (b : PasswordBody) (d d' : Database)
         (r : Response) (u : User),
    authenticated jwt_verify env req d u ->
    post_change_password env req b d = (d', r) ->
    status r = 200 ->
    exists new e,
      pw_newPassword b = Some new
      /\ (8 <= String.length new)%nat /\ strong_re new = true
      /\ bcrypt_compare (toString (pw_currentPassword b)) (u_password u) = true
      /\ users d' = update_where (Accounts.has_id (u_id u))
                                 (set_password env (bcrypt_hash new)) (users d)
      /\ audit_log d' = audit_log d ++ [e]
      /\ a_action e = "password_change" /\ a_user_id e = Some (u_id u).
Proof.
  intros env req b d d' r u Hauth H Hok.
  unfold Session.post_change_password in H.
  rewrite (verified_pass _ _ _ u) in H by assumption.
  destruct (passwordValidation_passes b) as [Hb Hfields].
  destruct (passwordValidation b) as [errors b1]. simpl in Hb, Hfields. subst b1.
  apply validated_inv in H.
  destruct H as [(_ & _ & _ & H400) | (Hv & H)]; [congruence|].
  destruct (Hfields Hv) as (current & new & Hc & Hn & Hlen & Hstrong).
  destruct (own_rows _ _ _ _ Hauth) as (others & Hrows).
  unfold change_password, update_password in H. unfold_db. simpl in H.
  rewrite Hc, Hn in H. rewrite Hc. simpl.
  repeat (break_in H; simpl in H); inversion H; subst; clear H;
    simpl in *; try discriminate;
    repeat match goal with
           | E : (_, _) = (_, _) |- _ => inversion E; subst; clear E
           end;
    simpl in *;
    try (exfalso; eapply TrailFacts.found_so_exists; eassumption).
  injection Hrows as Hu Hl. subst.
  exists new. eexists. split; [exact Hn|]. split; [exact Hlen|].
  split; [exact Hstrong|].
  split; [match goal with E : negb (bcrypt_compare _ _) = false |- _ =>
            apply negb_false_iff in E; exact E end|].
  repeat split; reflexivity.
Qed.

(** The answer of [verifyToken] depends on the table of accounts only. *)
Lemma verifyToken_reads_users env req d1 d2 :
  users d1 = users d2 ->
  snd (verifyToken jwt_verify env req d1) = snd (verifyToken jwt_verify env req d2).
Proof.
  intros Hsame. unfold verifyToken.
  destruct (token_of req) as [token|]; auto.
  destruct (is_empty token); auto.
  unfold try_catch, bind, jwt_verify_m, select, query, ret.
  destruct (jwt_verify token (now env)) as [e|subject]; auto.
  destruct (fault env TUsers); auto. rewrite Hsame.
  destruct (filter _ (users d2)) as [|u others]; auto.
  destruct (negb (u_is_active u)); reflexivity.
Qed.

(** X26. Logging out records the logout and clears the cookie, and that is
    all: [POST /api/auth/logout] leaves the accounts as they were, so
    [verifyToken] answers every credential afterwards as it did before,
    the one of the logout included. *)
Theorem logout_leaves_the_token_valid :
  forall (env env2 : Env) (req req2 : Request) (d : Database),
    let run := post_logout env req d in
    users (fst run) = users d
    /\ snd (verifyToken jwt_verify env2 req2 (fst run))
       = snd (verifyToken jwt_verify env2 req2 d)
    /\ forall u,
         authenticated jwt_verify env req d u ->
         fault env TAuditLog = false ->
         snd run = mkFarewell (json 200 (Obj [("message", Str "Logged out successfully")]))
                              true
         /\ exists e,
              audit_log (fst run) = audit_log d ++ [e]
              /\ a_action e = "logout" /\ a_user_id e = Some (u_id u).
Proof.
  intros env env2 req req2 d run.
  assert (Husers : users (fst run) = users d).
  { subst run. unfold Session.post_logout, verified.
    pose proof (AuthFacts.verifyToken_reads jwt_verify env req d) as Hd.
    destruct (verifyToken jwt_verify env req d) as [d1 [req1 [res|]]];
      simpl in Hd; subst d1; [reflexivity|].
    unfold logout. unfold_db.
    destruct (user req1); simpl; auto.
    destruct (fault env TAuditLog); reflexivity. }
  split; [exact Husers|].
  split; [apply verifyToken_reads_users; exact Husers|].
  intros u Hauth Haudit. subst run.
  unfold Session.post_logout. rewrite (verified_pass _ _ _ u) by assumption.
  unfold logout. unfold_db. simpl. rewrite Haudit. simpl.
  split; [reflexivity|]. eexists. repeat split; reflexivity.
Qed.

End Routes.


Lemma changed_password_is_stored_witness :
  let run := Session.post_change_password Sample.tokens Sample.hash Sample.compare
               (Sample.at_time 200) Sample.as_admin
               (mkPasswordBody (Some "Admin123!@#") (Some "Better456x")) Sample.db0 in
  map u_password (users (fst run)) = [Sample.hash "Better456x"; Sample.hash "Former123"]
  /\ map u_updated_at (users (fst run)) = [200; 30].
Proof.
  intros run.
  destruct (changed_password_is_stored Sample.tokens Sample.hash Sample.compare
              (Sample.at_time 200) Sample.as_admin
              (mkPasswordBody (Some "Admin123!@#") (Some "Better456x")) Sample.db0
              (fst run) (snd run) Sample.admin)
    as (new & e & Hnew & _ & _ & _ & Hrows & _).
  - exists "admin.jwt", (Some 1), []. repeat split; reflexivity.
  - reflexivity.
  - reflexivity.
  - rewrite Hrows. injection Hnew as <-. split; reflexivity.
Defined.

Lemma logout_leaves_the_token_valid_witness :
  let run := Session.post_logout Sample.tokens (Sample.at_time 200) Sample.as_admin
               Sample.db0 in
  cookie_cleared (snd run) = true
  /\ snd (verifyToken Sample.tokens (Sample.at_time 300) Sample.as_admin (fst run))
     = next (set_user (identity_of Sample.admin) Sample.as_admin).
Proof.
  intros run.
  destruct (logout_leaves_the_token_valid Sample.tokens (Sample.at_time 200)
              (Sample.at_time 300) Sample.as_admin Sample.as_admin Sample.db0)
    as (_ & Hsame & Hdone).
  destruct (Hdone Sample.admin) as [Hreply _].
  - exists "admin.jwt", (Some 1), []. repeat split; reflexivity.
  - reflexivity.
  - split; [unfold run; rewrite Hreply; reflexivity|].
    unfold run. rewrite Hsame. reflexivity.
Defined.

End SessionFacts.

(* ================================================================== *)
(** ** The public settings, the page titles and the sitemap *)
(* ================================================================== *)

Module ReadFacts.
Import Js Db Http Validate Conditions RunFacts SettingReads.

Lemma In_assign key value fields k v :
  In (k, v) (assign key value fields) ->
  (k = key /\ v = value) \/ In (k, v) fields.
Proof.
  induction fields as [|[k0 v0] rest IH]; simpl.
  - intros [H | []]. inversion H. auto.
  - destruct (String.eqb_spec k0 key) as [->|Hne]; simpl.
    + intros [H | H]; [inversion H; auto | auto].
    + intros [H | H]; [auto|]. destruct (IH H); auto.
Qed.

Lemma assign_has_key key value fields :
  In key (map fst (assign key value fields)).
Proof.
  induction fields as [|[k0 v0] rest IH]; simpl; auto.
  destruct (String.eqb_spec k0 key) as [->|Hne]; simpl; auto.
Qed.

Lemma assign_keeps_keys key value fields k :
  In k (map fst fields) -> In k (map fst (assign key value fields)).
Proof.
  induction fields as [|[k0 v0] rest IH]; simpl; [intros []|].
  destruct (String.eqb_spec k0 key) as [->|Hne]; simpl; intros [H | H]; auto.
Qed.

(** The properties of the object come from the rows, and every row gives
    one. *)
Lemma settings_object_sound rows : forall acc k v,
  In (k, v) (fold_left (fun fields row => assign (s_key row) (s_value row) fields)
                       rows acc) ->
  In (k, v) acc \/ exists s, In s rows /\ s_key s = k /\ s_value s = v.
Proof.
  induction rows as [|row rows IH]; simpl; intros acc k v H; auto.
  apply IH in H. destruct H as [H | (s & Hs & Hk & Hv)].
  - apply In_assign in H. destruct H as [[-> ->] | H]; auto.
    right. exists row. auto.
  - right. exists s. auto.
Qed.

Lemma settings_object_complete rows : forall acc s,
  In s rows \/ In (s_key s) (map fst acc) ->
  In (s_key s)
     (map fst (fold_left (fun fields row => assign (s_key row) (s_value row) fields)
                         rows acc)).
Proof.
  induction rows as [|row rows IH]; simpl; intros acc s H.
  - destruct H as [[] | H]. exact H.
  - apply IH. destruct H as [[-> | H] | H]; auto.
    + right. apply assign_has_key.
    + right. apply assign_keeps_keys. exact H.
Qed.

(** X27. [GET /api/settings] shows the settings of the table whose key is
    one of the eight public ones, each under its key with its value, and no
    other: a setting under any other key is never in the answer. *)
Theorem public_settings_only :
  forall (env : Env) (d : Database),
    fst (get_settings env d) = d
    /\ (fault env TSiteSettings = true ->
        snd (get_settings env d) = error 500 "Failed to fetch settings")
    /\ (fault env TSiteSettings = false ->
        exists fields,
          snd (get_settings env d) = json 200 (Obj [("settings", Obj fields)])
          /\ (forall key value,
                In (key, value) fields ->
                In key publicSettings /\
                exists s, In s (site_settings d) /\ s_key s = key /\
                          value = opt_str (s_value s))
          /\ (forall s, In s (site_settings d) -> In (s_key s) publicSettings ->
                        In (s_key s) (map fst fields))).
Proof.
  intros env d. unfold get_settings. unfold_db.
  destruct (fault env TSiteSettings); simpl.
  - split; [reflexivity|]. split; [reflexivity | discriminate].
  - split; [reflexivity|]. split; [discriminate|]. intros _.
    eexists. split; [reflexivity|]. split.
    + intros key value H. apply in_map_iff in H.
      destruct H as ([k v] & Hkv & H). simpl in Hkv. inversion Hkv; subst.
      apply settings_object_sound in H. destruct H as [[] | (s & Hs & <- & <-)].
      apply filter_In in Hs. destruct Hs as [Hs Hpub].
      split.
      * unfold key_in in Hpub. apply existsb_exists in Hpub.
        destruct Hpub as (k & Hk & Heq). apply String.eqb_eq in Heq.
        rewrite Heq. exact Hk.
      * exists s. auto.
    + intros s Hs Hpub. rewrite map_map. simpl.
      apply settings_object_complete. left. apply filter_In. split; [exact Hs|].
      unfold key_in. apply existsb_exists. exists (s_key s).
      split; [exact Hpub | apply String.eqb_refl].
Qed.

Lemma property_of_assign key value fields k :
  k <> key -> property k (assign key value fields) = property k fields.
Proof.
  intros Hne. induction fields as [|[k0 v0] rest IH]; simpl.
  - destruct (String.eqb_spec key k); [congruence | reflexivity].
  - destruct (String.eqb_spec k0 key) as [->|Hk]; simpl.
    + destruct (String.eqb_spec key k); [congruence | reflexivity].
    + destruct (String.eqb_spec k0 k); auto.
Qed.

Lemma property_missing rows k : forall acc,
  (forall s, In s rows -> s_key s <> k) ->
  property k (fold_left (fun fields row => assign (s_key row) (s_value row) fields)
                        rows acc)
  = property k acc.
Proof.
  induction rows as [|row rows IH]; simpl; intros acc H; auto.
  rewrite IH by (intros s Hs; apply H; auto).
  apply property_of_assign. intros ->. apply (H row); auto.
Qed.


Lemma append_assoc (a b c : string) : ((a ++ b) ++ c = a ++ b ++ c)%string.
Proof. induction a as [|x a IH]; simpl; [reflexivity | rewrite IH; reflexivity]. Qed.

Section Sitemap.

Variable SITE_URL : option string.
Variable encodeURIComponent : string -> string.
Variable iso_day : Z -> string.
Variable collate_le : string -> string -> bool.

Local Abbreviation generateSitemap :=
  (Sitemap.generateSitemap SITE_URL encodeURIComponent iso_day collate_le).

(** X29. [generateSitemap] never fails and never writes: its result is the
    header, the three static pages, what the statements gave before the
    first one that failed, and the closing tag.  With the storage of the
    listings failing that is nothing; with the storage of the posts failing
    it is the states only, the listings are left out with the posts. *)
Theorem sitemap_survives_storage_failures :
  forall (env : Env) (d : Database),
    fst (generateSitemap env d) = d
    /\ exists middle,
         snd (generateSitemap env d)
         = (Sitemap.header ++ Sitemap.static_pages SITE_URL ++ middle
            ++ Sitemap.closing)%string
         /\ (fault env TChiropractors = true -> middle = "")
         /\ (fault env TChiropractors = false -> fault env TBlogPosts = true ->
             middle
             = Sitemap.concat_all
                 (map (Sitemap.state_url SITE_URL encodeURIComponent)
                      (PublicReads.distinct_states collate_le
                         (filter c_is_active (chiropractors d))))).
Proof.
  intros env d.
  unfold Sitemap.generateSitemap, Sitemap.select_states, Sitemap.select_posts,
    Sitemap.select_chiropractors, query.
  generalize Sitemap.header (Sitemap.static_pages SITE_URL) Sitemap.closing.
  intros h s c.
  destruct (fault env TChiropractors) eqn:Hc.
  - split; [reflexivity|]. exists "". cbn [fst snd].
    split; [apply append_assoc|]. split; [reflexivity | discriminate].
  - destruct (fault env TBlogPosts) eqn:Hb.
    + split; [reflexivity|]. cbn [fst snd].
      match goal with
      | |- exists _, ((_ ++ ?X) ++ _ = _)%string /\ _ => exists X
      end.
      split; [rewrite !append_assoc; reflexivity|].
      split; [discriminate | reflexivity].
    + split; [reflexivity|]. cbn [fst snd].
      match goal with
      | |- exists _, (((_ ++ ?X) ++ ?Y) ++ ?Z ++ _ = _)%string /\ _ =>
          exists (X ++ Y ++ Z)%string
      end.
      split; [rewrite !append_assoc; reflexivity|].
      split; discriminate.
Qed.

End Sitemap.

Lemma public_settings_only_witness :
  let hidden := mkSetting 4 "contact_email" (Some "contact@justchiropractor.com")
                          (Some "text") None 10 10 in
  let d := mkDb [] [] [] [Sample.site_name; hidden; Sample.primary_color] [] 0 0 0 5 0 in
  snd (get_settings (Sample.at_time 200) d)
  = json 200 (Obj [("settings", Obj [("site_name", Str "Just Chiropractor");
                                     ("primary_color", Str "#2563eb")])]).
Proof.
  intros hidden d.
  destruct (public_settings_only (Sample.at_time 200) d) as (_ & _ & H).
  destruct (H eq_refl) as (fields & Hbody & _).
  reflexivity.
Defined.


Lemma sitemap_survives_storage_failures_witness :
  let down := mkEnv 200 (fun _ => true) (fun id => id) in
  snd (Sitemap.generateSitemap None (fun s => s) (fun _ => "2025-01-01") String.leb
         down Sample.db0)
  = (Sitemap.header ++ Sitemap.static_pages None ++ Sitemap.closing)%string.
Proof.
  intros down.
  destruct (sitemap_survives_storage_failures None (fun s => s)
              (fun _ => "2025-01-01") String.leb down Sample.db0)
    as (_ & middle & H & Hdown & _).
  rewrite H, (Hdown eq_refl). reflexivity.
Defined.

End ReadFacts.
